(** * Feng RTSP server: the client connection core

    A shallow embedding of [rtsp_client.c] (listener, per-client runner,
    timeout monitor, client registry and teardown) and the properties the
    design document states about it.

    Conventions of the embedding.
    - Non-null addresses are [positive]; a nullable C pointer is an
      [option ptr], [None] standing for [NULL].
    - The heap of [RTSP_Client] structures is a finite map; reading or
      freeing an address that is not allocated is undefined behaviour in C
      and the model stops there ([None] in the monad [M]).
    - Calls into libev, glib, the kernel and the RTSP/RTP layers are not
      part of this file of the server: each is recorded as an [event] in a
      chronological trace, and whatever such a call answers is supplied by
      an explicit environment record. *)

From stdpp Require Import gmap strings list fin_maps.
From Stdlib Require Import ZArith Lia.

Open Scope Z_scope.

(** ** Constants *)

Definition LIVE_STREAM_BYE_TIMEOUT : Z := 6.
Definition STREAM_TIMEOUT : Z := 12.

(** [IPPROTO_TCP] and [IPPROTO_SCTP] of <netinet/in.h>. *)
Definition IPPROTO_TCP : Z := 6.
Definition IPPROTO_SCTP : Z := 132.

(** What the build fixes: the [ENABLE_SCTP] and [CLEANUP_DESTRUCTOR]
    switches of config.h, and the integer values of the [socktype]
    enumerators, which are declared in network/rtsp.h. *)
Record build := Build {
  ENABLE_SCTP : bool;
  CLEANUP_DESTRUCTOR : bool;
  RTSP_TCP : Z;
  RTSP_SCTP : Z;
}.

(** ** Data model *)

Definition ptr := positive.

(** The source kinds of media/media.h. *)
Inductive MediaSource := STORED_SOURCE | LIVE_SOURCE.

Global Instance MediaSource_eq_dec : EqDecision MediaSource.
Proof. solve_decision. Defined.

Record Resource := { source : MediaSource }.
Record Track := { parent : Resource }.

(** [time_t] is taken as a signed 64-bit integer; a difference that
    leaves the range wraps. The statements below are about differences
    that stay in range. *)
Definition time_t_bits : Z := 64.
Definition time_t_min : Z := - 2 ^ (time_t_bits - 1).
Definition time_t_max : Z := 2 ^ (time_t_bits - 1) - 1.

Definition wrap_signed (bits x : Z) : Z :=
  (x + 2 ^ (bits - 1)) mod 2 ^ bits - 2 ^ (bits - 1).

Definition time_t_sub (a b : Z) : Z := wrap_signed time_t_bits (a - b).

(** The fields of an RTP session (network/rtp.h) that this file reads:
    [session->track->parent->source], [session->last_packet_send_time] and
    [session->client]. *)
Record RTP_session := {
  track : Track;
  last_packet_send_time : Z;
  client : option ptr;
}.

(** [rtp_sessions] is a [GSList]; [NULL] is the empty list. *)
Record RTSP_session := { rtp_sessions : list RTP_session }.

(** The structure behind [client->pair]: the two clients of an HTTP
    tunnel. *)
Record HTTP_Tunnel_Pair := {
  rtsp_client : option ptr;
  http_client : option ptr;
}.

Inductive callback :=
  | rtsp_tcp_write_cb
  | rtsp_tcp_read_cb
  | rtsp_sctp_read_cb
  | client_ev_timeout_cb.

Inductive ev_mask := EV_READ | EV_WRITE.

Record ev_io := {
  io_data : option ptr;
  io_cb : option callback;
  io_fd : Z;
  io_events : option ev_mask;
}.

Record ev_timer := {
  timer_data : option ptr;
  timer_cb : option callback;
  timer_repeat : Z;
}.

(** The functions [client->write_data] is set to. *)
Inductive write_strategy := rtsp_write_data_queue | rtsp_sctp_send_rtsp.

(** The fields of [RTSP_Client] (network/rtsp.h) that this file reads or
    writes. The buffers and strings it owns are values of the record;
    [pending_request], which this file only frees, is left out. *)
Record RTSP_Client := {
  sd : Z;
  socktype : Z;
  loop : option ptr;
  ev_io_write : ev_io;
  ev_timeout : ev_timer;
  input : option (list Byte.byte);
  out_queue : option (list (list Byte.byte));
  write_data : option write_strategy;
  session : option RTSP_session;
  channels : option (list (Z * RTP_session));
  vhost : option ptr;
  pair : option HTTP_Tunnel_Pair;
  local_host : option string;
  remote_host : option string;
  sa_len : Z;
  peer_sa : option (list Byte.byte);
  local_sa : option (list Byte.byte);
}.

(** ** Calls that leave this file *)

Inductive log_level := FNC_LOG_ERR | FNC_LOG_INFO.

(** The one kind of RTCP packet this file asks for. *)
Inductive rtcp_pkt_type := BYE.

Inductive event :=
  | E_fnc_perror (msg : string)
  | E_fnc_log (lvl : log_level) (msg : string) (args : list Z)
  | E_rtcp_send_sr (s : RTP_session) (t : rtcp_pkt_type)
  | E_ev_unloop (l : option ptr)
  | E_ev_timer_again (l : option ptr) (w : ev_timer)
  | E_ev_io_start (l : option ptr) (w : ev_io)
  | E_ev_loop (l : option ptr)
  | E_ev_io_stop (l : option ptr) (w : ev_io)
  | E_ev_timer_stop (l : option ptr) (w : ev_timer)
  | E_ev_loop_destroy (l : option ptr)
  | E_g_mutex_lock
  | E_g_mutex_unlock
  | E_g_ptr_array_add (c : ptr)
  | E_g_ptr_array_remove_fast (c : ptr)
  | E_g_thread_pool_push (c : ptr)
  | E_g_ptr_array_free
  | E_g_thread_pool_free
  | E_g_mutex_free
  | E_accept (fd : Z)
  | E_getsockname (fd : Z)
  | E_getsockopt (fd : Z)
  | E_ev_loop_new
  | E_close (fd : Z)
  | E_rtsp_session_free (s : option RTSP_session)
  | E_g_slice_free_RTSP_Client (c : ptr).

(** ** The state the core works on

    [clients] is the heap of live [RTSP_Client] structures; [vhosts] maps a
    virtual host to its [connection_count]; [clients_list] is the registry
    (a [GPtrArray]); [client_threads] is what has been pushed to the thread
    pool; [client_ev_init_errors] is the thread-local flag of the thread
    that runs the function being followed (a pool thread for
    [client_loop], the listener's thread for [rtsp_client_incoming_cb]);
    [feng_default_vhost] is the global of that name. [wall_clock k] is
    what the [k]-th call of [time(NULL)] answers. The connection count is
    an unbounded integer here. *)
Record world := World {
  clients : gmap ptr RTSP_Client;
  vhosts : gmap ptr Z;
  feng_default_vhost : option ptr;
  clients_list : list ptr;
  client_threads : list ptr;
  client_ev_init_errors : Z;
  wall_clock : nat -> Z;
  time_calls : nat;
  trace : list event;
}.

Definition set_clients (h : gmap ptr RTSP_Client) (w : world) : world :=
  World h (vhosts w) (feng_default_vhost w) (clients_list w) (client_threads w)
        (client_ev_init_errors w) (wall_clock w) (time_calls w) (trace w).

Definition set_vhosts (v : gmap ptr Z) (w : world) : world :=
  World (clients w) v (feng_default_vhost w) (clients_list w) (client_threads w)
        (client_ev_init_errors w) (wall_clock w) (time_calls w) (trace w).

Definition set_clients_list (l : list ptr) (w : world) : world :=
  World (clients w) (vhosts w) (feng_default_vhost w) l (client_threads w)
        (client_ev_init_errors w) (wall_clock w) (time_calls w) (trace w).

Definition set_client_threads (l : list ptr) (w : world) : world :=
  World (clients w) (vhosts w) (feng_default_vhost w) (clients_list w) l
        (client_ev_init_errors w) (wall_clock w) (time_calls w) (trace w).

Definition set_client_ev_init_errors (z : Z) (w : world) : world :=
  World (clients w) (vhosts w) (feng_default_vhost w) (clients_list w)
        (client_threads w) z (wall_clock w) (time_calls w) (trace w).

Definition set_time_calls (n : nat) (w : world) : world :=
  World (clients w) (vhosts w) (feng_default_vhost w) (clients_list w)
        (client_threads w) (client_ev_init_errors w) (wall_clock w) n (trace w).

Definition set_trace (t : list event) (w : world) : world :=
  World (clients w) (vhosts w) (feng_default_vhost w) (clients_list w)
        (client_threads w) (client_ev_init_errors w) (wall_clock w) (time_calls w) t.

(** ** A state monad with undefined behaviour *)

Definition M (A : Type) : Type := world -> option (A * world).

Global Instance M_ret : MRet M := fun A a w => Some (a, w).
Global Instance M_bind : MBind M := fun A B f m w =>
  match m w with
  | Some (a, w') => f a w'
  | None => None
  end.

Definition undefined_behaviour {A} : M A := fun _ => None.

Definition emit (e : event) : M unit :=
  fun w => Some (tt, set_trace (trace w ++ [e]) w).

Definition gets {A} (f : world -> A) : M A := fun w => Some (f w, w).

Definition modify (f : world -> world) : M unit := fun w => Some (tt, f w).

(** [*p] for a pointer to an [RTSP_Client]. *)
Definition deref (p : option ptr) : M RTSP_Client := fun w =>
  match p with
  | Some a =>
      match clients w !! a with
      | Some c => Some (c, w)
      | None => None
      end
  | None => None
  end.

(** [*p = c] for an allocated [RTSP_Client]. *)
Definition store (a : ptr) (c : RTSP_Client) : M unit := fun w =>
  match clients w !! a with
  | Some _ => Some (tt, set_clients (<[a := c]> (clients w)) w)
  | None => None
  end.

Definition when (b : bool) (m : M unit) : M unit := if b then m else mret tt.

(** [g_slist_foreach] and [g_ptr_array_foreach]. *)
Fixpoint foreach {A} (f : A -> M unit) (l : list A) : M unit :=
  match l with
  | [] => mret tt
  | x :: t => f x ;; foreach f t
  end.

(** [time(NULL)]. *)
Definition time_NULL : M Z := fun w =>
  Some (wall_clock w (time_calls w), set_time_calls (S (time_calls w)) w).

(** ** TimeoutMonitor *)

(** [rtcp_send_sr] belongs to the RTP layer; here it is the emission of the
    packet, and it leaves the session fields read below as they are. *)
Definition check_if_any_rtp_session_timedout (element : RTP_session) : M unit :=
  let session := element in
  now ← time_NULL;
  when (bool_decide (source (parent (track session)) = LIVE_SOURCE) &&
        (LIVE_STREAM_BYE_TIMEOUT <=?
           time_t_sub now (last_packet_send_time session)))
    (emit (E_fnc_log FNC_LOG_INFO "[client] Soft stream timeout" []) ;;
     emit (E_rtcp_send_sr session BYE)) ;;
  when (STREAM_TIMEOUT <=? time_t_sub now (last_packet_send_time session))
    (emit (E_fnc_log FNC_LOG_INFO
             "[client] Stream Timeout, client kicked off!" []) ;;
     c ← deref (client session);
     emit (E_ev_unloop (loop c))).

Definition client_ev_timeout (l : option ptr) (w : ev_timer) : M unit :=
  rtsp ← deref (timer_data w);
  match session rtsp with
  | Some s =>
      match rtp_sessions s with
      | [] => mret tt
      | _ :: _ => foreach check_if_any_rtp_session_timedout (rtp_sessions s)
      end
  | None => mret tt
  end ;;
  emit (E_ev_timer_again l w).

(** ** ClientRegistry *)

(** [g_ptr_array_remove_fast]: the first occurrence of [data] is
    overwritten by the last element and the array shrinks by one. *)
Fixpoint g_ptr_array_remove_fast (l : list ptr) (data : ptr) : list ptr :=
  match l with
  | [] => []
  | x :: t =>
      if bool_decide (x = data) then
        match t with
        | [] => []
        | _ :: _ => List.last t x :: removelast t
        end
      else x :: g_ptr_array_remove_fast t data
  end.

(** The two locked updates of the registry in [client_loop]. *)
Definition clients_list_add (c : ptr) : M unit :=
  emit E_g_mutex_lock ;;
  modify (fun w => set_clients_list (clients_list w ++ [c]) w) ;;
  emit (E_g_ptr_array_add c) ;;
  emit E_g_mutex_unlock.

Definition clients_list_remove (c : ptr) : M unit :=
  emit E_g_mutex_lock ;;
  modify (fun w =>
    set_clients_list (g_ptr_array_remove_fast (clients_list w) c) w) ;;
  emit (E_g_ptr_array_remove_fast c) ;;
  emit E_g_mutex_unlock.

(** [clients_each]: the whole iteration runs under the lock. *)
Definition clients_each (func : ptr -> M unit) : M unit :=
  emit E_g_mutex_lock ;;
  l ← gets clients_list;
  foreach func l ;;
  emit E_g_mutex_unlock.

Definition client_disconnect (element : ptr) : M unit :=
  client ← deref (Some element);
  emit (E_ev_unloop (loop client)).

Definition clients_cleanup (cfg : build) : M unit :=
  clients_each client_disconnect ;;
  when (CLEANUP_DESTRUCTOR cfg)
    (emit E_g_ptr_array_free ;;
     emit E_g_thread_pool_free ;;
     emit E_g_mutex_free).

(** ** ClientRunner *)

Definition libev_syserr (msg : string) : M unit :=
  emit (E_fnc_perror msg) ;;
  modify (set_client_ev_init_errors 1).

(** Assignments to one field of an [RTSP_Client]. *)
Definition with_ev_io_write (x : ev_io) (c : RTSP_Client) : RTSP_Client :=
  {| sd := sd c; socktype := socktype c; loop := loop c; ev_io_write := x;
     ev_timeout := ev_timeout c; input := input c; out_queue := out_queue c;
     write_data := write_data c; session := session c; channels := channels c;
     vhost := vhost c; pair := pair c; local_host := local_host c;
     remote_host := remote_host c; sa_len := sa_len c; peer_sa := peer_sa c;
     local_sa := local_sa c |}.

Definition with_ev_timeout (x : ev_timer) (c : RTSP_Client) : RTSP_Client :=
  {| sd := sd c; socktype := socktype c; loop := loop c;
     ev_io_write := ev_io_write c; ev_timeout := x; input := input c;
     out_queue := out_queue c; write_data := write_data c; session := session c;
     channels := channels c; vhost := vhost c; pair := pair c;
     local_host := local_host c; remote_host := remote_host c;
     sa_len := sa_len c; peer_sa := peer_sa c; local_sa := local_sa c |}.

Definition with_loop (x : option ptr) (c : RTSP_Client) : RTSP_Client :=
  {| sd := sd c; socktype := socktype c; loop := x;
     ev_io_write := ev_io_write c; ev_timeout := ev_timeout c; input := input c;
     out_queue := out_queue c; write_data := write_data c; session := session c;
     channels := channels c; vhost := vhost c; pair := pair c;
     local_host := local_host c; remote_host := remote_host c;
     sa_len := sa_len c; peer_sa := peer_sa c; local_sa := local_sa c |}.

(** What the surroundings of one [client_loop] call do: the messages libev
    hands to the syserr callback while the read watcher is started and
    while the loop runs, and everything that happens between the call of
    [ev_loop] and its return (the callbacks of this client, the other
    threads): events, and changes to the shared structures. The flag of
    this thread is out of their reach: it is thread-local, and
    [libev_syserr] is the one place that writes it. *)
Record loop_env := {
  io_start_syserr : list string;
  run_syserr : list string;
  run_events : list event;
  run_clients : gmap ptr RTSP_Client -> gmap ptr RTSP_Client;
  run_vhosts : gmap ptr Z -> gmap ptr Z;
  run_clients_list : list ptr -> list ptr;
  run_client_threads : list ptr -> list ptr;
  run_time_calls : nat;
}.

Definition ev_io_start (env : loop_env) (l : option ptr) (w : ev_io) : M unit :=
  emit (E_ev_io_start l w) ;;
  foreach libev_syserr (io_start_syserr env).

Definition ev_loop (env : loop_env) (l : option ptr) : M unit :=
  emit (E_ev_loop l) ;;
  modify (fun w =>
    World (run_clients env (clients w)) (run_vhosts env (vhosts w))
          (feng_default_vhost w) (run_clients_list env (clients_list w))
          (run_client_threads env (client_threads w))
          (client_ev_init_errors w) (wall_clock w)
          (time_calls w + run_time_calls env)%nat
          (trace w ++ run_events env)) ;;
  foreach libev_syserr (run_syserr env).

(** [g_slice_free(RTSP_Client, client)]. *)
Definition g_slice_free_RTSP_Client (a : ptr) : M unit := fun w =>
  match clients w !! a with
  | Some _ =>
      Some (tt, set_trace (trace w ++ [E_g_slice_free_RTSP_Client a])
                  (set_clients (delete a (clients w)) w))
  | None => None
  end.

(** The host strings, the channel table, the output queue, the input
    buffer, the pending request and the socket addresses are owned by the
    structure and go with it. *)
Definition rtsp_client_free (client : option ptr) : M unit :=
  c ← deref client;
  emit (E_close (sd c)) ;;
  emit (E_rtsp_session_free (session c)) ;;
  match client with
  | Some a => g_slice_free_RTSP_Client a
  | None => undefined_behaviour
  end ;;
  emit (E_fnc_log FNC_LOG_INFO "[client] Client removed" []).

(** [client->vhost->connection_count += d]. *)
Definition connection_count_add (v : option ptr) (d : Z) : M unit := fun w =>
  match v with
  | Some a =>
      match vhosts w !! a with
      | Some n => Some (tt, set_vhosts (<[a := n + d]> (vhosts w)) w)
      | None => None
      end
  | None => None
  end.

(** The read watcher as the [switch (client->socktype)] initialises it;
    [io_read] starts out as [{ .data = client }]. *)
Definition io_read_init (cfg : build) (client_p : ptr) (c : RTSP_Client)
  : ev_io :=
  if socktype c =? RTSP_TCP cfg then
    {| io_data := Some client_p; io_cb := Some rtsp_tcp_read_cb;
       io_fd := sd c; io_events := Some EV_READ |}
  else if ENABLE_SCTP cfg && (socktype c =? RTSP_SCTP cfg) then
    {| io_data := Some client_p; io_cb := Some rtsp_sctp_read_cb;
       io_fd := sd c; io_events := Some EV_READ |}
  else
    {| io_data := Some client_p; io_cb := None; io_fd := 0;
       io_events := None |}.

(** [client_loop], from its entry to the test of the error flag: the
    watchers are set up and the read watcher is started. The result is the
    two locals the rest of the function uses, [loop] and [io_read]. *)
Definition client_loop_watchers (cfg : build) (env : loop_env) (client_p : ptr)
  : M (option ptr * ev_io) :=
  let client := Some client_p in
  c0 ← deref client;
  let loop := loop c0 in
  when (socktype c0 =? RTSP_TCP cfg)
    (store client_p
       (with_ev_io_write
          {| io_data := client; io_cb := Some rtsp_tcp_write_cb;
             io_fd := sd c0; io_events := Some EV_WRITE |} c0)) ;;
  let io_read := io_read_init cfg client_p c0 in
  ev_io_start env loop io_read ;;
  c1 ← deref client;
  store client_p
    (with_ev_timeout
       {| timer_data := client; timer_cb := Some client_ev_timeout_cb;
          timer_repeat := STREAM_TIMEOUT |} c1) ;;
  mret (loop, io_read).

(** The body of [if (client_ev_init_errors == 0)]: the client is in the
    registry from just before [ev_loop] is called until its watchers have
    been stopped after [ev_loop] returned. *)
Definition client_loop_registered (env : loop_env) (client_p : ptr)
    (loop : option ptr) (io_read : ev_io) : M unit :=
  clients_list_add client_p ;;
  ev_loop env loop ;;
  c2 ← deref (Some client_p);
  emit (E_ev_io_stop loop io_read) ;;
  emit (E_ev_io_stop loop (ev_io_write c2)) ;;
  emit (E_ev_timer_stop loop (ev_timeout c2)) ;;
  clients_list_remove client_p.

(** The end of [client_loop]: the connection count, the loop, and the
    special handling of the clients of an HTTP tunnel. *)
Definition client_loop_cleanup (client_p : ptr) (loop : option ptr) : M unit :=
  let client := Some client_p in
  c3 ← deref client;
  connection_count_add (vhost c3) (-1) ;;
  store client_p (with_loop None c3) ;;
  emit (E_ev_loop_destroy loop) ;;
  match pair c3 with
  | None => rtsp_client_free client
  | Some p =>
      if bool_decide (rtsp_client p = client) then
        rtsp_client_free (http_client p) ;;
        rtsp_client_free client
      else mret tt
  end.

Definition client_loop (cfg : build) (env : loop_env) (client_p : ptr)
  : M unit :=
  '(loop, io_read) ← client_loop_watchers cfg env client_p;
  errors ← gets client_ev_init_errors;
  when (errors =? 0) (client_loop_registered env client_p loop io_read) ;;
  client_loop_cleanup client_p loop.

(** A pool thread serves the clients it is handed one after the other. *)
Fixpoint pool_thread (cfg : build) (jobs : list (loop_env * ptr)) : M unit :=
  match jobs with
  | [] => mret tt
  | (env, c) :: rest => client_loop cfg env c ;; pool_thread cfg rest
  end.

(** ** Listener and Admitter *)

Record feng_socket_listener := { fd : Z }.

(** What the kernel and the libraries answer during one call of the
    listener callback. *)
Record accept_env := {
  accept_ret : Z;
  peer : list Byte.byte;
  peer_len : Z;
  getsockname_ret : Z;
  bound : list Byte.byte;
  bound_len : Z;
  getsockopt_ret : Z;
  so_protocol : Z;
  ev_loop_new_ret : option ptr;
  ev_loop_new_syserr : list string;
  neb_sa_get_host_bound : option string;
  neb_sa_get_host_peer : option string;
}.

(** [g_slice_new0(RTSP_Client)]: every field zero. *)
Definition RTSP_Client_zero : RTSP_Client :=
  {| sd := 0; socktype := 0; loop := None;
     ev_io_write :=
       {| io_data := None; io_cb := None; io_fd := 0; io_events := None |};
     ev_timeout :=
       {| timer_data := None; timer_cb := None; timer_repeat := 0 |};
     input := None; out_queue := None; write_data := None; session := None;
     channels := None; vhost := None; pair := None; local_host := None;
     remote_host := None; sa_len := 0; peer_sa := None; local_sa := None |}.

Definition g_slice_new0_RTSP_Client : M ptr := fun w =>
  let a := fresh (dom (clients w)) in
  Some (a, set_clients (<[a := RTSP_Client_zero]> (clients w)) w).

Definition g_slice_copy (n : Z) (mem : list Byte.byte) : list Byte.byte :=
  take (Z.to_nat n) mem.

Definition g_thread_pool_push (c : ptr) : M unit :=
  modify (fun w => set_client_threads (client_threads w ++ [c]) w) ;;
  emit (E_g_thread_pool_push c).

(** The [switch (sock_proto)] of the listener: the transport kind, the
    output queue and the write strategy it assigns, each left as
    [g_slice_new0] made it where no case assigns it. *)
Definition sock_proto_switch (cfg : build) (sock_proto : Z)
  : M (Z * option (list (list Byte.byte)) * option write_strategy) :=
  if sock_proto =? IPPROTO_TCP then
    mret (RTSP_TCP cfg, Some [], Some rtsp_write_data_queue)
  else if ENABLE_SCTP cfg && (sock_proto =? IPPROTO_SCTP) then
    mret (RTSP_SCTP cfg, out_queue RTSP_Client_zero, Some rtsp_sctp_send_rtsp)
  else
    emit (E_fnc_log FNC_LOG_ERR "Invalid socket protocol: %d" [sock_proto]) ;;
    mret (socktype RTSP_Client_zero, out_queue RTSP_Client_zero,
          write_data RTSP_Client_zero).

(** The listener callback. [feng_assert_or_goto] is a macro of feng.h; it
    is read here as [if (!cond) goto label]. The source writes the new
    structure field by field; the model writes it once every value is
    known. [input] is assigned before the switch on the protocol, in every
    case; the kind, the queue and the strategy come from the switch. *)
Definition rtsp_client_incoming_cb (cfg : build) (k : accept_env)
    (listen : feng_socket_listener) : M unit :=
  emit (E_accept (fd listen)) ;;
  let client_sd := accept_ret k in
  if client_sd <? 0 then
    emit (E_fnc_perror "accept failed")
  else
    let error := emit (E_close client_sd) in
    emit (E_getsockname client_sd) ;;
    if getsockname_ret k <? 0 then
      emit (E_fnc_perror "getsockname") ;; error
    else if negb (peer_len k =? bound_len k) then
      error
    else
      when (ENABLE_SCTP cfg) (emit (E_getsockopt client_sd)) ;;
      if ENABLE_SCTP cfg && (getsockopt_ret k <? 0) then
        emit (E_fnc_perror "getsockopt") ;; error
      else
        let sock_proto :=
          if ENABLE_SCTP cfg then so_protocol k else IPPROTO_TCP in
        emit (E_fnc_log FNC_LOG_INFO
                "Incoming connection accepted on socket: %d" [client_sd]) ;;
        rtsp ← g_slice_new0_RTSP_Client;
        emit E_ev_loop_new ;;
        foreach libev_syserr (ev_loop_new_syserr k) ;;
        '(kind, queue, strategy) ← sock_proto_switch cfg sock_proto;
        default_vhost ← gets feng_default_vhost;
        store rtsp
          {| sd := client_sd; socktype := kind; loop := ev_loop_new_ret k;
             ev_io_write := ev_io_write RTSP_Client_zero;
             ev_timeout := ev_timeout RTSP_Client_zero;
             input := Some []; out_queue := queue; write_data := strategy;
             session := None; channels := None; vhost := default_vhost;
             pair := None;
             local_host := neb_sa_get_host_bound k;
             remote_host := neb_sa_get_host_peer k;
             sa_len := peer_len k;
             peer_sa := Some (g_slice_copy (peer_len k) (peer k));
             local_sa := Some (g_slice_copy (peer_len k) (bound k)) |} ;;
        connection_count_add default_vhost 1 ;;
        g_thread_pool_push rtsp.

(** ** Writing to a client *)

(** [rtsp_write_string]. The bytes of the [GString] become the packet
    without being copied ([outpkt->data = string->str], [outpkt->len =
    string->len]; [g_string_free(string, false)] frees the container
    only), and the packet is handed to [client->write_data]. The
    strategies are defined in other files of the server: the model ends
    in the call itself, the strategy with its two arguments. A call
    through a null [write_data] is undefined. *)
Definition rtsp_write_string (client : option ptr) (string : list Byte.byte)
  : M (write_strategy * option ptr * list Byte.byte) :=
  let outpkt := string in
  c ← deref client;
  match write_data c with
  | Some f => mret (f, client, outpkt)
  | None => undefined_behaviour
  end.

(** * Vocabulary of the statements *)

(** The events a computation adds to the trace, when it is defined. *)
Definition events_of {A} (m : M A) (w : world) : option (list event) :=
  match m w with
  | Some (_, w') => Some (drop (length (trace w)) (trace w'))
  | None => None
  end.

(** The world a computation ends in ([w] itself where it is undefined). *)
Definition world_after {A} (m : M A) (w : world) : world :=
  match m w with
  | Some (_, w') => w'
  | None => w
  end.

(** [*p] without the monad: the structure a nullable pointer leads to. *)
Definition lookup_client (w : world) (p : option ptr) : option RTSP_Client :=
  match p with
  | Some a => clients w !! a
  | None => None
  end.

(** The session's idle time as the monitor computes it at its [k]-th
    reading of the clock, without the wrap-around. *)
Definition idle_at (w : world) (k : nat) (s : RTP_session) : Z :=
  wall_clock w k - last_packet_send_time s.



Definition is_ev_loop (e : event) : bool :=
  match e with
  | E_ev_loop _ => true
  | _ => false
  end.

Definition is_registry_add (e : event) : bool :=
  match e with
  | E_g_ptr_array_add _ => true
  | _ => false
  end.

Definition is_registry_remove (e : event) : bool :=
  match e with
  | E_g_ptr_array_remove_fast _ => true
  | _ => false
  end.

(** An event that neither runs a loop nor touches the registry. *)
Definition outside_loop_and_registry (e : event) : Prop :=
  is_ev_loop e = false /\ is_registry_add e = false /\
  is_registry_remove e = false.

(** The addresses handed to [g_slice_free(RTSP_Client, _)], in order. *)
Fixpoint freed (evs : list event) : list ptr :=
  match evs with
  | [] => []
  | E_g_slice_free_RTSP_Client c :: rest => c :: freed rest
  | _ :: rest => freed rest
  end.

(** What the two branches of the monitor emit. *)
Definition soft_events (s : RTP_session) : list event :=
  [E_fnc_log FNC_LOG_INFO "[client] Soft stream timeout" [];
   E_rtcp_send_sr s BYE].

Definition hard_events (c : RTSP_Client) : list event :=
  [E_fnc_log FNC_LOG_INFO "[client] Stream Timeout, client kicked off!" [];
   E_ev_unloop (loop c)].

(** The flag after libev has handed [msgs] to [libev_syserr]. *)
Definition flag_after (msgs : list string) (flag : Z) : Z :=
  match msgs with
  | [] => flag
  | _ :: _ => 1
  end.

(** The client's structure once [client_loop_watchers] is through. *)
Definition watched (cfg : build) (client_p : ptr) (c : RTSP_Client)
  : RTSP_Client :=
  with_ev_timeout
    {| timer_data := Some client_p; timer_cb := Some client_ev_timeout_cb;
       timer_repeat := STREAM_TIMEOUT |}
    (if socktype c =? RTSP_TCP cfg then
       with_ev_io_write
         {| io_data := Some client_p; io_cb := Some rtsp_tcp_write_cb;
            io_fd := sd c; io_events := Some EV_WRITE |} c
     else c).

(** A client as the listener hands it to the pool: allocated, not paired,
    and counted by an existing virtual host. *)
Definition ready (w : world) (c : ptr) : Prop :=
  exists c0 v,
    clients w !! c = Some c0 /\ pair c0 = None /\
    vhost c0 = Some v /\ is_Some (vhosts w !! v).

(** The pair teardown as the design document words it: a client that is
    paired and is not the RTSP-carrying side frees itself. *)
Definition documented_frees (c : ptr) (link : option HTTP_Tunnel_Pair)
  : list ptr :=
  match link with
  | None => [c]
  | Some p =>
      if bool_decide (rtsp_client p = Some c) then
        match http_client p with
        | Some sibling => [sibling; c]
        | None => [c]
        end
      else [c]
  end.

(** What [sock_proto_switch] assigns and logs, case by case. *)
Definition switch_result (cfg : build) (sock_proto : Z)
  : Z * option (list (list Byte.byte)) * option write_strategy :=
  if sock_proto =? IPPROTO_TCP then
    (RTSP_TCP cfg, Some [], Some rtsp_write_data_queue)
  else if ENABLE_SCTP cfg && (sock_proto =? IPPROTO_SCTP) then
    (RTSP_SCTP cfg, None, Some rtsp_sctp_send_rtsp)
  else (0, None, None).

Definition switch_log (cfg : build) (sock_proto : Z) : list event :=
  if sock_proto =? IPPROTO_TCP then []
  else if ENABLE_SCTP cfg && (sock_proto =? IPPROTO_SCTP) then []
  else [E_fnc_log FNC_LOG_ERR "Invalid socket protocol: %d" [sock_proto]].

(** The protocol the listener switches on. *)
Definition sock_proto_of (cfg : build) (k : accept_env) : Z :=
  if ENABLE_SCTP cfg then so_protocol k else IPPROTO_TCP.

(** The structure the listener hands to the pool. *)
Definition admitted_client (cfg : build) (k : accept_env) (v : option ptr)
  : RTSP_Client :=
  {| sd := accept_ret k;
     socktype := (switch_result cfg (sock_proto_of cfg k)).1.1;
     loop := ev_loop_new_ret k;
     ev_io_write := ev_io_write RTSP_Client_zero;
     ev_timeout := ev_timeout RTSP_Client_zero;
     input := Some [];
     out_queue := (switch_result cfg (sock_proto_of cfg k)).1.2;
     write_data := (switch_result cfg (sock_proto_of cfg k)).2;
     session := None; channels := None; vhost := v; pair := None;
     local_host := neb_sa_get_host_bound k;
     remote_host := neb_sa_get_host_peer k;
     sa_len := peer_len k;
     peer_sa := Some (g_slice_copy (peer_len k) (peer k));
     local_sa := Some (g_slice_copy (peer_len k) (bound k)) |}.

(** The events of an admission. *)
Definition admission_events (cfg : build) (k : accept_env)
    (listen : feng_socket_listener) (rtsp : ptr) : list event :=
  [E_accept (fd listen); E_getsockname (accept_ret k)] ++
  (if ENABLE_SCTP cfg then [E_getsockopt (accept_ret k)] else []) ++
  [E_fnc_log FNC_LOG_INFO "Incoming connection accepted on socket: %d"
     [accept_ret k];
   E_ev_loop_new] ++
  map E_fnc_perror (ev_loop_new_syserr k) ++
  switch_log cfg (sock_proto_of cfg k) ++
  [E_g_thread_pool_push rtsp].

(** * Sample states

    Concrete builds, clients, sessions and worlds on which the statements
    below are instantiated. *)

Definition sample_build : build := Build true false 0 1.

Definition sample_session (src : MediaSource) (last : Z) (owner : ptr)
  : RTP_session :=
  {| track := {| parent := {| source := src |} |};
     last_packet_send_time := last;
     client := Some owner |}.

Definition sample_client (descriptor : Z) (lp : ptr) (ss : list RTP_session)
    (p : option HTTP_Tunnel_Pair) : RTSP_Client :=
  {| sd := descriptor; socktype := 0; loop := Some lp;
     ev_io_write := ev_io_write RTSP_Client_zero;
     ev_timeout := ev_timeout RTSP_Client_zero;
     input := Some []; out_queue := Some [];
     write_data := Some rtsp_write_data_queue;
     session := Some {| rtp_sessions := ss |}; channels := None;
     vhost := Some 9%positive; pair := p; local_host := None;
     remote_host := None; sa_len := 0; peer_sa := Some [];
     local_sa := Some [] |}.

Definition sample_world (h : gmap ptr RTSP_Client) (now : Z) : world :=
  {| clients := h; vhosts := {[ 9%positive := 2 ]};
     feng_default_vhost := Some 9%positive; clients_list := [];
     client_threads := []; client_ev_init_errors := 0;
     wall_clock := fun _ => now; time_calls := 0; trace := [] |}.

(** A client with a LIVE session idle for 7 seconds and a STORED session
    idle for 13 seconds, at time 1000. *)
Definition monitored_world : world :=
  sample_world
    {[ 1%positive :=
         sample_client 5 7%positive
           [sample_session LIVE_SOURCE 993 1%positive;
            sample_session STORED_SOURCE 987 1%positive] None ]}
    1000.

Definition monitored_timer : ev_timer :=
  {| timer_data := Some 1%positive; timer_cb := Some client_ev_timeout_cb;
     timer_repeat := STREAM_TIMEOUT |}.

(** An environment in which nothing happens while the loop runs. *)
Definition quiet_env : loop_env :=
  {| io_start_syserr := []; run_syserr := []; run_events := [];
     run_clients := fun h => h; run_vhosts := fun v => v;
     run_clients_list := fun l => l; run_client_threads := fun l => l;
     run_time_calls := 0 |}.

(** An environment in which starting the read watcher fails. *)
Definition failing_env : loop_env :=
  {| io_start_syserr := ["(libev) epoll_ctl"%string]; run_syserr := [];
     run_events := []; run_clients := fun h => h; run_vhosts := fun v => v;
     run_clients_list := fun l => l; run_client_threads := fun l => l;
     run_time_calls := 0 |}.

(** Two unpaired clients waiting for a pool thread. *)
Definition waiting_world : world :=
  sample_world
    {[ 1%positive := sample_client 5 7%positive [] None;
       2%positive := sample_client 6 8%positive [] None ]}
    1000.

(** The two clients of an HTTP tunnel: 1 carries RTSP (the POST
    connection), 2 is the GET connection. *)
Definition tunnel : HTTP_Tunnel_Pair :=
  {| rtsp_client := Some 1%positive; http_client := Some 2%positive |}.

Definition tunnel_world : world :=
  sample_world
    {[ 1%positive := sample_client 5 7%positive [] (Some tunnel);
       2%positive := sample_client 6 8%positive [] (Some tunnel) ]}
    1000.

(** A listener on descriptor 3. *)
Definition sample_listener : feng_socket_listener := {| fd := 3 |}.

(** What the kernel answers when a connection of protocol [proto] comes
    in on descriptor 5. *)
Definition incoming (proto : Z) : accept_env :=
  {| accept_ret := 5; peer := []; peer_len := 16; getsockname_ret := 0;
     bound := []; bound_len := 16; getsockopt_ret := 0; so_protocol := proto;
     ev_loop_new_ret := Some 7%positive; ev_loop_new_syserr := [];
     neb_sa_get_host_bound := None; neb_sa_get_host_peer := None |}.

Definition listening_world : world := sample_world ∅ 1000.

(** Two registered clients, both in their loops. *)
Definition serving_world : world :=
  set_clients_list [1%positive; 2%positive] waiting_world.

(** Client 2 is in its loop, and registered; client 1 waits for a pool
    thread. *)
Definition busy_world : world :=
  set_clients_list [2%positive] waiting_world.

(** * Vocabulary of the further properties *)

(** The RTP sessions a tick of the timeout monitor goes through: those of
    the client's RTSP session, none when it has no RTSP session. *)
Definition monitored_sessions (rtsp : RTSP_Client) : list RTP_session :=
  match session rtsp with
  | Some s => rtp_sessions s
  | None => []
  end.

(** The events the monitor itself produces: its two log lines, the RTCP
    packets and the loop stops. *)
Definition monitor_event (e : event) : bool :=
  match e with
  | E_fnc_log FNC_LOG_INFO _ [] => true
  | E_rtcp_send_sr _ BYE => true
  | E_ev_unloop _ => true
  | _ => false
  end.

(** The owner of an RTP session in a heap of clients. *)
Definition owner_in (h : gmap ptr RTSP_Client) (s : RTP_session)
  : option RTSP_Client :=
  match client s with
  | Some a => h !! a
  | None => None
  end.

(** What the check of one session emits when the clock answers [now]. *)
Definition session_events (h : gmap ptr RTSP_Client) (now : Z)
    (s : RTP_session) : list event :=
  let t := time_t_sub now (last_packet_send_time s) in
  (if bool_decide (source (parent (track s)) = LIVE_SOURCE) &&
      (LIVE_STREAM_BYE_TIMEOUT <=? t)
   then soft_events s else []) ++
  (if STREAM_TIMEOUT <=? t then
     match owner_in h s with
     | Some c => hard_events c
     | None => []
     end
   else []).

(** The events of the checks of a list of sessions, the first of which
    reads the clock for the [k]-th time. *)
Fixpoint tick_events (h : gmap ptr RTSP_Client) (clock : nat -> Z) (k : nat)
    (l : list RTP_session) : list event :=
  match l with
  | [] => []
  | s :: t => session_events h (clock k) s ++ tick_events h clock (S k) t
  end.

(** Whether every owner these checks dereference is allocated: the owner
    of each session that is past the hard timeout at its reading of the
    clock. *)
Fixpoint kicked_owners_live (h : gmap ptr RTSP_Client) (clock : nat -> Z)
    (k : nat) (l : list RTP_session) : bool :=
  match l with
  | [] => true
  | s :: t =>
      (if STREAM_TIMEOUT <=? time_t_sub (clock k) (last_packet_send_time s)
       then bool_decide (is_Some (owner_in h s)) else true) &&
      kicked_owners_live h clock (S k) t
  end.

(** The registry lock along a sequence of events. [None]: the sequence
    breaks the discipline, that is, the lock is taken while it is held,
    released or freed while it is not as it should be, the registry is
    added to or removed from while the lock is free, or [ev_loop] is
    entered while the lock is held. Otherwise: whether the lock is held
    at the end. *)
Fixpoint lock_discipline (held : bool) (evs : list event) : option bool :=
  match evs with
  | [] => Some held
  | e :: t =>
      match e with
      | E_g_mutex_lock => if held then None else lock_discipline true t
      | E_g_mutex_unlock => if held then lock_discipline false t else None
      | E_g_mutex_free => if held then None else lock_discipline held t
      | E_g_ptr_array_add _ | E_g_ptr_array_remove_fast _ =>
          if held then lock_discipline held t else None
      | E_ev_loop _ => if held then None else lock_discipline held t
      | _ => lock_discipline held t
      end
  end.

(** The events that have nothing to do with the lock, the registry or the
    entry into a loop. *)
Definition lock_neutral (e : event) : bool :=
  match e with
  | E_g_mutex_lock | E_g_mutex_unlock | E_g_mutex_free
  | E_g_ptr_array_add _ | E_g_ptr_array_remove_fast _ | E_ev_loop _ => false
  | _ => true
  end.

(** [client_loop] cut at the call of [ev_loop], for a thread whose error
    flag is clear: what it does before the call, and what it does from the
    call on. *)
Definition client_loop_until_loop (cfg : build) (env : loop_env)
    (client_p : ptr) : M (option ptr * ev_io) :=
  '(loop, io_read) ← client_loop_watchers cfg env client_p;
  clients_list_add client_p ;;
  mret (loop, io_read).

Definition client_loop_from_loop (env : loop_env) (client_p : ptr)
    (loop : option ptr) (io_read : ev_io) : M unit :=
  (ev_loop env loop ;;
   c2 ← deref (Some client_p);
   emit (E_ev_io_stop loop io_read) ;;
   emit (E_ev_io_stop loop (ev_io_write c2)) ;;
   emit (E_ev_timer_stop loop (ev_timeout c2)) ;;
   clients_list_remove client_p) ;;
  client_loop_cleanup client_p loop.

(** * Sample states of the further properties *)

(** An environment in which libev reports an error while the loop runs. *)
Definition erring_env : loop_env :=
  {| io_start_syserr := []; run_syserr := ["(libev) select"%string];
     run_events := []; run_clients := fun h => h; run_vhosts := fun v => v;
     run_clients_list := fun l => l; run_client_threads := fun l => l;
     run_time_calls := 0 |}.

(** A client with a STORED session idle for 13 seconds followed by a LIVE
    session idle for 7 seconds, at time 1000. *)
Definition kicked_world : world :=
  sample_world
    {[ 1%positive :=
         sample_client 5 7%positive
           [sample_session STORED_SOURCE 987 1%positive;
            sample_session LIVE_SOURCE 993 1%positive] None ]}
    1000.

(** The tunnel once the RTSP side has left the registry while the HTTP
    side is still in its loop. *)
Definition tunnel_serving_world : world :=
  set_clients_list [2%positive] tunnel_world.

(** * Properties *)

(** ** Reasoning in [M] *)

(** A world built by the setters, brought back to constructor form. *)
Ltac norm_world :=
  unfold set_trace, set_clients, set_vhosts, set_clients_list,
    set_client_threads, set_client_ev_init_errors, set_time_calls;
  simpl.

(** One step of a computation whose first action is already a function. *)
Ltac run_step := unfold mbind at 1, M_bind at 1; norm_world.

Lemma bind_run {A B} (m : M A) (f : A -> M B) w a w' :
  m w = Some (a, w') -> (m ≫= f) w = f a w'.
Proof. intros H. unfold mbind, M_bind. by rewrite H. Qed.

Lemma bind_inv {A B} (m : M A) (f : A -> M B) w r :
  (m ≫= f) w = Some r -> exists a w', m w = Some (a, w') /\ f a w' = Some r.
Proof.
  unfold mbind, M_bind. destruct (m w) as [[a w']|]; [|done].
  intros H. by exists a, w'.
Qed.

Lemma deref_run w p c : lookup_client w p = Some c -> deref p w = Some (c, w).
Proof. destruct p as [a|]; simpl; [|done]. intros H. by rewrite H. Qed.

Lemma events_of_run {A} (m : M A) w a w' evs :
  m w = Some (a, w') -> trace w' = trace w ++ evs -> events_of m w = Some evs.
Proof.
  intros Hm Ht. unfold events_of. rewrite Hm, Ht.
  by rewrite drop_app_length.
Qed.

(** ** Arithmetic on [time_t] *)

Lemma time_t_sub_exact a b :
  time_t_min <= a - b <= time_t_max -> time_t_sub a b = a - b.
Proof.
  unfold time_t_min, time_t_max, time_t_sub, wrap_signed, time_t_bits.
  intros H. rewrite Z.mod_small; lia.
Qed.

Lemma timeouts_ordered : 0 <= LIVE_STREAM_BYE_TIMEOUT <= STREAM_TIMEOUT.
Proof. unfold LIVE_STREAM_BYE_TIMEOUT, STREAM_TIMEOUT. lia. Qed.


(** ** TimeoutMonitor: one session *)

(** The monitor on one session, branch by branch. *)
Lemma check_run (s : RTP_session) (w : world) :
  let now := wall_clock w (time_calls w) in
  let soft := bool_decide (source (parent (track s)) = LIVE_SOURCE) &&
              (LIVE_STREAM_BYE_TIMEOUT <=? time_t_sub now (last_packet_send_time s)) in
  let hard := STREAM_TIMEOUT <=? time_t_sub now (last_packet_send_time s) in
  let w1 := set_time_calls (S (time_calls w)) w in
  let soft_part := if soft then soft_events s else [] in
  check_if_any_rtp_session_timedout s w =
    if hard then
      match lookup_client w (client s) with
      | Some c => Some (tt, set_trace (trace w ++ soft_part ++ hard_events c) w1)
      | None => None
      end
    else Some (tt, set_trace (trace w ++ soft_part) w1).
Proof.
  unfold check_if_any_rtp_session_timedout, time_NULL, when, emit, deref,
    lookup_client, mbind, M_bind, mret, M_ret.
  simpl.
  destruct (bool_decide _ && _), (_ <=? _); simpl;
    try (destruct (client s) as [a|]; [|done]; destruct (clients w !! a); [|done]);
    unfold set_trace, set_time_calls; simpl;
    rewrite <- ?app_assoc, ?app_nil_r; reflexivity.
Qed.

(** What one check leaves alone, and what it adds. *)
Lemma check_frame (s : RTP_session) (w : world) (c : RTSP_Client) :
  lookup_client w (client s) = Some c ->
  exists w' evs,
    check_if_any_rtp_session_timedout s w = Some (tt, w') /\
    trace w' = trace w ++ evs /\
    clients w' = clients w /\
    wall_clock w' = wall_clock w /\
    time_calls w' = S (time_calls w) /\
    ((STREAM_TIMEOUT <=?
        time_t_sub (wall_clock w (time_calls w)) (last_packet_send_time s)) = true ->
     E_ev_unloop (loop c) ∈ evs).
Proof.
  intros Hc. pose proof (check_run s w) as Hrun. cbv zeta in Hrun.
  rewrite Hc in Hrun.
  destruct (STREAM_TIMEOUT <=? _) eqn:Hhard;
    eexists _, _; (split; [exact Hrun|]); simpl; repeat split; try done.
  intros _. rewrite elem_of_app. right.
  unfold hard_events. rewrite !elem_of_cons. auto.
Qed.

Lemma foreach_check_run (l : list RTP_session) : forall (w : world),
  (forall s, s ∈ l -> is_Some (lookup_client w (client s))) ->
  exists w' evs,
    foreach check_if_any_rtp_session_timedout l w = Some (tt, w') /\
    trace w' = trace w ++ evs /\
    clients w' = clients w /\
    wall_clock w' = wall_clock w /\
    time_calls w' = (time_calls w + length l)%nat.
Proof.
  induction l as [|s l IH]; intros w Hlive.
  - exists w, []. simpl. rewrite app_nil_r. repeat split; try done; lia.
  - destruct (Hlive s) as [c Hc]; [by left|].
    destruct (check_frame s w c Hc) as (w1 & e1 & Hrun & Ht & Hcl & Hclock & Hcalls & _).
    destruct (IH w1) as (w2 & e2 & Hrun2 & Ht2 & Hcl2 & Hclock2 & Hcalls2).
    { intros s' Hs'. unfold lookup_client. rewrite Hcl. apply Hlive. by right. }
    exists w2, (e1 ++ e2). simpl. rewrite (bind_run _ _ _ _ _ Hrun).
    split; [exact Hrun2|].
    rewrite Ht2, Ht, Hcl2, Hclock2, Hcalls2, Hcalls, app_assoc.
    repeat split; try done; lia.
Qed.

Lemma foreach_app {A} (f : A -> M unit) (l1 l2 : list A) (w : world) :
  foreach f (l1 ++ l2) w = (foreach f l1 ;; foreach f l2) w.
Proof.
  revert w. induction l1 as [|x l1 IH]; intros w; simpl.
  - reflexivity.
  - unfold mbind, M_bind in *. destruct (f x w) as [[[] w1]|]; [|done].
    by rewrite IH.
Qed.

(** C2. On a tick of the timeout monitor, every RTP session attached to
    the client whose idle time (the clock as read for that session, minus
    its [last_packet_send_time]) is at least [STREAM_TIMEOUT] has the event
    loop of its owning client stopped: [ev_unloop] is called on
    [session->client->loop]. Nothing is assumed about the session's source
    kind. The tick is defined as soon as the back-pointer of every attached
    session leads to a live client. *)
Theorem hard_timeout_stops_owner_loop
    (l : option ptr) (timer : ev_timer) (w : world) (rtsp : RTSP_Client)
    (sess : RTSP_session) (i : nat) (s : RTP_session) (c : RTSP_Client) :
  lookup_client w (timer_data timer) = Some rtsp ->
  session rtsp = Some sess ->
  (forall s', s' ∈ rtp_sessions sess -> is_Some (lookup_client w (client s'))) ->
  rtp_sessions sess !! i = Some s ->
  lookup_client w (client s) = Some c ->
  time_t_min <= idle_at w (time_calls w + i) s <= time_t_max ->
  STREAM_TIMEOUT <= idle_at w (time_calls w + i) s ->
  exists evs,
    events_of (client_ev_timeout l timer) w = Some evs /\
    E_ev_unloop (loop c) ∈ evs.
Proof.
  intros Hrtsp Hsess Hlive Hi Hc Hrange Hidle.
  pose proof (take_drop_middle _ _ _ Hi) as Hsplit.
  assert (Hlen : length (take i (rtp_sessions sess)) = i).
  { apply length_take_le. apply lookup_lt_Some in Hi. lia. }
  destruct (foreach_check_run (take i (rtp_sessions sess)) w)
    as (w1 & e1 & Hrun1 & Ht1 & Hcl1 & Hclock1 & Hcalls1).
  { intros s' Hs'. apply Hlive. rewrite <- Hsplit, elem_of_app. by left. }
  rewrite Hlen in Hcalls1.
  assert (Hc1 : lookup_client w1 (client s) = Some c).
  { unfold lookup_client in *. by rewrite Hcl1. }
  destruct (check_frame s w1 c Hc1)
    as (w2 & e2 & Hrun2 & Ht2 & Hcl2 & Hclock2 & Hcalls2 & Hkick).
  destruct (foreach_check_run (drop (S i) (rtp_sessions sess)) w2)
    as (w3 & e3 & Hrun3 & Ht3 & _).
  { intros s' Hs'. unfold lookup_client. rewrite Hcl2, Hcl1.
    apply Hlive. rewrite <- Hsplit, elem_of_app. right. by right. }
  assert (Hall : foreach check_if_any_rtp_session_timedout (rtp_sessions sess) w
                 = Some (tt, w3)).
  { rewrite <- Hsplit, foreach_app. rewrite (bind_run _ _ _ _ _ Hrun1).
    simpl. by rewrite (bind_run _ _ _ _ _ Hrun2). }
  exists (e1 ++ e2 ++ e3 ++ [E_ev_timer_again l timer]). split.
  - eapply (events_of_run _ w tt
             (set_trace (trace w3 ++ [E_ev_timer_again l timer]) w3)).
    + unfold client_ev_timeout.
      rewrite (bind_run _ _ _ _ _ (deref_run _ _ _ Hrtsp)), Hsess.
      destruct (rtp_sessions sess) as [|s0 l0] eqn:Hl.
      * by rewrite lookup_nil in Hi.
      * by rewrite (bind_run _ _ _ _ _ Hall).
    + simpl. rewrite Ht3, Ht2, Ht1. by rewrite <- !app_assoc.
  - rewrite !elem_of_app. right. left. apply Hkick.
    rewrite Hclock1, Hcalls1. unfold idle_at in *.
    rewrite time_t_sub_exact by done. by apply Z.leb_le.
Qed.

Lemma hard_timeout_stops_owner_loop_witness :
  exists evs,
    events_of (client_ev_timeout (Some 7%positive) monitored_timer) monitored_world
      = Some evs /\
    E_ev_unloop (Some 7%positive) ∈ evs.
Proof.
  apply (hard_timeout_stops_owner_loop (Some 7%positive) monitored_timer
           monitored_world
           (sample_client 5 7%positive
              [sample_session LIVE_SOURCE 993 1%positive;
               sample_session STORED_SOURCE 987 1%positive] None)
           {| rtp_sessions := [sample_session LIVE_SOURCE 993 1%positive;
                               sample_session STORED_SOURCE 987 1%positive] |}
           1%nat (sample_session STORED_SOURCE 987 1%positive)
           (sample_client 5 7%positive
              [sample_session LIVE_SOURCE 993 1%positive;
               sample_session STORED_SOURCE 987 1%positive] None)).
  - reflexivity.
  - reflexivity.
  - intros s' Hs'. simpl in Hs'.
    apply elem_of_cons in Hs' as [-> | Hs'].
    + eexists. reflexivity.
    + apply elem_of_cons in Hs' as [-> | Hs'].
      * eexists. reflexivity.
      * by apply elem_of_nil in Hs'.
  - reflexivity.
  - reflexivity.
  - vm_compute. split; discriminate.
  - vm_compute. discriminate.
Defined.

(** The events of one check, branch by branch. *)
Lemma check_events (s : RTP_session) (w : world) :
  let t := time_t_sub (wall_clock w (time_calls w)) (last_packet_send_time s) in
  let soft_part :=
    if bool_decide (source (parent (track s)) = LIVE_SOURCE) &&
       (LIVE_STREAM_BYE_TIMEOUT <=? t)
    then soft_events s else [] in
  events_of (check_if_any_rtp_session_timedout s) w =
    if STREAM_TIMEOUT <=? t then
      match lookup_client w (client s) with
      | Some c => Some (soft_part ++ hard_events c)
      | None => None
      end
    else Some soft_part.
Proof.
  cbv zeta. unfold events_of. pose proof (check_run s w) as Hrun.
  cbv zeta in Hrun. rewrite Hrun. clear Hrun.
  destruct (STREAM_TIMEOUT <=? _).
  - destruct (lookup_client w (client s)); [|done].
    simpl. by rewrite drop_app_length.
  - simpl. by rewrite drop_app_length.
Qed.






(** ** ClientRunner: the stages of [client_loop] *)

Lemma foreach_syserr_run (msgs : list string) : forall (w : world),
  foreach libev_syserr msgs w =
    Some (tt, set_client_ev_init_errors
                (flag_after msgs (client_ev_init_errors w))
                (set_trace (trace w ++ map E_fnc_perror msgs) w)).
Proof.
  induction msgs as [|m msgs IH]; intros w.
  - destruct w. simpl. unfold set_client_ev_init_errors, set_trace. simpl.
    by rewrite app_nil_r.
  - simpl. unfold libev_syserr, emit, modify, mbind, M_bind. simpl.
    unfold mbind, M_bind in IH. rewrite IH.
    unfold set_client_ev_init_errors, set_trace. simpl.
    rewrite <- app_assoc. simpl. by destruct msgs.
Qed.

Lemma client_loop_watchers_run (cfg : build) (env : loop_env) (c : ptr)
    (w : world) (c0 : RTSP_Client) :
  clients w !! c = Some c0 ->
  client_loop_watchers cfg env c w =
    Some ((loop c0, io_read_init cfg c c0),
          World (<[c := watched cfg c c0]> (clients w)) (vhosts w)
                (feng_default_vhost w) (clients_list w) (client_threads w)
                (flag_after (io_start_syserr env) (client_ev_init_errors w))
                (wall_clock w) (time_calls w)
                (trace w ++ E_ev_io_start (loop c0) (io_read_init cfg c c0)
                         :: map E_fnc_perror (io_start_syserr env))).
Proof.
  intros Hc. unfold client_loop_watchers.
  rewrite (bind_run _ _ _ _ _ (deref_run w (Some c) c0 Hc)).
  unfold watched, when, store, ev_io_start, emit.
  destruct (socktype c0 =? RTSP_TCP cfg).
  - unfold mbind at 1, M_bind at 1. rewrite Hc.
    unfold mbind at 1, M_bind at 1. unfold mbind at 1, M_bind at 1.
    rewrite foreach_syserr_run.
    unfold mbind, M_bind, deref, mret, M_ret. simpl.
    rewrite !lookup_insert_eq. simpl. rewrite lookup_insert_eq.
    rewrite insert_insert_eq. unfold set_trace, set_clients. simpl.
    by rewrite <- app_assoc.
  - unfold mbind at 1, M_bind at 1. unfold mret at 1, M_ret at 1.
    unfold mbind at 1, M_bind at 1. unfold mbind at 1, M_bind at 1.
    rewrite foreach_syserr_run.
    unfold mbind, M_bind, deref, mret, M_ret. simpl.
    rewrite !Hc. unfold set_trace, set_clients. simpl. rewrite Hc.
    by rewrite <- app_assoc.
Qed.

Lemma client_loop_registered_cases (env : loop_env) (c : ptr) (l : option ptr)
    (io : ev_io) (w : world) :
  client_loop_registered env c l io w =
    match run_clients env (clients w) !! c with
    | Some c2 =>
        Some (tt,
          World (run_clients env (clients w)) (run_vhosts env (vhosts w))
                (feng_default_vhost w)
                (g_ptr_array_remove_fast
                   (run_clients_list env (clients_list w ++ [c])) c)
                (run_client_threads env (client_threads w))
                (flag_after (run_syserr env) (client_ev_init_errors w))
                (wall_clock w) (time_calls w + run_time_calls env)%nat
                (trace w ++
                 [E_g_mutex_lock; E_g_ptr_array_add c; E_g_mutex_unlock;
                  E_ev_loop l] ++
                 run_events env ++ map E_fnc_perror (run_syserr env) ++
                 [E_ev_io_stop l io; E_ev_io_stop l (ev_io_write c2);
                  E_ev_timer_stop l (ev_timeout c2);
                  E_g_mutex_lock; E_g_ptr_array_remove_fast c;
                  E_g_mutex_unlock]))
    | None => None
    end.
Proof.
  unfold client_loop_registered, clients_list_add, ev_loop,
    clients_list_remove, emit, modify.
  do 4 run_step. rewrite foreach_syserr_run. norm_world.
  destruct (run_clients env (clients w) !! c) as [c2|] eqn:Hc.
  - erewrite bind_run by (apply deref_run; exact Hc).
    do 6 run_step.
    do 2 f_equal. f_equal.
    repeat (rewrite <- app_assoc; simpl). reflexivity.
  - unfold mbind at 1, M_bind at 1, deref. simpl. by rewrite Hc.
Qed.

Lemma rtsp_client_free_run (a : ptr) (w : world) (ca : RTSP_Client) :
  clients w !! a = Some ca ->
  rtsp_client_free (Some a) w =
    Some (tt,
          set_trace (trace w ++
                     [E_close (sd ca); E_rtsp_session_free (session ca);
                      E_g_slice_free_RTSP_Client a;
                      E_fnc_log FNC_LOG_INFO "[client] Client removed" []])
            (set_clients (delete a (clients w)) w)).
Proof.
  intros Ha. unfold rtsp_client_free, g_slice_free_RTSP_Client, emit, deref,
    mbind, M_bind. simpl. rewrite Ha. simpl. rewrite Ha.
  unfold set_trace, set_clients. simpl. by rewrite <- !app_assoc.
Qed.

(** The steps of the cleanup that do not depend on the pair link. *)
Lemma client_loop_cleanup_cases (c : ptr) (l : option ptr) (w : world) :
  client_loop_cleanup c l w =
    match clients w !! c with
    | None => None
    | Some c3 =>
        match vhost c3 with
        | None => None
        | Some v =>
            match vhosts w !! v with
            | None => None
            | Some n =>
                let w1 :=
                  World (<[c := with_loop None c3]> (clients w))
                        (<[v := n - 1]> (vhosts w))
                        (feng_default_vhost w) (clients_list w)
                        (client_threads w) (client_ev_init_errors w)
                        (wall_clock w) (time_calls w)
                        (trace w ++ [E_ev_loop_destroy l]) in
                match pair c3 with
                | None => rtsp_client_free (Some c) w1
                | Some p =>
                    if bool_decide (rtsp_client p = Some c) then
                      (rtsp_client_free (http_client p) ;;
                       rtsp_client_free (Some c)) w1
                    else Some (tt, w1)
                end
            end
        end
    end.
Proof.
  unfold client_loop_cleanup.
  destruct (clients w !! c) as [c3|] eqn:Hc.
  - rewrite (bind_run _ _ _ _ _ (deref_run w (Some c) c3 Hc)).
    unfold connection_count_add, store, emit.
    unfold mbind at 1, M_bind at 1.
    destruct (vhost c3) as [v|]; [|done].
    destruct (vhosts w !! v) as [n|]; [|done]. norm_world.
    unfold mbind at 1, M_bind at 1. norm_world. rewrite Hc.
    run_step. replace (n + -1) with (n - 1) by lia.
    destruct (pair c3) as [p|]; [destruct (bool_decide _)|]; reflexivity.
  - unfold mbind at 1, M_bind at 1, deref. by rewrite Hc.
Qed.

Lemma client_loop_cleanup_run (c : ptr) (l : option ptr) (w : world)
    (c3 : RTSP_Client) (v : ptr) (n : Z) :
  clients w !! c = Some c3 ->
  vhost c3 = Some v ->
  vhosts w !! v = Some n ->
  client_loop_cleanup c l w =
    let w1 :=
      World (<[c := with_loop None c3]> (clients w)) (<[v := n - 1]> (vhosts w))
            (feng_default_vhost w) (clients_list w) (client_threads w)
            (client_ev_init_errors w) (wall_clock w) (time_calls w)
            (trace w ++ [E_ev_loop_destroy l]) in
    match pair c3 with
    | None => rtsp_client_free (Some c) w1
    | Some p =>
        if bool_decide (rtsp_client p = Some c) then
          (rtsp_client_free (http_client p) ;; rtsp_client_free (Some c)) w1
        else Some (tt, w1)
    end.
Proof.
  intros Hc Hv Hn. rewrite client_loop_cleanup_cases. by rewrite Hc, Hv, Hn.
Qed.

Lemma rtsp_client_free_inv (p : option ptr) (w w' : world) :
  rtsp_client_free p w = Some (tt, w') ->
  exists a ca,
    p = Some a /\ clients w !! a = Some ca /\
    w' = set_trace (trace w ++
                    [E_close (sd ca); E_rtsp_session_free (session ca);
                     E_g_slice_free_RTSP_Client a;
                     E_fnc_log FNC_LOG_INFO "[client] Client removed" []])
           (set_clients (delete a (clients w)) w).
Proof.
  intros H. destruct p as [a|]; [|done].
  destruct (clients w !! a) as [ca|] eqn:Ha.
  - rewrite (rtsp_client_free_run a w ca Ha) in H. injection H as <-.
    by exists a, ca.
  - unfold rtsp_client_free, deref, mbind, M_bind in H. by rewrite Ha in H.
Qed.

(** [client_loop] as the composition of its stages. *)
Lemma client_loop_stages (cfg : build) (env : loop_env) (c : ptr) (w : world)
    (c0 : RTSP_Client) :
  clients w !! c = Some c0 ->
  client_loop cfg env c w =
    let wA :=
      World (<[c := watched cfg c c0]> (clients w)) (vhosts w)
            (feng_default_vhost w) (clients_list w) (client_threads w)
            (flag_after (io_start_syserr env) (client_ev_init_errors w))
            (wall_clock w) (time_calls w)
            (trace w ++ E_ev_io_start (loop c0) (io_read_init cfg c c0)
                     :: map E_fnc_perror (io_start_syserr env)) in
    if flag_after (io_start_syserr env) (client_ev_init_errors w) =? 0 then
      (client_loop_registered env c (loop c0) (io_read_init cfg c c0) ;;
       client_loop_cleanup c (loop c0)) wA
    else client_loop_cleanup c (loop c0) wA.
Proof.
  intros Hc. unfold client_loop.
  rewrite (bind_run _ _ _ _ _ (client_loop_watchers_run cfg env c w c0 Hc)).
  unfold gets, when. unfold mbind at 1, M_bind at 1. simpl.
  destruct (flag_after _ _ =? 0); [reflexivity|].
  unfold mbind, M_bind, mret, M_ret. reflexivity.
Qed.

(** [client_loop] with no error flagged, from its entry to the moment its
    cleanup starts. *)
Lemma client_loop_after_loop (cfg : build) (env : loop_env) (c : ptr)
    (w : world) (c0 c2 : RTSP_Client) :
  clients w !! c = Some c0 ->
  client_ev_init_errors w = 0 ->
  io_start_syserr env = [] ->
  run_clients env (<[c := watched cfg c c0]> (clients w)) !! c = Some c2 ->
  client_loop cfg env c w =
    client_loop_cleanup c (loop c0)
      (World (run_clients env (<[c := watched cfg c c0]> (clients w)))
             (run_vhosts env (vhosts w)) (feng_default_vhost w)
             (g_ptr_array_remove_fast
                (run_clients_list env (clients_list w ++ [c])) c)
             (run_client_threads env (client_threads w))
             (flag_after (run_syserr env) 0)
             (wall_clock w) (time_calls w + run_time_calls env)%nat
             (trace w ++
              [E_ev_io_start (loop c0) (io_read_init cfg c c0);
               E_g_mutex_lock; E_g_ptr_array_add c; E_g_mutex_unlock;
               E_ev_loop (loop c0)] ++
              run_events env ++ map E_fnc_perror (run_syserr env) ++
              [E_ev_io_stop (loop c0) (io_read_init cfg c c0);
               E_ev_io_stop (loop c0) (ev_io_write c2);
               E_ev_timer_stop (loop c0) (ev_timeout c2);
               E_g_mutex_lock; E_g_ptr_array_remove_fast c;
               E_g_mutex_unlock])).
Proof.
  intros Hc Hflag Hinit Hc2.
  rewrite (client_loop_stages cfg env c w c0 Hc). cbv zeta.
  rewrite Hinit, Hflag. simpl.
  unfold mbind at 1, M_bind at 1.
  rewrite client_loop_registered_cases. simpl. rewrite Hc2.
  do 2 f_equal. repeat (rewrite <- app_assoc; simpl). reflexivity.
Qed.

Lemma watched_fields (cfg : build) (c : ptr) (c0 : RTSP_Client) :
  sd (watched cfg c c0) = sd c0 /\
  session (watched cfg c c0) = session c0 /\
  vhost (watched cfg c c0) = vhost c0 /\
  pair (watched cfg c c0) = pair c0 /\
  loop (watched cfg c c0) = loop c0 /\
  input (watched cfg c c0) = input c0 /\
  out_queue (watched cfg c c0) = out_queue c0.
Proof. unfold watched. by destruct (socktype c0 =? RTSP_TCP cfg). Qed.

Opaque watched.

(** The events of the path that skips the loop: none of them runs a loop
    or adds to the registry. *)
Lemma skip_events_quiet (l : option ptr) (io : ev_io) (msgs : list string)
    (tail : list event) (e : event) :
  (forall e', e' ∈ tail -> is_ev_loop e' = false /\ is_registry_add e' = false) ->
  e ∈ E_ev_io_start l io :: map E_fnc_perror msgs ++ tail ->
  is_ev_loop e = false /\ is_registry_add e = false.
Proof.
  intros Htail He.
  rewrite elem_of_cons, elem_of_app, list_elem_of_fmap in He.
  destruct He as [-> | [(m & -> & _) | He]]; [done | done | by apply Htail].
Qed.

Lemma cleanup_events_quiet (l : option ptr) (fd : Z) (s : option RTSP_session)
    (c : ptr) (e : event) :
  e ∈ [E_ev_loop_destroy l; E_close fd; E_rtsp_session_free s;
       E_g_slice_free_RTSP_Client c;
       E_fnc_log FNC_LOG_INFO "[client] Client removed" []] ->
  is_ev_loop e = false /\ is_registry_add e = false.
Proof.
  intros He. rewrite !elem_of_cons in He.
  destruct He as [-> | [-> | [-> | [-> | [-> | He]]]]]; try done.
  by apply elem_of_nil in He.
Qed.

(** The run of [client_loop] when the flag is set at the test: no
    registration, no [ev_loop], the cleanup at once. *)
Lemma client_loop_skip_run (cfg : build) (env : loop_env) (c : ptr) (w : world)
    (c0 : RTSP_Client) (v : ptr) (n : Z) :
  clients w !! c = Some c0 ->
  vhost c0 = Some v ->
  vhosts w !! v = Some n ->
  pair c0 = None ->
  flag_after (io_start_syserr env) (client_ev_init_errors w) <> 0 ->
  client_loop cfg env c w =
    Some (tt,
          World (delete c (clients w)) (<[v := n - 1]> (vhosts w))
                (feng_default_vhost w) (clients_list w) (client_threads w)
                (flag_after (io_start_syserr env) (client_ev_init_errors w))
                (wall_clock w) (time_calls w)
                (trace w ++
                 E_ev_io_start (loop c0) (io_read_init cfg c c0)
                 :: map E_fnc_perror (io_start_syserr env) ++
                 [E_ev_loop_destroy (loop c0); E_close (sd c0);
                  E_rtsp_session_free (session c0);
                  E_g_slice_free_RTSP_Client c;
                  E_fnc_log FNC_LOG_INFO "[client] Client removed" []])).
Proof.
  intros Hc Hv Hn Hp Hflag.
  destruct (watched_fields cfg c c0) as (Hsd & Hsess & Hvh & Hpair & _).
  rewrite (client_loop_stages cfg env c w c0 Hc). cbv zeta.
  rewrite (proj2 (Z.eqb_neq _ _) Hflag).
  rewrite (client_loop_cleanup_run c (loop c0) _ (watched cfg c c0) v n);
    [ | simpl; by rewrite lookup_insert_eq | congruence | done ].
  cbv zeta. norm_world.
  rewrite Hpair, Hp.
  erewrite rtsp_client_free_run; [ | simpl; by rewrite lookup_insert_eq ].
  norm_world. rewrite !delete_insert_eq, Hsd, Hsess.
  do 3 f_equal. repeat (rewrite <- app_assoc; simpl). reflexivity.
Qed.

(** C8. When loop initialisation has reported a system error (the flag of
    the thread is set when [client_loop] tests it, by an earlier report or
    by one made while this client's read watcher was started), the client
    does not run the event loop and goes straight to teardown: the
    connection count of its virtual host is decremented, the loop is
    destroyed and the client is freed. The pair link of a client that never
    ran its loop is [NULL], as the listener left it. *)
Theorem init_error_skips_loop (cfg : build) (env : loop_env) (c : ptr)
    (w : world) (c0 : RTSP_Client) (v : ptr) (n : Z) :
  clients w !! c = Some c0 ->
  vhost c0 = Some v ->
  vhosts w !! v = Some n ->
  pair c0 = None ->
  client_ev_init_errors w <> 0 \/ io_start_syserr env <> [] ->
  exists w' evs,
    client_loop cfg env c w = Some (tt, w') /\
    trace w' = trace w ++ evs /\
    (forall e, e ∈ evs -> is_ev_loop e = false) /\
    (exists pre, evs = pre ++
       [E_ev_loop_destroy (loop c0); E_close (sd c0);
        E_rtsp_session_free (session c0); E_g_slice_free_RTSP_Client c;
        E_fnc_log FNC_LOG_INFO "[client] Client removed" []]) /\
    vhosts w' !! v = Some (n - 1) /\
    clients w' !! c = None /\
    clients_list w' = clients_list w.
Proof.
  intros Hc Hv Hn Hp Herr.
  assert (Hflag : flag_after (io_start_syserr env) (client_ev_init_errors w) <> 0).
  { destruct (io_start_syserr env); simpl; [by destruct Herr | done]. }
  eexists _, _. split; [by apply (client_loop_skip_run cfg env c w c0 v n)|].
  simpl. split; [reflexivity|]. repeat split.
  - intros e He.
    by destruct (skip_events_quiet _ _ _ _ e (cleanup_events_quiet _ _ _ _) He).
  - by eexists (_ :: _).
  - by rewrite lookup_insert_eq.
  - by rewrite lookup_delete_eq.
Qed.

Lemma init_error_skips_loop_witness :
  exists w' evs,
    client_loop sample_build failing_env 1%positive waiting_world = Some (tt, w') /\
    trace w' = trace waiting_world ++ evs /\
    (forall e, e ∈ evs -> is_ev_loop e = false) /\
    (exists pre, evs = pre ++
       [E_ev_loop_destroy (Some 7%positive); E_close 5;
        E_rtsp_session_free (Some {| rtp_sessions := [] |});
        E_g_slice_free_RTSP_Client 1%positive;
        E_fnc_log FNC_LOG_INFO "[client] Client removed" []]) /\
    vhosts w' !! 9%positive = Some (2 - 1) /\
    clients w' !! 1%positive = None /\
    clients_list w' = clients_list waiting_world.
Proof.
  apply (init_error_skips_loop sample_build failing_env 1%positive
           waiting_world (sample_client 5 7%positive [] None) 9%positive 2).
  - reflexivity.
  - reflexivity.
  - reflexivity.
  - reflexivity.
  - right. discriminate.
Defined.

(** ** The pool thread after an initialisation error *)

Lemma freed_app (l1 l2 : list event) : freed (l1 ++ l2) = freed l1 ++ freed l2.
Proof.
  induction l1 as [|e l1 IH]; [done|].
  destruct e; simpl; by rewrite ?IH.
Qed.

Lemma freed_perror (msgs : list string) : freed (map E_fnc_perror msgs) = [].
Proof. by induction msgs. Qed.

Lemma pool_thread_skips (cfg : build) (jobs : list (loop_env * ptr)) :
  forall w : world,
    client_ev_init_errors w <> 0 ->
    NoDup (jobs.*2) ->
    (forall j, j ∈ jobs -> ready w j.2) ->
    exists w' evs,
      pool_thread cfg jobs w = Some (tt, w') /\
      trace w' = trace w ++ evs /\
      client_ev_init_errors w' <> 0 /\
      (client_ev_init_errors w = 1 -> client_ev_init_errors w' = 1) /\
      clients_list w' = clients_list w /\
      (forall e, e ∈ evs -> is_ev_loop e = false /\ is_registry_add e = false) /\
      freed evs = jobs.*2 /\
      (forall a, clients w !! a = None \/ a ∈ jobs.*2 -> clients w' !! a = None).
Proof.
  induction jobs as [|[env c] rest IH]; intros w Hflag Hnd Hready.
  - exists w, []. simpl. rewrite app_nil_r.
    do 5 (split; [done|]). split; [|split; [done|]].
    + intros e He. by apply elem_of_nil in He.
    + intros a [Ha | Ha]; [done | by apply elem_of_nil in Ha].
  - destruct (Hready (env, c)) as (c0 & v & Hc & Hp & Hv & [n Hn]); [by left|].
    simpl in Hc. apply NoDup_cons in Hnd as [Hnotin Hnd].
    assert (Hflag1 : flag_after (io_start_syserr env) (client_ev_init_errors w) <> 0).
    { by destruct (io_start_syserr env). }
    pose proof (client_loop_skip_run cfg env c w c0 v n Hc Hv Hn Hp Hflag1) as Hrun.
    match type of Hrun with _ = Some (tt, ?x) => set (w1 := x) in * end.
    destruct (IH w1) as (w' & evs & Hrest & Ht & Hf & Hone & Hl & Hev & Hfreed & Hgone).
    { done. }
    { done. }
    { intros j Hj. destruct (Hready j) as (cj & vj & Hcj & Hpj & Hvj & Hnj);
        [by right|].
      exists cj, vj. subst w1. simpl. repeat split; try done.
      - rewrite lookup_delete_ne; [done|].
        intros ->. apply Hnotin. apply list_elem_of_fmap. by exists j.
      - destruct (decide (v = vj)) as [->|Hne].
        + rewrite lookup_insert_eq. by eexists.
        + by rewrite lookup_insert_ne. }
    eexists w', _. simpl pool_thread.
    rewrite (bind_run _ _ _ _ _ Hrun). split; [exact Hrest|].
    rewrite Ht. subst w1. simpl. rewrite <- app_assoc.
    split; [reflexivity|]. split; [done|]. split.
    { intros Hw. apply Hone. simpl. rewrite Hw. by destruct (io_start_syserr env). }
    split; [done|]. split; [|split].
    + intros e He. rewrite app_comm_cons, elem_of_app in He.
      destruct He as [He | He]; [|by apply Hev].
      exact (skip_events_quiet _ _ _ _ e (cleanup_events_quiet _ _ _ _) He).
    + rewrite freed_app. simpl. rewrite freed_app, freed_perror. simpl.
      by rewrite Hfreed.
    + intros a Ha. apply Hgone. simpl.
      destruct (decide (a = c)) as [->|Hne].
      * left. by rewrite lookup_delete_eq.
      * rewrite lookup_delete_ne by done.
        destruct Ha as [Ha | Ha]; [by left|].
        simpl in Ha. apply elem_of_cons in Ha as [-> | Ha]; [done | by right].
Qed.

(** C10. The flag is sticky. Once libev reports an error on a pool thread
    (here while the read watcher of [c1] is started), the flag of that
    thread is 1 and stays 1: [c1] and every client the thread serves
    afterwards, whatever its own initialisation reports, is torn down
    without being registered and without its loop being run. *)
Theorem init_error_flag_is_sticky (cfg : build) (env1 : loop_env) (c1 : ptr)
    (rest : list (loop_env * ptr)) (w : world) :
  io_start_syserr env1 <> [] ->
  NoDup (c1 :: rest.*2) ->
  (forall j, j ∈ (env1, c1) :: rest -> ready w j.2) ->
  exists w' evs,
    pool_thread cfg ((env1, c1) :: rest) w = Some (tt, w') /\
    trace w' = trace w ++ evs /\
    client_ev_init_errors w' = 1 /\
    clients_list w' = clients_list w /\
    (forall e, e ∈ evs -> is_ev_loop e = false /\ is_registry_add e = false) /\
    freed evs = c1 :: rest.*2 /\
    (forall j, j ∈ (env1, c1) :: rest -> clients w' !! j.2 = None).
Proof.
  intros Herr Hnd Hready.
  destruct (Hready (env1, c1)) as (c0 & v & Hc & Hp & Hv & [n Hn]); [by left|].
  simpl in Hc. apply NoDup_cons in Hnd as [Hnotin Hnd].
  assert (Hflag : flag_after (io_start_syserr env1) (client_ev_init_errors w) = 1).
  { by destruct (io_start_syserr env1). }
  pose proof (client_loop_skip_run cfg env1 c1 w c0 v n Hc Hv Hn Hp) as Hrun.
  rewrite Hflag in Hrun. specialize (Hrun ltac:(done)).
  match type of Hrun with _ = Some (tt, ?x) => set (w1 := x) in * end.
  destruct (pool_thread_skips cfg rest w1)
    as (w' & evs & Hrest & Ht & _ & Hone & Hl & Hev & Hfreed & Hgone).
  { done. }
  { done. }
  { intros j Hj. destruct (Hready j) as (cj & vj & Hcj & Hpj & Hvj & Hnj);
      [by right|].
    exists cj, vj. subst w1. simpl. repeat split; try done.
    - rewrite lookup_delete_ne; [done|].
      intros ->. apply Hnotin. apply list_elem_of_fmap. by exists j.
    - destruct (decide (v = vj)) as [->|Hne].
      + rewrite lookup_insert_eq. by eexists.
      + by rewrite lookup_insert_ne. }
  eexists w', _. simpl pool_thread.
  rewrite (bind_run _ _ _ _ _ Hrun). split; [exact Hrest|].
  rewrite Ht. subst w1. simpl. rewrite <- app_assoc.
  split; [reflexivity|]. split; [by apply Hone|]. split; [done|].
  split; [|split].
  - intros e He. rewrite app_comm_cons, elem_of_app in He.
    destruct He as [He | He]; [|by apply Hev].
    exact (skip_events_quiet _ _ _ _ e (cleanup_events_quiet _ _ _ _) He).
  - rewrite freed_app. simpl. rewrite freed_app, freed_perror. simpl.
    by rewrite Hfreed.
  - intros j Hj. apply Hgone. simpl.
    apply elem_of_cons in Hj as [-> | Hj].
    + left. apply lookup_delete_eq.
    + right. apply list_elem_of_fmap. by exists j.
Qed.

Lemma init_error_flag_is_sticky_witness :
  exists w' evs,
    pool_thread sample_build
      [(failing_env, 1%positive); (quiet_env, 2%positive)] waiting_world
      = Some (tt, w') /\
    trace w' = trace waiting_world ++ evs /\
    client_ev_init_errors w' = 1 /\
    clients_list w' = clients_list waiting_world /\
    (forall e, e ∈ evs -> is_ev_loop e = false /\ is_registry_add e = false) /\
    freed evs = [1%positive; 2%positive] /\
    (forall j, j ∈ [(failing_env, 1%positive); (quiet_env, 2%positive)] ->
               clients w' !! j.2 = None).
Proof.
  apply (init_error_flag_is_sticky sample_build failing_env 1%positive
           [(quiet_env, 2%positive)] waiting_world).
  - discriminate.
  - apply NoDup_cons. split.
    + intros H. apply elem_of_cons in H as [H | H]; [discriminate|].
      by apply elem_of_nil in H.
    + apply NoDup_cons. split; [intros H; by apply elem_of_nil in H|].
      apply NoDup_nil_2.
  - intros j Hj. apply elem_of_cons in Hj as [-> | Hj].
    + exists (sample_client 5 7%positive [] None), 9%positive.
      repeat split; try reflexivity. by eexists.
    + apply elem_of_cons in Hj as [-> | Hj]; [|by apply elem_of_nil in Hj].
      exists (sample_client 6 8%positive [] None), 9%positive.
      repeat split; try reflexivity. by eexists.
Defined.

(** ** ClientRegistry *)

Lemma remove_fast_hole (t : list ptr) (x : ptr) (y : ptr) :
  t <> [] -> y ∈ List.last t x :: removelast t -> y ∈ t.
Proof.
  intros Hne Hy. rewrite (app_removelast_last x Hne).
  rewrite elem_of_cons in Hy. rewrite elem_of_app, elem_of_cons.
  destruct Hy as [-> | Hy]; auto.
Qed.

Lemma remove_fast_NoDup (l : list ptr) (c : ptr) :
  NoDup l -> c ∉ g_ptr_array_remove_fast l c.
Proof.
  induction 1 as [|x t Hx Hnd IH]; simpl; [by intros H%elem_of_nil|].
  case_bool_decide as Hxc.
  - subst x. destruct t as [|z t']; [by intros H%elem_of_nil|].
    intros Hc. apply Hx. by apply (remove_fast_hole (z :: t') c).
  - rewrite elem_of_cons. intros [? | ?]; [congruence | by apply IH].
Qed.

(** Adding a client and removing it again leaves the registry as it was. *)
Lemma remove_fast_add (l : list ptr) (c : ptr) :
  c ∉ l -> g_ptr_array_remove_fast (l ++ [c]) c = l.
Proof.
  induction l as [|x t IH]; simpl; intros Hc.
  - by rewrite bool_decide_eq_true_2.
  - rewrite elem_of_cons in Hc.
    rewrite bool_decide_eq_false_2 by (intros ->; apply Hc; by left).
    rewrite IH; [done|]. intros ?. apply Hc. by right.
Qed.

(** Removing a client takes out one occurrence of it and keeps every
    other entry; the order may change. *)
Lemma remove_fast_absent (l : list ptr) (c : ptr) :
  c ∉ l -> g_ptr_array_remove_fast l c = l.
Proof.
  induction l as [|x t IH]; [done|]. intros Hn. simpl.
  apply not_elem_of_cons in Hn as [Hne Hn].
  rewrite bool_decide_eq_false_2 by done. by rewrite IH.
Qed.

Lemma remove_fast_perm (l : list ptr) (c : ptr) :
  c ∈ l -> l ≡ₚ c :: g_ptr_array_remove_fast l c.
Proof.
  induction l as [|x t IH]; intros Hin; [by apply elem_of_nil in Hin|].
  simpl. case_bool_decide as Hx.
  - subst x. destruct t as [|y t']; [done|].
    constructor.
    rewrite (app_removelast_last c (l := y :: t')) at 1 by done.
    by rewrite Permutation_app_comm.
  - apply elem_of_cons in Hin as [-> | Hin]; [done|].
    rewrite (IH Hin) at 1. apply perm_swap.
Qed.

(** The cleanup leaves the registry alone. *)
Lemma client_loop_cleanup_frame (c : ptr) (l : option ptr) (w w' : world) :
  client_loop_cleanup c l w = Some (tt, w') ->
  clients_list w' = clients_list w /\
  client_ev_init_errors w' = client_ev_init_errors w /\
  exists post,
    trace w' = trace w ++ post /\
    forall e, e ∈ post -> outside_loop_and_registry e.
Proof.
  intros Hrun. rewrite client_loop_cleanup_cases in Hrun.
  destruct (clients w !! c) as [c3|]; [|done].
  destruct (vhost c3) as [v|]; [|done].
  destruct (vhosts w !! v) as [n|]; [|done].
  cbv zeta in Hrun.
  assert (Hfree : forall p w1 w2, rtsp_client_free p w1 = Some (tt, w2) ->
            clients_list w2 = clients_list w1 /\
            client_ev_init_errors w2 = client_ev_init_errors w1 /\
            exists post, trace w2 = trace w1 ++ post /\
              forall e, e ∈ post -> outside_loop_and_registry e).
  { intros p w1 w2 Hf. apply rtsp_client_free_inv in Hf as (a & ca & -> & Ha & ->).
    simpl. repeat split. eexists. split; [reflexivity|].
    intros e He. rewrite !elem_of_cons in He.
    destruct He as [-> | [-> | [-> | [-> | He]]]]; try done.
    by apply elem_of_nil in He. }
  assert (Hd : outside_loop_and_registry (E_ev_loop_destroy l)) by done.
  destruct (pair c3) as [p|].
  - case_bool_decide.
    + apply bind_inv in Hrun as ([] & w1 & Hf1 & Hf2).
      apply Hfree in Hf1 as (Hl1 & He1 & post1 & Ht1 & Hq1).
      apply Hfree in Hf2 as (Hl2 & He2 & post2 & Ht2 & Hq2).
      simpl in *. rewrite Hl2, Hl1, He2, He1. repeat split.
      exists (E_ev_loop_destroy l :: post1 ++ post2). split.
      * rewrite Ht2, Ht1. by rewrite <- !app_assoc.
      * intros e. rewrite elem_of_cons, elem_of_app. intros [-> | [? | ?]]; auto.
    + injection Hrun as <-. simpl. repeat split.
      exists [E_ev_loop_destroy l]. split; [done|].
      intros e He. apply elem_of_cons in He as [-> | He]; [done|].
      by apply elem_of_nil in He.
  - apply Hfree in Hrun as (Hl1 & He1 & post1 & Ht1 & Hq1). simpl in *.
    rewrite Hl1, He1. repeat split.
    exists (E_ev_loop_destroy l :: post1). split.
    + rewrite Ht1. by rewrite <- !app_assoc.
    + intros e. rewrite elem_of_cons. intros [-> | ?]; auto.
Qed.

(** C5. Registry membership coincides with the loop running. When no
    initialisation error is flagged, [g_ptr_array_add] of the client is
    followed at once (the unlock apart) by [ev_loop]; whatever happens in
    the registry while the loop runs happens to a registry that holds the
    client; once [ev_loop] has returned, the client's three watchers are
    stopped and the client is removed, and nothing after that touches the
    registry or runs a loop. The removal takes out one occurrence of this
    client and nothing else: the registry at the end is the registry as
    the loop left it less this client, up to order; every other client is
    registered at the end exactly if it was when the loop returned; and
    when nobody else changed the registry meanwhile, it is at the end
    what it was at the start. A client whose initialisation is flagged as
    failed is never added: the registry is left as it was. Stated for
    every run of [client_loop] that is free of undefined behaviour. *)
Theorem registry_membership_brackets_loop (cfg : build) (env : loop_env)
    (c : ptr) (w w' : world) (c0 : RTSP_Client) :
  clients w !! c = Some c0 ->
  client_loop cfg env c w = Some (tt, w') ->
  (client_ev_init_errors w = 0 /\ io_start_syserr env = [] ->
   exists io_write timer post,
     trace w' = trace w ++
       [E_ev_io_start (loop c0) (io_read_init cfg c c0);
        E_g_mutex_lock; E_g_ptr_array_add c; E_g_mutex_unlock;
        E_ev_loop (loop c0)] ++
       run_events env ++ map E_fnc_perror (run_syserr env) ++
       [E_ev_io_stop (loop c0) (io_read_init cfg c c0);
        E_ev_io_stop (loop c0) io_write;
        E_ev_timer_stop (loop c0) timer;
        E_g_mutex_lock; E_g_ptr_array_remove_fast c; E_g_mutex_unlock] ++
       post /\
     (forall e, e ∈ post -> outside_loop_and_registry e) /\
     clients_list w' =
       g_ptr_array_remove_fast
         (run_clients_list env (clients_list w ++ [c])) c /\
     (NoDup (run_clients_list env (clients_list w ++ [c])) ->
      c ∉ clients_list w') /\
     (c ∈ run_clients_list env (clients_list w ++ [c]) ->
      run_clients_list env (clients_list w ++ [c]) ≡ₚ c :: clients_list w') /\
     (c ∉ run_clients_list env (clients_list w ++ [c]) ->
      clients_list w' = run_clients_list env (clients_list w ++ [c])) /\
     (forall y, y <> c ->
        y ∈ clients_list w' <->
        y ∈ run_clients_list env (clients_list w ++ [c])) /\
     (c ∉ clients_list w ->
      run_clients_list env (clients_list w ++ [c]) = clients_list w ++ [c] ->
      clients_list w' = clients_list w)) /\
  (client_ev_init_errors w <> 0 \/ io_start_syserr env <> [] ->
   clients_list w' = clients_list w /\
   exists evs,
     trace w' = trace w ++ evs /\
     forall e, e ∈ evs -> outside_loop_and_registry e).
Proof.
  intros Hc Hrun.
  rewrite (client_loop_stages cfg env c w c0 Hc) in Hrun. cbv zeta in Hrun.
  split.
  - intros [Hflag Hinit]. rewrite Hinit, Hflag in Hrun. simpl in Hrun.
    apply bind_inv in Hrun as ([] & wB & HB & HC).
    rewrite client_loop_registered_cases in HB. simpl in HB.
    destruct (run_clients env _ !! c) as [c2|]; [|done].
    injection HB as <-.
    apply client_loop_cleanup_frame in HC as (Hl & _ & post & Ht & Hq).
    simpl in Hl, Ht. rewrite Hl.
    set (at_exit := run_clients_list env (clients_list w ++ [c])).
    exists (ev_io_write c2), (ev_timeout c2), post.
    split; [rewrite Ht, <- !app_assoc; simpl; by rewrite <- !app_assoc|].
    split; [exact Hq|]. split; [done|].
    split; [apply remove_fast_NoDup|].
    split; [apply remove_fast_perm|].
    split; [apply remove_fast_absent|].
    split.
    + intros y Hy. destruct (decide (c ∈ at_exit)) as [Hin|Hnotin].
      * rewrite (remove_fast_perm at_exit c Hin) at 2.
        rewrite elem_of_cons. split; [by right | by intros [?|?]].
      * by rewrite (remove_fast_absent at_exit c Hnotin).
    + intros Hnotin Hquiet. subst at_exit. rewrite Hquiet.
      by apply remove_fast_add.
  - intros Herr.
    assert (Hflag : flag_after (io_start_syserr env) (client_ev_init_errors w) <> 0).
    { destruct (io_start_syserr env); simpl; [by destruct Herr | done]. }
    rewrite (proj2 (Z.eqb_neq _ _) Hflag) in Hrun.
    apply client_loop_cleanup_frame in Hrun as (Hl & _ & post & Ht & Hq).
    simpl in Hl, Ht. split; [done|].
    eexists. split; [by rewrite Ht, <- app_assoc|].
    intros e He. rewrite elem_of_app, elem_of_cons, list_elem_of_fmap in He.
    destruct He as [[-> | (m & -> & _)] | He]; [done | done | by apply Hq].
Qed.

Lemma registry_membership_brackets_loop_witness :
  clients_list (world_after (client_loop sample_build quiet_env 1%positive)
                            busy_world) = [2%positive] /\
  (2%positive ∈ clients_list
                  (world_after (client_loop sample_build quiet_env 1%positive)
                               busy_world) <->
   2%positive ∈ run_clients_list quiet_env
                  (clients_list busy_world ++ [1%positive])) /\
  exists evs,
    trace (world_after (client_loop sample_build quiet_env 1%positive)
                       busy_world) = trace busy_world ++ evs /\
    E_g_ptr_array_add 1%positive ∈ evs.
Proof.
  assert (Hc : clients busy_world !! 1%positive
               = Some (sample_client 5 7%positive [] None))
    by (vm_compute; reflexivity).
  assert (Hrun : client_loop sample_build quiet_env 1%positive busy_world
                 = Some (tt, world_after
                               (client_loop sample_build quiet_env 1%positive)
                               busy_world))
    by (vm_compute; reflexivity).
  assert (Hnew : 1%positive ∉ clients_list busy_world).
  { simpl. intros H. apply elem_of_cons in H as [H | H]; [discriminate|].
    by apply elem_of_nil in H. }
  destruct (proj1 (registry_membership_brackets_loop sample_build quiet_env
                     1%positive busy_world _ _ Hc Hrun)
                  (conj eq_refl eq_refl))
    as (io_write & timer & post & Ht & _ & _ & _ & _ & _ & Hothers & Hsame).
  split; [exact (Hsame Hnew eq_refl)|]. split.
  - apply Hothers. discriminate.
  - eexists. split; [exact Ht|].
    apply elem_of_app. left. rewrite !elem_of_cons. auto.
Defined.

(** ** HTTP-tunnel pair teardown *)

(** The cleanup of the side of a pair that does not carry RTSP: nothing
    is freed and the structure stays allocated. *)
Lemma cleanup_other_side (c : ptr) (l : option ptr) (w : world)
    (c3 : RTSP_Client) (v : ptr) (n : Z) (p : HTTP_Tunnel_Pair) :
  clients w !! c = Some c3 ->
  vhost c3 = Some v ->
  vhosts w !! v = Some n ->
  pair c3 = Some p ->
  rtsp_client p <> Some c ->
  client_loop_cleanup c l w =
    Some (tt,
          World (<[c := with_loop None c3]> (clients w)) (<[v := n - 1]> (vhosts w))
                (feng_default_vhost w) (clients_list w) (client_threads w)
                (client_ev_init_errors w) (wall_clock w) (time_calls w)
                (trace w ++ [E_ev_loop_destroy l])).
Proof.
  intros Hc Hv Hn Hp Hne.
  rewrite (client_loop_cleanup_run c l w c3 v n Hc Hv Hn). cbv zeta.
  rewrite Hp. by rewrite bool_decide_eq_false_2.
Qed.

(** The cleanup of the side that carries RTSP: the sibling, then itself. *)
Lemma cleanup_rtsp_side (c : ptr) (l : option ptr) (w : world)
    (c3 : RTSP_Client) (v : ptr) (n : Z) (p : HTTP_Tunnel_Pair)
    (g : ptr) (cg : RTSP_Client) :
  clients w !! c = Some c3 ->
  vhost c3 = Some v ->
  vhosts w !! v = Some n ->
  pair c3 = Some p ->
  rtsp_client p = Some c ->
  http_client p = Some g ->
  g <> c ->
  clients w !! g = Some cg ->
  client_loop_cleanup c l w =
    Some (tt,
          World (delete c (delete g (<[c := with_loop None c3]> (clients w))))
                (<[v := n - 1]> (vhosts w))
                (feng_default_vhost w) (clients_list w) (client_threads w)
                (client_ev_init_errors w) (wall_clock w) (time_calls w)
                (trace w ++
                 [E_ev_loop_destroy l;
                  E_close (sd cg); E_rtsp_session_free (session cg);
                  E_g_slice_free_RTSP_Client g;
                  E_fnc_log FNC_LOG_INFO "[client] Client removed" [];
                  E_close (sd c3); E_rtsp_session_free (session c3);
                  E_g_slice_free_RTSP_Client c;
                  E_fnc_log FNC_LOG_INFO "[client] Client removed" []])).
Proof.
  intros Hc Hv Hn Hp Hr Hh Hne Hg.
  rewrite (client_loop_cleanup_run c l w c3 v n Hc Hv Hn). cbv zeta.
  rewrite Hp, Hr, Hh. rewrite bool_decide_eq_true_2 by done.
  erewrite bind_run;
    [ | apply (rtsp_client_free_run g _ cg); simpl;
        by rewrite lookup_insert_ne ].
  norm_world.
  erewrite rtsp_client_free_run;
    [ | simpl; rewrite lookup_delete_ne by done; by rewrite lookup_insert_eq ].
  norm_world. do 3 f_equal. repeat (rewrite <- app_assoc; simpl). reflexivity.
Qed.

(** C1, as the code has it. When a client's loop has exited, the cleanup
    frees according to the pair link: with no pair, the client itself; on
    the RTSP-carrying side of a pair, the sibling first and then itself; on
    the other side, nothing: the structure stays allocated until the
    RTSP-carrying sibling frees both at its own exit. No cleanup frees a
    structure twice, and when the other side exits first and the
    RTSP-carrying side after it, each of the two structures is freed
    exactly once. [client_loop_cleanup] is the end of [client_loop], from
    the connection count on; [client_loop_after_loop] gives the world it
    starts from when the loop has run. *)
Theorem pair_teardown_rule (c : ptr) (l : option ptr) (w : world)
    (c3 : RTSP_Client) (v : ptr) (n : Z) :
  clients w !! c = Some c3 ->
  vhost c3 = Some v ->
  vhosts w !! v = Some n ->
  (pair c3 = None ->
   exists w' evs,
     client_loop_cleanup c l w = Some (tt, w') /\
     trace w' = trace w ++ evs /\ freed evs = [c] /\
     clients w' !! c = None) /\
  (forall p g cg,
     pair c3 = Some p -> rtsp_client p = Some c -> http_client p = Some g ->
     g <> c -> clients w !! g = Some cg ->
     exists w' evs,
       client_loop_cleanup c l w = Some (tt, w') /\
       trace w' = trace w ++ evs /\ freed evs = [g; c] /\
       clients w' !! g = None /\ clients w' !! c = None) /\
  (forall p,
     pair c3 = Some p -> rtsp_client p <> Some c ->
     exists w' evs,
       client_loop_cleanup c l w = Some (tt, w') /\
       trace w' = trace w ++ evs /\ freed evs = [] /\
       clients w' !! c = Some (with_loop None c3)) /\
  (forall p r cr lr vr nr,
     pair c3 = Some p -> rtsp_client p = Some r -> http_client p = Some c ->
     r <> c -> clients w !! r = Some cr -> pair cr = Some p ->
     vhost cr = Some vr -> <[v := n - 1]> (vhosts w) !! vr = Some nr ->
     exists w' evs,
       (client_loop_cleanup c l ;; client_loop_cleanup r lr) w = Some (tt, w') /\
       trace w' = trace w ++ evs /\ freed evs = [c; r] /\
       clients w' !! c = None /\ clients w' !! r = None).
Proof.
  intros Hc Hv Hn. split; [|split; [|split]].
  - intros Hp.
    rewrite (client_loop_cleanup_run c l w c3 v n Hc Hv Hn). cbv zeta.
    rewrite Hp.
    erewrite rtsp_client_free_run; [ | simpl; by rewrite lookup_insert_eq ].
    eexists _, _. split; [reflexivity|]. norm_world.
    split; [by rewrite <- app_assoc|]. split; [reflexivity|].
    apply lookup_delete_eq.
  - intros p g cg Hp Hr Hh Hne Hg.
    rewrite (cleanup_rtsp_side c l w c3 v n p g cg) by done.
    eexists _, _. split; [reflexivity|]. simpl.
    split; [reflexivity|]. split; [reflexivity|]. split.
    + rewrite lookup_delete_ne by done. apply lookup_delete_eq.
    + apply lookup_delete_eq.
  - intros p Hp Hne.
    rewrite (cleanup_other_side c l w c3 v n p) by done.
    eexists _, _. split; [reflexivity|]. simpl.
    split; [reflexivity|]. split; [reflexivity|]. apply lookup_insert_eq.
  - intros p r cr lr vr nr Hp Hr Hh Hne Hcr Hpr Hvr Hnr.
    erewrite bind_run;
      [ | apply (cleanup_other_side c l w c3 v n p); try done;
          rewrite Hr; congruence ].
    erewrite (cleanup_rtsp_side r lr _ cr vr nr p c (with_loop None c3));
      [ | simpl; by rewrite lookup_insert_ne | done | done | done | done
        | done | done | simpl; by rewrite lookup_insert_eq ].
    eexists _, _. split; [reflexivity|]. simpl.
    split; [by rewrite <- app_assoc|]. split; [reflexivity|]. split.
    + rewrite lookup_delete_ne by done. apply lookup_delete_eq.
    + apply lookup_delete_eq.
Qed.

Lemma pair_teardown_rule_witness :
  exists w' evs,
    client_loop_cleanup 1%positive (Some 7%positive) tunnel_world = Some (tt, w') /\
    trace w' = trace tunnel_world ++ evs /\
    freed evs = [2%positive; 1%positive] /\
    clients w' !! 2%positive = None /\ clients w' !! 1%positive = None.
Proof.
  assert (H1 : clients tunnel_world !! 1%positive
               = Some (sample_client 5 7%positive [] (Some tunnel)))
    by (vm_compute; reflexivity).
  assert (H2 : clients tunnel_world !! 2%positive
               = Some (sample_client 6 8%positive [] (Some tunnel)))
    by (vm_compute; reflexivity).
  assert (H9 : vhosts tunnel_world !! 9%positive = Some 2)
    by (vm_compute; reflexivity).
  apply (proj1 (proj2 (pair_teardown_rule 1%positive (Some 7%positive)
                         tunnel_world
                         (sample_client 5 7%positive [] (Some tunnel))
                         9%positive 2 H1 eq_refl H9))
           tunnel 2%positive (sample_client 6 8%positive [] (Some tunnel))
           eq_refl eq_refl eq_refl).
  - discriminate.
  - exact H2.
Defined.

(** C1 as the design document words it fails on the GET side of a tunnel:
    when client 2 leaves its loop, the document has it free itself, and
    [client_loop] frees nothing. *)
Lemma pair_teardown_counterexample :
  freed <$> events_of (client_loop sample_build quiet_env 2%positive) tunnel_world
    = Some [] /\
  documented_frees 2%positive (Some tunnel) = [2%positive] /\
  is_Some (clients (world_after (client_loop sample_build quiet_env 2%positive)
                                tunnel_world) !! 2%positive).
Proof.
  split; [|split].
  - vm_compute. reflexivity.
  - vm_compute. reflexivity.
  - eexists. vm_compute. reflexivity.
Qed.

(** ** Listener and Admitter *)

Lemma sock_proto_switch_run (cfg : build) (sock_proto : Z) (w : world) :
  sock_proto_switch cfg sock_proto w =
    Some (switch_result cfg sock_proto,
          set_trace (trace w ++ switch_log cfg sock_proto) w).
Proof.
  unfold sock_proto_switch, switch_result, switch_log.
  destruct (sock_proto =? IPPROTO_TCP);
    [|destruct (ENABLE_SCTP cfg && (sock_proto =? IPPROTO_SCTP))];
    destruct w; unfold emit, mbind, M_bind, mret, M_ret; norm_world;
    by rewrite ?app_nil_r.
Qed.

(** An admission that goes through, step by step. *)
Lemma incoming_admitted (cfg : build) (k : accept_env)
    (listen : feng_socket_listener) (w : world) (v : ptr) (n : Z) :
  0 <= accept_ret k ->
  0 <= getsockname_ret k ->
  peer_len k = bound_len k ->
  (ENABLE_SCTP cfg = true -> 0 <= getsockopt_ret k) ->
  feng_default_vhost w = Some v ->
  vhosts w !! v = Some n ->
  rtsp_client_incoming_cb cfg k listen w =
    Some (tt,
          World (<[fresh (dom (clients w)) := admitted_client cfg k (Some v)]>
                   (clients w))
                (<[v := n + 1]> (vhosts w)) (feng_default_vhost w)
                (clients_list w)
                (client_threads w ++ [fresh (dom (clients w))])
                (flag_after (ev_loop_new_syserr k) (client_ev_init_errors w))
                (wall_clock w) (time_calls w)
                (trace w ++
                 admission_events cfg k listen (fresh (dom (clients w))))).
Proof.
  intros Ha Hg Hlen Ho Hdv Hn.
  unfold rtsp_client_incoming_cb, emit. run_step.
  rewrite (proj2 (Z.ltb_ge _ _) Ha). run_step.
  rewrite (proj2 (Z.ltb_ge _ _) Hg).
  rewrite (proj2 (Z.eqb_eq _ _) Hlen). simpl negb. cbv iota.
  unfold when, admission_events, admitted_client, sock_proto_of.
  destruct (ENABLE_SCTP cfg) eqn:Hsctp.
  - run_step.
    rewrite (proj2 (Z.ltb_ge _ _) (Ho eq_refl)).
    run_step. unfold g_slice_new0_RTSP_Client. run_step. run_step.
    unfold mbind at 1, M_bind at 1. rewrite foreach_syserr_run. norm_world.
    unfold mbind at 1, M_bind at 1. rewrite sock_proto_switch_run. norm_world.
    destruct (switch_result _ _) as [[kind queue] strategy] eqn:Hsw.
    unfold gets, store, connection_count_add, g_thread_pool_push, modify.
    run_step. rewrite Hdv. run_step. rewrite lookup_insert_eq. norm_world.
    run_step. rewrite Hn. norm_world.
    run_step. unfold emit. norm_world. rewrite insert_insert_eq.
    do 3 f_equal.
    repeat (rewrite <- app_assoc; simpl). reflexivity.
  - unfold mret at 1, M_ret at 1. run_step.
    run_step. unfold g_slice_new0_RTSP_Client. run_step. run_step.
    unfold mbind at 1, M_bind at 1. rewrite foreach_syserr_run. norm_world.
    unfold mbind at 1, M_bind at 1. rewrite sock_proto_switch_run. norm_world.
    unfold gets, store, connection_count_add, g_thread_pool_push, modify.
    run_step. rewrite Hdv. run_step. rewrite lookup_insert_eq. norm_world.
    run_step. rewrite Hn. norm_world.
    run_step. unfold emit. norm_world. rewrite insert_insert_eq.
    do 3 f_equal.
    repeat (rewrite <- app_assoc; simpl). reflexivity.
Qed.

(** C9. An admission failure creates no client and stays inside the
    callback. When [accept] fails, the error is logged and the callback
    returns; when [getsockname] fails, or [getsockopt] in a build with
    SCTP, the error is logged and the accepted descriptor is closed. In
    each case the callback returns normally and the world is as before
    but for these events: nothing is allocated, nothing is counted, nothing
    is pushed to the pool, and no loop or watcher is touched. *)
Theorem admission_failure_creates_no_client (cfg : build) (k : accept_env)
    (listen : feng_socket_listener) (w : world) :
  (accept_ret k < 0 ->
   rtsp_client_incoming_cb cfg k listen w =
     Some (tt, set_trace (trace w ++
                          [E_accept (fd listen);
                           E_fnc_perror "accept failed"]) w)) /\
  (0 <= accept_ret k -> getsockname_ret k < 0 ->
   rtsp_client_incoming_cb cfg k listen w =
     Some (tt, set_trace (trace w ++
                          [E_accept (fd listen);
                           E_getsockname (accept_ret k);
                           E_fnc_perror "getsockname";
                           E_close (accept_ret k)]) w)) /\
  (ENABLE_SCTP cfg = true ->
   0 <= accept_ret k -> 0 <= getsockname_ret k ->
   peer_len k = bound_len k -> getsockopt_ret k < 0 ->
   rtsp_client_incoming_cb cfg k listen w =
     Some (tt, set_trace (trace w ++
                          [E_accept (fd listen);
                           E_getsockname (accept_ret k);
                           E_getsockopt (accept_ret k);
                           E_fnc_perror "getsockopt";
                           E_close (accept_ret k)]) w)).
Proof.
  split; [|split].
  - intros Ha. unfold rtsp_client_incoming_cb, emit. run_step.
    rewrite (proj2 (Z.ltb_lt _ _) Ha). norm_world.
    by rewrite <- app_assoc.
  - intros Ha Hg. unfold rtsp_client_incoming_cb, emit. run_step.
    rewrite (proj2 (Z.ltb_ge _ _) Ha). run_step.
    rewrite (proj2 (Z.ltb_lt _ _) Hg). run_step.
    by repeat (rewrite <- app_assoc; simpl).
  - intros Hsctp Ha Hg Hlen Ho. unfold rtsp_client_incoming_cb, emit. run_step.
    rewrite (proj2 (Z.ltb_ge _ _) Ha). run_step.
    rewrite (proj2 (Z.ltb_ge _ _) Hg).
    rewrite (proj2 (Z.eqb_eq _ _) Hlen). simpl negb. cbv iota.
    rewrite Hsctp. unfold when, emit. run_step.
    rewrite (proj2 (Z.ltb_lt _ _) Ho). run_step.
    by repeat (rewrite <- app_assoc; simpl).
Qed.

Lemma admission_failure_creates_no_client_witness :
  rtsp_client_incoming_cb sample_build
    {| accept_ret := 5; peer := []; peer_len := 16; getsockname_ret := -1;
       bound := []; bound_len := 0; getsockopt_ret := 0; so_protocol := 6;
       ev_loop_new_ret := None; ev_loop_new_syserr := [];
       neb_sa_get_host_bound := None; neb_sa_get_host_peer := None |}
    sample_listener listening_world =
  Some (tt, set_trace (trace listening_world ++
                       [E_accept 3; E_getsockname 5;
                        E_fnc_perror "getsockname"; E_close 5])
              listening_world).
Proof.
  apply (proj1 (proj2 (admission_failure_creates_no_client sample_build
                         {| accept_ret := 5; peer := []; peer_len := 16;
                            getsockname_ret := -1; bound := []; bound_len := 0;
                            getsockopt_ret := 0; so_protocol := 6;
                            ev_loop_new_ret := None; ev_loop_new_syserr := [];
                            neb_sa_get_host_bound := None;
                            neb_sa_get_host_peer := None |}
                         sample_listener listening_world))).
  - simpl. lia.
  - simpl. lia.
Defined.

(** The input buffer is allocated before the protocol is looked at, so
    every admitted client carries one, whatever its transport; the output
    queue is allocated in the TCP case only. *)
Lemma admitted_client_buffers (cfg : build) (k : accept_env) (v : option ptr) :
  input (admitted_client cfg k v) = Some [] /\
  (out_queue (admitted_client cfg k v) <> None ->
   sock_proto_of cfg k = IPPROTO_TCP).
Proof.
  split; [reflexivity|].
  unfold admitted_client, switch_result. simpl.
  destruct (sock_proto_of cfg k =? IPPROTO_TCP) eqn:Htcp.
  - intros _. by apply Z.eqb_eq.
  - by destruct (ENABLE_SCTP cfg && (sock_proto_of cfg k =? IPPROTO_SCTP)).
Qed.

(** C6 on the code: an SCTP connection is admitted with an input buffer
    (and, as the design document has it, without an output queue), although
    [rtsp_client_free] documents the input buffer as not present on SCTP. *)
Lemma sctp_client_has_input_buffer :
  client_threads
    (world_after (rtsp_client_incoming_cb sample_build (incoming IPPROTO_SCTP)
                    sample_listener) listening_world) = [1%positive] /\
  socktype <$>
    clients (world_after (rtsp_client_incoming_cb sample_build
                            (incoming IPPROTO_SCTP) sample_listener)
                         listening_world) !! 1%positive
    = Some (RTSP_SCTP sample_build) /\
  input <$>
    clients (world_after (rtsp_client_incoming_cb sample_build
                            (incoming IPPROTO_SCTP) sample_listener)
                         listening_world) !! 1%positive
    = Some (Some []) /\
  out_queue <$>
    clients (world_after (rtsp_client_incoming_cb sample_build
                            (incoming IPPROTO_SCTP) sample_listener)
                         listening_world) !! 1%positive
    = Some None.
Proof. repeat split; vm_compute; reflexivity. Qed.

(** ** Further properties of the core *)

Lemma client_disconnect_run (c : ptr) (w : world) (cl : RTSP_Client) :
  clients w !! c = Some cl ->
  client_disconnect c w =
    Some (tt, set_trace (trace w ++ [E_ev_unloop (loop cl)]) w).
Proof.
  intros Hc. unfold client_disconnect.
  by rewrite (bind_run _ _ _ _ _ (deref_run w (Some c) cl Hc)).
Qed.

Lemma foreach_disconnect_run (l : list ptr) :
  forall (w : world) (cls : list RTSP_Client),
    Forall2 (fun c cl => clients w !! c = Some cl) l cls ->
    foreach client_disconnect l w =
      Some (tt, set_trace
                  (trace w ++ map (fun cl => E_ev_unloop (loop cl)) cls) w).
Proof.
  induction l as [|c l IH]; intros w cls Hall.
  - apply Forall2_nil_inv_l in Hall as ->. destruct w. norm_world.
    by rewrite app_nil_r.
  - apply Forall2_cons_inv_l in Hall as (cl & cls' & Hc & Hall & ->).
    simpl foreach.
    rewrite (bind_run _ _ _ _ _ (client_disconnect_run c w cl Hc)).
    rewrite (IH _ cls') by done.
    norm_world. by rewrite <- app_assoc.
Qed.

(** Shutdown. [clients_cleanup] takes the lock once, calls [ev_unloop] on
    the loop of every registered client, in registry order, and releases
    the lock; the registry itself is left to the clients, which remove
    themselves as their loops exit. *)
Theorem shutdown_stops_every_registered_loop (cfg : build) (w : world)
    (cls : list RTSP_Client) :
  Forall2 (fun c cl => clients w !! c = Some cl) (clients_list w) cls ->
  clients_cleanup cfg w =
    Some (tt,
          set_trace
            (trace w ++
             [E_g_mutex_lock] ++
             map (fun cl => E_ev_unloop (loop cl)) cls ++
             [E_g_mutex_unlock] ++
             (if CLEANUP_DESTRUCTOR cfg
              then [E_g_ptr_array_free; E_g_thread_pool_free; E_g_mutex_free]
              else [])) w).
Proof.
  intros Hall. unfold clients_cleanup, clients_each, gets, emit.
  unfold mbind at 1, M_bind at 1. unfold mbind at 1, M_bind at 1.
  norm_world. unfold mbind at 1, M_bind at 1.
  unfold mbind at 1, M_bind at 1.
  rewrite (foreach_disconnect_run _ _ cls) by exact Hall. norm_world.
  unfold when. destruct (CLEANUP_DESTRUCTOR cfg).
  - unfold emit. do 2 run_step. destruct w. norm_world.
    by repeat (rewrite <- app_assoc; simpl).
  - unfold mret, M_ret. destruct w. norm_world.
    by repeat (rewrite <- app_assoc; simpl).
Qed.

Lemma shutdown_stops_every_registered_loop_witness :
  clients_cleanup sample_build serving_world =
    Some (tt,
          set_trace
            [E_g_mutex_lock; E_ev_unloop (Some 7%positive);
             E_ev_unloop (Some 8%positive); E_g_mutex_unlock]
            serving_world).
Proof.
  apply (shutdown_stops_every_registered_loop sample_build serving_world
           [sample_client 5 7%positive [] None;
            sample_client 6 8%positive [] None]).
  constructor; [vm_compute; reflexivity|].
  constructor; [vm_compute; reflexivity|].
  constructor.
Defined.

(** Admission. A connection that passes the three system calls is handed
    to the pool as a client on the accepted descriptor, counted by the
    default virtual host, with no session and no pair link; a TCP socket
    gets the TCP kind, an empty output queue and the queued write
    strategy, an SCTP socket the SCTP kind, no queue and the direct
    strategy. *)
Theorem admission_sets_up_transport (cfg : build) (k : accept_env)
    (listen : feng_socket_listener) (w : world) (v : ptr) (n : Z) :
  0 <= accept_ret k ->
  0 <= getsockname_ret k ->
  peer_len k = bound_len k ->
  (ENABLE_SCTP cfg = true -> 0 <= getsockopt_ret k) ->
  feng_default_vhost w = Some v ->
  vhosts w !! v = Some n ->
  exists w' rtsp c,
    rtsp_client_incoming_cb cfg k listen w = Some (tt, w') /\
    clients w !! rtsp = None /\
    clients w' !! rtsp = Some c /\
    client_threads w' = client_threads w ++ [rtsp] /\
    vhosts w' !! v = Some (n + 1) /\
    sd c = accept_ret k /\ vhost c = Some v /\
    session c = None /\ pair c = None /\
    (sock_proto_of cfg k = IPPROTO_TCP ->
     socktype c = RTSP_TCP cfg /\ out_queue c = Some [] /\
     write_data c = Some rtsp_write_data_queue) /\
    (ENABLE_SCTP cfg = true -> so_protocol k = IPPROTO_SCTP ->
     socktype c = RTSP_SCTP cfg /\ out_queue c = None /\
     write_data c = Some rtsp_sctp_send_rtsp).
Proof.
  intros Ha Hg Hlen Ho Hdv Hn.
  exists (world_after (rtsp_client_incoming_cb cfg k listen) w),
    (fresh (dom (clients w))), (admitted_client cfg k (Some v)).
  unfold world_after.
  rewrite (incoming_admitted cfg k listen w v n) by done. simpl.
  split; [done|]. split; [apply not_elem_of_dom, is_fresh|].
  split; [apply lookup_insert_eq|]. split; [done|].
  split; [apply lookup_insert_eq|]. do 4 (split; [done|]). split.
  - intros Htcp. unfold switch_result. rewrite Htcp. by simpl.
  - intros Hsctp Hproto. unfold switch_result, sock_proto_of.
    rewrite Hsctp, Hproto. by simpl.
Qed.

Lemma admission_sets_up_transport_witness :
  exists w' rtsp c,
    rtsp_client_incoming_cb sample_build (incoming IPPROTO_TCP) sample_listener
      listening_world = Some (tt, w') /\
    clients listening_world !! rtsp = None /\
    clients w' !! rtsp = Some c /\
    client_threads w' = client_threads listening_world ++ [rtsp] /\
    vhosts w' !! 9%positive = Some (2 + 1) /\
    sd c = accept_ret (incoming IPPROTO_TCP) /\ vhost c = Some 9%positive /\
    session c = None /\ pair c = None /\
    (sock_proto_of sample_build (incoming IPPROTO_TCP) = IPPROTO_TCP ->
     socktype c = RTSP_TCP sample_build /\ out_queue c = Some [] /\
     write_data c = Some rtsp_write_data_queue) /\
    (ENABLE_SCTP sample_build = true ->
     so_protocol (incoming IPPROTO_TCP) = IPPROTO_SCTP ->
     socktype c = RTSP_SCTP sample_build /\ out_queue c = None /\
     write_data c = Some rtsp_sctp_send_rtsp).
Proof.
  apply (admission_sets_up_transport sample_build (incoming IPPROTO_TCP)
           sample_listener listening_world 9%positive 2).
  - simpl. lia.
  - simpl. lia.
  - reflexivity.
  - intros _. simpl. lia.
  - reflexivity.
  - vm_compute. reflexivity.
Defined.

(** A whole connection. An unpaired client whose initialisation raised no
    error, and which no other thread touches in the registry while its
    loop runs, leaves the registry as it found it, takes one off its
    virtual host's connection count and is freed. *)
Theorem unpaired_client_lifecycle (cfg : build) (env : loop_env) (c : ptr)
    (w : world) (c0 c2 : RTSP_Client) (v : ptr) (n : Z) :
  clients w !! c = Some c0 ->
  client_ev_init_errors w = 0 ->
  io_start_syserr env = [] ->
  run_clients env (<[c := watched cfg c c0]> (clients w)) !! c = Some c2 ->
  pair c2 = None ->
  vhost c2 = Some v ->
  run_vhosts env (vhosts w) !! v = Some n ->
  c ∉ clients_list w ->
  run_clients_list env (clients_list w ++ [c]) = clients_list w ++ [c] ->
  exists w' evs,
    client_loop cfg env c w = Some (tt, w') /\
    trace w' = trace w ++ evs /\
    E_ev_loop (loop c0) ∈ evs /\
    E_ev_loop_destroy (loop c0) ∈ evs /\
    clients_list w' = clients_list w /\
    vhosts w' !! v = Some (n - 1) /\
    clients w' !! c = None.
Proof.
  intros Hc Hflag Hinit Hc2 Hp Hv Hn Hnotin Hquiet.
  rewrite (client_loop_after_loop cfg env c w c0 c2) by done.
  erewrite client_loop_cleanup_run; [ | exact Hc2 | exact Hv | exact Hn ].
  cbv zeta. rewrite Hp.
  erewrite rtsp_client_free_run; [ | simpl; by rewrite lookup_insert_eq ].
  eexists _, _. split; [reflexivity|]. norm_world.
  split; [by repeat (rewrite <- app_assoc; simpl)|].
  split; [rewrite !elem_of_cons; auto 10|].
  split.
  { do 5 (apply elem_of_cons; right).
    rewrite !elem_of_app, !elem_of_cons. auto 20. }
  split; [rewrite Hquiet; by apply remove_fast_add|].
  split; [apply lookup_insert_eq|apply lookup_delete_eq].
Qed.

Lemma unpaired_client_lifecycle_witness :
  exists w' evs,
    client_loop sample_build quiet_env 1%positive waiting_world = Some (tt, w') /\
    trace w' = trace waiting_world ++ evs /\
    E_ev_loop (Some 7%positive) ∈ evs /\
    E_ev_loop_destroy (Some 7%positive) ∈ evs /\
    clients_list w' = clients_list waiting_world /\
    vhosts w' !! 9%positive = Some (2 - 1) /\
    clients w' !! 1%positive = None.
Proof.
  apply (unpaired_client_lifecycle sample_build quiet_env 1%positive
           waiting_world (sample_client 5 7%positive [] None)
           (watched sample_build 1%positive (sample_client 5 7%positive [] None))
           9%positive 2).
  - vm_compute. reflexivity.
  - reflexivity.
  - reflexivity.
  - simpl. apply lookup_insert_eq.
  - vm_compute. reflexivity.
  - vm_compute. reflexivity.
  - vm_compute. reflexivity.
  - simpl. apply not_elem_of_nil.
  - reflexivity.
Defined.

(** ** The timeout monitor, tick by tick *)

Lemma deref_inv (p : option ptr) (w w' : world) (c : RTSP_Client) :
  deref p w = Some (c, w') -> lookup_client w p = Some c /\ w' = w.
Proof.
  unfold deref, lookup_client. destruct p as [a|]; [|done].
  destruct (clients w !! a); [|done]. by intros [= -> ->].
Qed.

(** The checks of a list of sessions: defined exactly when the owners
    they dereference are allocated; the world changes by the events and by
    one reading of the clock per session. *)
Lemma foreach_check_spec (l : list RTP_session) : forall w : world,
  foreach check_if_any_rtp_session_timedout l w =
    if kicked_owners_live (clients w) (wall_clock w) (time_calls w) l then
      Some (tt, set_trace
                  (trace w ++
                   tick_events (clients w) (wall_clock w) (time_calls w) l)
                  (set_time_calls (time_calls w + length l)%nat w))
    else None.
Proof.
  induction l as [|s l IH]; intros w.
  - destruct w. simpl. norm_world. by rewrite app_nil_r, Nat.add_0_r.
  - simpl foreach. unfold mbind, M_bind.
    pose proof (check_run s w) as Hrun. cbv zeta in Hrun. rewrite Hrun.
    clear Hrun. simpl kicked_owners_live. simpl tick_events.
    unfold session_events.
    change (lookup_client w (client s)) with (owner_in (clients w) s).
    destruct (STREAM_TIMEOUT <=? _).
    + destruct (owner_in (clients w) s) as [c|] eqn:Hc.
      * rewrite (bool_decide_eq_true_2 (is_Some (Some c))) by by eexists.
        rewrite IH. destruct w. norm_world.
        destruct (kicked_owners_live _ _ _ _); [|done].
        do 3 f_equal; [|by rewrite <- !app_assoc]. lia.
      * rewrite (bool_decide_eq_false_2 (is_Some None)); [done|].
        by intros [? ?].
    + rewrite IH. destruct w. norm_world.
      destruct (kicked_owners_live _ _ _ _); [|done].
      do 3 f_equal; [|by rewrite app_nil_r, <- !app_assoc]. lia.
Qed.

Lemma deref_null (p : option ptr) (w : world) :
  lookup_client w p = None -> deref p w = None.
Proof.
  unfold deref, lookup_client. destruct p as [a|]; [|done]. by intros ->.
Qed.

(** A whole tick of the monitor. *)
Lemma client_ev_timeout_run (l : option ptr) (timer : ev_timer) (w : world) :
  client_ev_timeout l timer w =
    match lookup_client w (timer_data timer) with
    | Some rtsp =>
        if kicked_owners_live (clients w) (wall_clock w) (time_calls w)
             (monitored_sessions rtsp)
        then
          Some (tt,
                set_trace
                  (trace w ++
                   tick_events (clients w) (wall_clock w) (time_calls w)
                     (monitored_sessions rtsp) ++
                   [E_ev_timer_again l timer])
                  (set_time_calls
                     (time_calls w + length (monitored_sessions rtsp))%nat w))
        else None
    | None => None
    end.
Proof.
  unfold client_ev_timeout.
  destruct (lookup_client w (timer_data timer)) as [rtsp|] eqn:Hr.
  - rewrite (bind_run _ _ _ _ _ (deref_run _ _ _ Hr)).
    unfold monitored_sessions.
    destruct (session rtsp) as [sess|].
    + destruct (rtp_sessions sess) as [|s0 l0] eqn:Hl.
      * destruct w. unfold mbind, M_bind, mret, M_ret, emit. norm_world.
        by rewrite Nat.add_0_r.
      * unfold mbind at 1, M_bind at 1. rewrite foreach_check_spec.
        destruct (kicked_owners_live _ _ _ _); [|done].
        unfold emit. destruct w. norm_world. by rewrite <- !app_assoc.
    + destruct w. unfold mbind, M_bind, mret, M_ret, emit. norm_world.
      by rewrite Nat.add_0_r.
  - unfold mbind, M_bind. by rewrite (deref_null _ _ Hr).
Qed.

Lemma tick_events_monitor (h : gmap ptr RTSP_Client) (clock : nat -> Z)
    (l : list RTP_session) : forall k : nat,
  Forall (fun e => monitor_event e = true) (tick_events h clock k l).
Proof.
  induction l as [|s l IH]; intros k; simpl; [constructor|].
  apply Forall_app. split; [|apply IH].
  unfold session_events. apply Forall_app. split.
  - destruct (_ && _); repeat constructor.
  - destruct (_ <=? _); [|constructor].
    destruct (owner_in h s); repeat constructor.
Qed.

(** A tick of the monitor re-arms its timer, whatever it found. When
    [client_ev_timeout] returns, the last thing it did is
    [ev_timer_again] on the very timer and loop it was called with;
    before that it only logged, sent RTCP packets and stopped loops, and
    did none of this for a client without RTSP session or without RTP
    sessions. It read the clock once per RTP session, and left the heap of
    clients, the connection counts, the registry, the pool and the error
    flag as they were. *)
Theorem timer_tick_rearms_and_frames (l : option ptr) (timer : ev_timer)
    (w w' : world) :
  client_ev_timeout l timer w = Some (tt, w') ->
  exists rtsp evs,
    lookup_client w (timer_data timer) = Some rtsp /\
    trace w' = trace w ++ evs ++ [E_ev_timer_again l timer] /\
    Forall (fun e => monitor_event e = true) evs /\
    (monitored_sessions rtsp = [] -> evs = []) /\
    time_calls w' = (time_calls w + length (monitored_sessions rtsp))%nat /\
    clients w' = clients w /\ vhosts w' = vhosts w /\
    clients_list w' = clients_list w /\
    client_threads w' = client_threads w /\
    client_ev_init_errors w' = client_ev_init_errors w.
Proof.
  rewrite client_ev_timeout_run.
  destruct (lookup_client w (timer_data timer)) as [rtsp|]; [|done].
  destruct (kicked_owners_live _ _ _ _); [|done].
  intros [= <-].
  exists rtsp,
    (tick_events (clients w) (wall_clock w) (time_calls w)
       (monitored_sessions rtsp)).
  split; [done|]. split; [done|].
  split; [apply tick_events_monitor|].
  split; [by intros ->|]. done.
Qed.

Lemma timer_tick_rearms_and_frames_witness :
  exists rtsp evs,
    lookup_client monitored_world (timer_data monitored_timer) = Some rtsp /\
    trace (world_after (client_ev_timeout (Some 7%positive) monitored_timer)
                       monitored_world)
      = trace monitored_world ++ evs ++
        [E_ev_timer_again (Some 7%positive) monitored_timer] /\
    Forall (fun e => monitor_event e = true) evs /\
    (monitored_sessions rtsp = [] -> evs = []) /\
    time_calls (world_after (client_ev_timeout (Some 7%positive) monitored_timer)
                            monitored_world)
      = (time_calls monitored_world + length (monitored_sessions rtsp))%nat /\
    clients (world_after (client_ev_timeout (Some 7%positive) monitored_timer)
                         monitored_world) = clients monitored_world /\
    vhosts (world_after (client_ev_timeout (Some 7%positive) monitored_timer)
                        monitored_world) = vhosts monitored_world /\
    clients_list (world_after (client_ev_timeout (Some 7%positive) monitored_timer)
                              monitored_world) = clients_list monitored_world /\
    client_threads (world_after (client_ev_timeout (Some 7%positive)
                                   monitored_timer) monitored_world)
      = client_threads monitored_world /\
    client_ev_init_errors (world_after (client_ev_timeout (Some 7%positive)
                                          monitored_timer) monitored_world)
      = client_ev_init_errors monitored_world.
Proof.
  apply (timer_tick_rearms_and_frames (Some 7%positive) monitored_timer
           monitored_world
           (world_after (client_ev_timeout (Some 7%positive) monitored_timer)
                        monitored_world)).
  vm_compute. reflexivity.
Defined.

(** When the monitor stays silent. For an idle time that fits [time_t],
    the check of one session emits nothing exactly when the session has
    been idle for less than [LIVE_STREAM_BYE_TIMEOUT] seconds, or is
    STORED and has been idle for less than [STREAM_TIMEOUT] seconds; this
    covers a clock that lies before the last packet. In these cases the
    check is defined whatever the session's owner pointer is. *)
Theorem monitor_silent_iff_fresh (s : RTP_session) (w : world) :
  let idle := idle_at w (time_calls w) s in
  time_t_min <= idle <= time_t_max ->
  (events_of (check_if_any_rtp_session_timedout s) w = Some [] <->
   idle < LIVE_STREAM_BYE_TIMEOUT \/
   (source (parent (track s)) = STORED_SOURCE /\ idle < STREAM_TIMEOUT)).
Proof.
  intros idle Hrange. subst idle. unfold idle_at in *.
  pose proof (check_events s w) as Hev. cbv zeta in Hev. rewrite Hev. clear Hev.
  rewrite time_t_sub_exact by done.
  pose proof timeouts_ordered as Hord.
  destruct (Z.leb_spec STREAM_TIMEOUT
              (wall_clock w (time_calls w) - last_packet_send_time s)) as [Hh|Hh].
  - split.
    + destruct (lookup_client w (client s)); [|done].
      unfold hard_events. intros [= Heq]. by apply app_nil in Heq as [_ ?].
    + intros [?|[_ ?]]; lia.
  - destruct (Z.leb_spec LIVE_STREAM_BYE_TIMEOUT
                (wall_clock w (time_calls w) - last_packet_send_time s)) as [Hs|Hs].
    + rewrite andb_true_r. case_bool_decide as Hsrc.
      * split; [done|]. intros [?|[Hst _]]; [lia|]. by rewrite Hsrc in Hst.
      * split; [|done]. intros _. right. split; [|done].
        by destruct (source (parent (track s))).
    + rewrite andb_false_r. split; [|done]. intros _. by left.
Qed.

Lemma monitor_silent_iff_fresh_witness :
  events_of (check_if_any_rtp_session_timedout
               (sample_session STORED_SOURCE 990 1%positive)) monitored_world
    = Some [] <->
  idle_at monitored_world (time_calls monitored_world)
    (sample_session STORED_SOURCE 990 1%positive) < LIVE_STREAM_BYE_TIMEOUT \/
  (source (parent (track (sample_session STORED_SOURCE 990 1%positive)))
     = STORED_SOURCE /\
   idle_at monitored_world (time_calls monitored_world)
     (sample_session STORED_SOURCE 990 1%positive) < STREAM_TIMEOUT).
Proof.
  apply (monitor_silent_iff_fresh (sample_session STORED_SOURCE 990 1%positive)
           monitored_world).
  vm_compute. split; discriminate.
Defined.

Lemma kicked_owners_live_all (h : gmap ptr RTSP_Client) (clock : nat -> Z)
    (l : list RTP_session) : forall k : nat,
  (forall s, s ∈ l -> is_Some (owner_in h s)) ->
  kicked_owners_live h clock k l = true.
Proof.
  induction l as [|s l IH]; intros k Hlive; simpl; [done|].
  rewrite IH by (intros s' Hs'; apply Hlive; by right).
  rewrite andb_true_r. destruct (_ <=? _); [|done].
  apply bool_decide_eq_true_2, Hlive. by left.
Qed.





(** ** The runner: errors while the loop runs *)

(** A whole run of [client_loop] for a client that enters its loop and is
    not paired when the loop returns. *)
Lemma client_loop_unpaired_run (cfg : build) (env : loop_env) (c : ptr)
    (w : world) (c0 c2 : RTSP_Client) (v : ptr) (n : Z) :
  clients w !! c = Some c0 ->
  client_ev_init_errors w = 0 ->
  io_start_syserr env = [] ->
  run_clients env (<[c := watched cfg c c0]> (clients w)) !! c = Some c2 ->
  pair c2 = None ->
  vhost c2 = Some v ->
  run_vhosts env (vhosts w) !! v = Some n ->
  client_loop cfg env c w =
    Some (tt,
          World (delete c (run_clients env (<[c := watched cfg c c0]> (clients w))))
                (<[v := n - 1]> (run_vhosts env (vhosts w)))
                (feng_default_vhost w)
                (g_ptr_array_remove_fast
                   (run_clients_list env (clients_list w ++ [c])) c)
                (run_client_threads env (client_threads w))
                (flag_after (run_syserr env) 0)
                (wall_clock w) (time_calls w + run_time_calls env)%nat
                (trace w ++
                 [E_ev_io_start (loop c0) (io_read_init cfg c c0);
                  E_g_mutex_lock; E_g_ptr_array_add c; E_g_mutex_unlock;
                  E_ev_loop (loop c0)] ++
                 run_events env ++ map E_fnc_perror (run_syserr env) ++
                 [E_ev_io_stop (loop c0) (io_read_init cfg c c0);
                  E_ev_io_stop (loop c0) (ev_io_write c2);
                  E_ev_timer_stop (loop c0) (ev_timeout c2);
                  E_g_mutex_lock; E_g_ptr_array_remove_fast c;
                  E_g_mutex_unlock;
                  E_ev_loop_destroy (loop c0); E_close (sd c2);
                  E_rtsp_session_free (session c2);
                  E_g_slice_free_RTSP_Client c;
                  E_fnc_log FNC_LOG_INFO "[client] Client removed" []])).
Proof.
  intros Hc Hflag Hinit Hc2 Hp Hv Hn.
  rewrite (client_loop_after_loop cfg env c w c0 c2) by done.
  erewrite client_loop_cleanup_run; [ | exact Hc2 | exact Hv | exact Hn ].
  cbv zeta. rewrite Hp.
  erewrite rtsp_client_free_run; [ | simpl; by rewrite lookup_insert_eq ].
  norm_world. rewrite delete_insert_eq.
  do 3 f_equal. by repeat (rewrite <- app_assoc; simpl).
Qed.

(** Any libev error poisons the thread, not only one at initialisation.
    When libev reports an error while the loop of [c1] runs, [c1] itself
    is served to the end, but the flag of the thread is 1 when it
    returns, and every client the thread is handed afterwards is torn
    down without being registered and without its loop being run. *)
Theorem loop_error_poisons_the_thread (cfg : build) (env1 : loop_env)
    (c1 : ptr) (rest : list (loop_env * ptr)) (w : world)
    (c0 c2 : RTSP_Client) (v : ptr) (n : Z) :
  clients w !! c1 = Some c0 ->
  client_ev_init_errors w = 0 ->
  io_start_syserr env1 = [] ->
  run_syserr env1 <> [] ->
  run_clients env1 (<[c1 := watched cfg c1 c0]> (clients w)) !! c1 = Some c2 ->
  pair c2 = None ->
  vhost c2 = Some v ->
  run_vhosts env1 (vhosts w) !! v = Some n ->
  NoDup (rest.*2) ->
  (forall j, j ∈ rest -> ready (world_after (client_loop cfg env1 c1) w) j.2) ->
  exists w1 w' evs1 evs2,
    client_loop cfg env1 c1 w = Some (tt, w1) /\
    trace w1 = trace w ++ evs1 /\
    E_ev_loop (loop c0) ∈ evs1 /\
    client_ev_init_errors w1 = 1 /\
    pool_thread cfg ((env1, c1) :: rest) w = Some (tt, w') /\
    trace w' = trace w1 ++ evs2 /\
    (forall e, e ∈ evs2 -> is_ev_loop e = false /\ is_registry_add e = false) /\
    freed evs2 = rest.*2 /\
    (forall j, j ∈ rest -> clients w' !! j.2 = None) /\
    clients_list w' = clients_list w1 /\
    client_ev_init_errors w' = 1.
Proof.
  intros Hc Hflag Hinit Herr Hc2 Hp Hv Hn Hnd Hready.
  pose proof (client_loop_unpaired_run cfg env1 c1 w c0 c2 v n
                Hc Hflag Hinit Hc2 Hp Hv Hn) as Hrun.
  unfold world_after in Hready. rewrite Hrun in Hready.
  match type of Hrun with _ = Some (tt, ?x) => set (w1 := x) in * end.
  assert (Hflag1 : client_ev_init_errors w1 = 1).
  { subst w1. simpl. by destruct (run_syserr env1). }
  destruct (pool_thread_skips cfg rest w1)
    as (w' & evs & Hrest & Ht & _ & Hone & Hl & Hev & Hfreed & Hgone).
  { by rewrite Hflag1. }
  { done. }
  { done. }
  eexists w1, w', _, evs. split; [done|].
  split; [subst w1; simpl; reflexivity|].
  split; [rewrite !elem_of_cons; auto 10|].
  split; [done|]. simpl pool_thread. rewrite (bind_run _ _ _ _ _ Hrun).
  split; [done|]. split; [done|]. split; [done|]. split; [done|].
  split; [|split; [done|by apply Hone]].
  intros j Hj. apply Hgone. right. apply list_elem_of_fmap. by exists j.
Qed.

Lemma loop_error_poisons_the_thread_witness :
  exists w1 w' evs1 evs2,
    client_loop sample_build erring_env 1%positive waiting_world
      = Some (tt, w1) /\
    trace w1 = trace waiting_world ++ evs1 /\
    E_ev_loop (Some 7%positive) ∈ evs1 /\
    client_ev_init_errors w1 = 1 /\
    pool_thread sample_build
      [(erring_env, 1%positive); (quiet_env, 2%positive)] waiting_world
      = Some (tt, w') /\
    trace w' = trace w1 ++ evs2 /\
    (forall e, e ∈ evs2 -> is_ev_loop e = false /\ is_registry_add e = false) /\
    freed evs2 = [2%positive] /\
    (forall j, j ∈ [(quiet_env, 2%positive)] -> clients w' !! j.2 = None) /\
    clients_list w' = clients_list w1 /\
    client_ev_init_errors w' = 1.
Proof.
  assert (H1 : clients waiting_world !! 1%positive
               = Some (sample_client 5 7%positive [] None))
    by (vm_compute; reflexivity).
  assert (H2 : vhosts waiting_world !! 9%positive = Some 2)
    by (vm_compute; reflexivity).
  assert (H3 : clients (world_after (client_loop sample_build erring_env
                                       1%positive) waiting_world) !! 2%positive
               = Some (sample_client 6 8%positive [] None))
    by (vm_compute; reflexivity).
  assert (H4 : vhosts (world_after (client_loop sample_build erring_env
                                      1%positive) waiting_world) !! 9%positive
               = Some 1)
    by (vm_compute; reflexivity).
  apply (loop_error_poisons_the_thread sample_build erring_env 1%positive
           [(quiet_env, 2%positive)] waiting_world
           (sample_client 5 7%positive [] None)
           (watched sample_build 1%positive (sample_client 5 7%positive [] None))
           9%positive 2).
  - exact H1.
  - reflexivity.
  - reflexivity.
  - discriminate.
  - simpl. apply lookup_insert_eq.
  - vm_compute. reflexivity.
  - vm_compute. reflexivity.
  - exact H2.
  - apply NoDup_cons. split; [intros H; by apply elem_of_nil in H|].
    apply NoDup_nil_2.
  - intros j Hj. apply elem_of_cons in Hj as [-> | Hj];
      [|by apply elem_of_nil in Hj].
    exists (sample_client 6 8%positive [] None), 9%positive.
    split; [exact H3|]. split; [reflexivity|]. split; [reflexivity|].
    exists 1. exact H4.
Defined.

(** ** The registry under concurrent use *)

(** Leaving the registry takes out one entry, the client's own. When
    [client_loop] returns after having run the loop, the registry is what
    it was when the loop returned (with whatever other threads added or
    removed meanwhile) less one occurrence of the client: the same entries
    up to order, since [g_ptr_array_remove_fast] moves the last entry into
    the gap. Every other client is registered afterwards exactly if it was
    before. *)
Theorem leaving_the_registry_keeps_the_others (cfg : build) (env : loop_env)
    (c : ptr) (w w' : world) (c0 : RTSP_Client) :
  clients w !! c = Some c0 ->
  client_ev_init_errors w = 0 ->
  io_start_syserr env = [] ->
  client_loop cfg env c w = Some (tt, w') ->
  (c ∈ run_clients_list env (clients_list w ++ [c]) ->
   run_clients_list env (clients_list w ++ [c]) ≡ₚ c :: clients_list w') /\
  (c ∉ run_clients_list env (clients_list w ++ [c]) ->
   clients_list w' = run_clients_list env (clients_list w ++ [c])) /\
  (forall y, y <> c ->
     y ∈ clients_list w' <-> y ∈ run_clients_list env (clients_list w ++ [c])).
Proof.
  intros Hc Hflag Hinit Hrun.
  rewrite (client_loop_stages cfg env c w c0 Hc) in Hrun. cbv zeta in Hrun.
  rewrite Hinit, Hflag in Hrun. simpl in Hrun.
  apply bind_inv in Hrun as ([] & wB & HB & HC).
  rewrite client_loop_registered_cases in HB. simpl in HB.
  destruct (run_clients env _ !! c) as [c2|]; [|done].
  injection HB as <-.
  apply client_loop_cleanup_frame in HC as (Hl & _). simpl in Hl.
  rewrite Hl. clear Hl.
  set (at_exit := run_clients_list env (clients_list w ++ [c])).
  split; [apply remove_fast_perm|]. split; [apply remove_fast_absent|].
  intros y Hy. destruct (decide (c ∈ at_exit)) as [Hin|Hnotin].
  - rewrite (remove_fast_perm at_exit c Hin) at 2.
    rewrite elem_of_cons. split; [by right | by intros [?|?]].
  - by rewrite (remove_fast_absent at_exit c Hnotin).
Qed.

Lemma leaving_the_registry_keeps_the_others_witness :
  (1%positive ∈ run_clients_list quiet_env (clients_list serving_world ++ [1%positive]) ->
   run_clients_list quiet_env (clients_list serving_world ++ [1%positive])
     ≡ₚ 1%positive ::
        clients_list (world_after (client_loop sample_build quiet_env 1%positive)
                                  serving_world)) /\
  (1%positive ∉ run_clients_list quiet_env (clients_list serving_world ++ [1%positive]) ->
   clients_list (world_after (client_loop sample_build quiet_env 1%positive)
                             serving_world)
     = run_clients_list quiet_env (clients_list serving_world ++ [1%positive])) /\
  (forall y, y <> 1%positive ->
     y ∈ clients_list (world_after (client_loop sample_build quiet_env 1%positive)
                                   serving_world)
     <-> y ∈ run_clients_list quiet_env
               (clients_list serving_world ++ [1%positive])).
Proof.
  apply (leaving_the_registry_keeps_the_others sample_build quiet_env
           1%positive serving_world
           (world_after (client_loop sample_build quiet_env 1%positive)
                        serving_world)
           (sample_client 5 7%positive [] None)).
  - vm_compute. reflexivity.
  - reflexivity.
  - reflexivity.
  - vm_compute. reflexivity.
Defined.

(** ** Teardown: what it touches *)

(** What the end of [client_loop] changes, in every case in which it is
    defined. The connection count of the client's own virtual host goes
    down by one, and no other count changes, also when a sibling is
    freed; the loop is destroyed before anything is freed; the only
    structures freed are the client and, for the RTSP-carrying side of a
    pair, its HTTP sibling;
    every other client is left as it was; the client itself is either
    freed or, as the other side of a pair, kept with its loop pointer
    cleared. The registry, the pool, the error flag and the clock are not
    touched. *)
Theorem teardown_touches_only_client_and_sibling (c : ptr) (l : option ptr)
    (w w' : world) :
  client_loop_cleanup c l w = Some (tt, w') ->
  exists c3 v n evs,
    clients w !! c = Some c3 /\ vhost c3 = Some v /\ vhosts w !! v = Some n /\
    vhosts w' = <[v := n - 1]> (vhosts w) /\
    trace w' = trace w ++ E_ev_loop_destroy l :: evs /\
    (forall a, a ∈ freed evs ->
       a = c \/
       exists p, pair c3 = Some p /\ rtsp_client p = Some c /\
                 http_client p = Some a) /\
    (forall a, a <> c -> a ∉ freed evs -> clients w' !! a = clients w !! a) /\
    (clients w' !! c = None \/
     clients w' !! c = Some (with_loop None c3) /\
     exists p, pair c3 = Some p /\ rtsp_client p <> Some c) /\
    clients_list w' = clients_list w /\
    client_threads w' = client_threads w /\
    client_ev_init_errors w' = client_ev_init_errors w /\
    time_calls w' = time_calls w.
Proof.
  intros Hrun. rewrite client_loop_cleanup_cases in Hrun.
  destruct (clients w !! c) as [c3|] eqn:Hc; [|done].
  destruct (vhost c3) as [v|] eqn:Hv; [|done].
  destruct (vhosts w !! v) as [n|] eqn:Hn; [|done].
  cbv zeta in Hrun. exists c3, v, n.
  destruct (pair c3) as [p|] eqn:Hp.
  - case_bool_decide as Hside.
    + apply bind_inv in Hrun as ([] & w1 & Hf1 & Hf2).
      apply rtsp_client_free_inv in Hf1 as (g & cg & Hg & Hcg & ->).
      apply rtsp_client_free_inv in Hf2 as (a2 & c3' & [= <-] & Hc3' & ->).
      simpl in Hcg, Hc3'. eexists. simpl.
      do 4 (split; [done|]).
      split; [by rewrite <- !app_assoc|]. simpl.
      split; [|split; [|split]]; [| |left; apply lookup_delete_eq|done].
      * intros a Ha. rewrite !elem_of_cons in Ha.
        destruct Ha as [-> | [-> | Ha]]; [|by left|by apply elem_of_nil in Ha].
        right. by exists p.
      * intros a Hac Ha. rewrite !not_elem_of_cons in Ha.
        destruct Ha as (Hag & _).
        by rewrite !lookup_delete_ne, lookup_insert_ne.
    + injection Hrun as <-. exists []. simpl.
      do 4 (split; [done|]). split; [done|].
      split; [intros a Ha; by apply elem_of_nil in Ha|].
      split; [intros a Hac _; by rewrite lookup_insert_ne|].
      split; [|done]. right. split; [apply lookup_insert_eq|]. by exists p.
  - apply rtsp_client_free_inv in Hrun as (a2 & c3' & [= <-] & Hc3' & ->).
    eexists. simpl. do 4 (split; [done|]).
    split; [by rewrite <- !app_assoc|]. simpl.
    split; [|split; [|split]]; [| |left; apply lookup_delete_eq|done].
    * intros a Ha. rewrite !elem_of_cons in Ha.
      destruct Ha as [-> | Ha]; [by left|by apply elem_of_nil in Ha].
    * intros a Hac _. by rewrite lookup_delete_ne, lookup_insert_ne.
Qed.

Lemma teardown_touches_only_client_and_sibling_witness :
  exists c3 v n evs,
    clients tunnel_world !! 1%positive = Some c3 /\
    vhost c3 = Some v /\ vhosts tunnel_world !! v = Some n /\
    vhosts (world_after (client_loop_cleanup 1%positive (Some 7%positive))
                        tunnel_world)
      = <[v := n - 1]> (vhosts tunnel_world) /\
    trace (world_after (client_loop_cleanup 1%positive (Some 7%positive))
                       tunnel_world)
      = trace tunnel_world ++ E_ev_loop_destroy (Some 7%positive) :: evs /\
    (forall a, a ∈ freed evs ->
       a = 1%positive \/
       exists p, pair c3 = Some p /\ rtsp_client p = Some 1%positive /\
                 http_client p = Some a) /\
    (forall a, a <> 1%positive -> a ∉ freed evs ->
       clients (world_after (client_loop_cleanup 1%positive (Some 7%positive))
                            tunnel_world) !! a
       = clients tunnel_world !! a) /\
    (clients (world_after (client_loop_cleanup 1%positive (Some 7%positive))
                          tunnel_world) !! 1%positive = None \/
     clients (world_after (client_loop_cleanup 1%positive (Some 7%positive))
                          tunnel_world) !! 1%positive
       = Some (with_loop None c3) /\
     exists p, pair c3 = Some p /\ rtsp_client p <> Some 1%positive) /\
    clients_list (world_after (client_loop_cleanup 1%positive (Some 7%positive))
                              tunnel_world) = clients_list tunnel_world /\
    client_threads (world_after (client_loop_cleanup 1%positive (Some 7%positive))
                                tunnel_world) = client_threads tunnel_world /\
    client_ev_init_errors
      (world_after (client_loop_cleanup 1%positive (Some 7%positive))
                   tunnel_world) = client_ev_init_errors tunnel_world /\
    time_calls (world_after (client_loop_cleanup 1%positive (Some 7%positive))
                            tunnel_world) = time_calls tunnel_world.
Proof.
  apply (teardown_touches_only_client_and_sibling 1%positive (Some 7%positive)
           tunnel_world
           (world_after (client_loop_cleanup 1%positive (Some 7%positive))
                        tunnel_world)).
  vm_compute. reflexivity.
Defined.

Lemma foreach_disconnect_dangling (l : list ptr) (a : ptr) : forall w : world,
  a ∈ l -> clients w !! a = None -> foreach client_disconnect l w = None.
Proof.
  induction l as [|x t IH]; intros w Hin Ha; [by apply elem_of_nil in Hin|].
  simpl. unfold mbind, M_bind.
  destruct (clients w !! x) as [cx|] eqn:Hx.
  - rewrite (client_disconnect_run x w cx Hx).
    apply IH; [|done].
    apply elem_of_cons in Hin as [-> | Hin]; [|done]. by rewrite Ha in Hx.
  - unfold client_disconnect, mbind, M_bind.
    by rewrite (deref_null (Some x) w Hx).
Qed.

(** The HTTP side must not outlive the RTSP side. When the RTSP-carrying
    side of a pair reaches the end of its [client_loop] first, the
    structure of the HTTP side is freed with it. Nothing stops the HTTP
    side's own thread or takes the HTTP side out of the registry: the end
    of its [client_loop], and a shutdown broadcast that still finds it
    registered, then read freed memory, for which there is no defined
    behaviour. *)
Theorem http_side_must_not_outlive_rtsp_side (cfg : build) (c : ptr)
    (l lg : option ptr) (w : world) (c3 : RTSP_Client) (v : ptr) (n : Z)
    (p : HTTP_Tunnel_Pair) (g : ptr) (cg : RTSP_Client) :
  clients w !! c = Some c3 ->
  vhost c3 = Some v ->
  vhosts w !! v = Some n ->
  pair c3 = Some p ->
  rtsp_client p = Some c ->
  http_client p = Some g ->
  g <> c ->
  clients w !! g = Some cg ->
  exists w',
    client_loop_cleanup c l w = Some (tt, w') /\
    clients w' !! g = None /\
    clients_list w' = clients_list w /\
    client_loop_cleanup g lg w' = None /\
    (g ∈ clients_list w -> clients_cleanup cfg w' = None).
Proof.
  intros Hc Hv Hn Hp Hr Hh Hne Hg.
  eexists. split.
  { exact (cleanup_rtsp_side c l w c3 v n p g cg Hc Hv Hn Hp Hr Hh Hne Hg). }
  assert (Hgone : delete c (delete g (<[c := with_loop None c3]> (clients w)))
                  !! g = None).
  { rewrite lookup_delete_ne by done. apply lookup_delete_eq. }
  split; [exact Hgone|]. split; [done|]. split.
  - rewrite client_loop_cleanup_cases. simpl clients. by rewrite Hgone.
  - intros Hin. unfold clients_cleanup, clients_each, gets, emit.
    unfold mbind at 1, M_bind at 1. unfold mbind at 1, M_bind at 1.
    norm_world. unfold mbind at 1, M_bind at 1.
    unfold mbind at 1, M_bind at 1.
    by rewrite (foreach_disconnect_dangling _ g).
Qed.

Lemma http_side_must_not_outlive_rtsp_side_witness :
  exists w',
    client_loop_cleanup 1%positive (Some 7%positive) tunnel_serving_world
      = Some (tt, w') /\
    clients w' !! 2%positive = None /\
    clients_list w' = clients_list tunnel_serving_world /\
    client_loop_cleanup 2%positive (Some 8%positive) w' = None /\
    (2%positive ∈ clients_list tunnel_serving_world ->
     clients_cleanup sample_build w' = None).
Proof.
  assert (H1 : clients tunnel_serving_world !! 1%positive
               = Some (sample_client 5 7%positive [] (Some tunnel)))
    by (vm_compute; reflexivity).
  assert (H2 : clients tunnel_serving_world !! 2%positive
               = Some (sample_client 6 8%positive [] (Some tunnel)))
    by (vm_compute; reflexivity).
  assert (H3 : vhosts tunnel_serving_world !! 9%positive = Some 2)
    by (vm_compute; reflexivity).
  apply (http_side_must_not_outlive_rtsp_side sample_build 1%positive
           (Some 7%positive) (Some 8%positive) tunnel_serving_world
           (sample_client 5 7%positive [] (Some tunnel)) 9%positive 2 tunnel
           2%positive (sample_client 6 8%positive [] (Some tunnel))).
  - exact H1.
  - reflexivity.
  - exact H3.
  - reflexivity.
  - reflexivity.
  - reflexivity.
  - discriminate.
  - exact H2.
Defined.

(** ** The listener: every outcome *)

(** The listener once the system calls have succeeded: it needs the
    default virtual host, whose counter it increments. *)
Lemma incoming_after_checks (cfg : build) (k : accept_env)
    (listen : feng_socket_listener) (w : world) :
  0 <= accept_ret k ->
  0 <= getsockname_ret k ->
  peer_len k = bound_len k ->
  (ENABLE_SCTP cfg = true -> 0 <= getsockopt_ret k) ->
  (feng_default_vhost w = None \/
   exists v, feng_default_vhost w = Some v /\ vhosts w !! v = None) ->
  rtsp_client_incoming_cb cfg k listen w = None.
Proof.
  intros Ha Hg Hlen Ho Hdv.
  unfold rtsp_client_incoming_cb, emit. run_step.
  rewrite (proj2 (Z.ltb_ge _ _) Ha). run_step.
  rewrite (proj2 (Z.ltb_ge _ _) Hg).
  rewrite (proj2 (Z.eqb_eq _ _) Hlen). simpl negb. cbv iota.
  unfold when.
  destruct (ENABLE_SCTP cfg) eqn:Hsctp.
  - run_step.
    rewrite (proj2 (Z.ltb_ge _ _) (Ho eq_refl)).
    run_step. unfold g_slice_new0_RTSP_Client. run_step. run_step.
    unfold mbind at 1, M_bind at 1. rewrite foreach_syserr_run. norm_world.
    unfold mbind at 1, M_bind at 1. rewrite sock_proto_switch_run. norm_world.
    destruct (switch_result _ _) as [[kind queue] strategy] eqn:Hsw.
    unfold gets, store, connection_count_add, g_thread_pool_push, modify.
    run_step.
    destruct Hdv as [Hdv | (v & Hdv & Hn)]; rewrite Hdv.
    + run_step. rewrite lookup_insert_eq. norm_world. by run_step.
    + run_step. rewrite lookup_insert_eq. norm_world.
      run_step. by rewrite Hn.
  - unfold mret at 1, M_ret at 1. run_step.
    run_step. unfold g_slice_new0_RTSP_Client. run_step. run_step.
    unfold mbind at 1, M_bind at 1. rewrite foreach_syserr_run. norm_world.
    unfold mbind at 1, M_bind at 1. rewrite sock_proto_switch_run. norm_world.
    unfold gets, store, connection_count_add, g_thread_pool_push, modify.
    run_step.
    destruct Hdv as [Hdv | (v & Hdv & Hn)]; rewrite Hdv.
    + run_step. rewrite lookup_insert_eq. norm_world. by run_step.
    + run_step. rewrite lookup_insert_eq. norm_world.
      run_step. by rewrite Hn.
Qed.

(** A connection the listener turns away changes nothing but the trace. *)
Lemma incoming_rejected (cfg : build) (k : accept_env)
    (listen : feng_socket_listener) (w : world) :
  accept_ret k < 0 \/ getsockname_ret k < 0 \/ peer_len k <> bound_len k \/
  (ENABLE_SCTP cfg = true /\ getsockopt_ret k < 0) ->
  exists evs,
    rtsp_client_incoming_cb cfg k listen w =
      Some (tt, set_trace (trace w ++ evs) w).
Proof.
  intros Hrej. unfold rtsp_client_incoming_cb, emit. run_step.
  destruct (Z.ltb_spec (accept_ret k) 0) as [Ha|Ha].
  { norm_world. eexists. by rewrite <- app_assoc. }
  run_step.
  destruct (Z.ltb_spec (getsockname_ret k) 0) as [Hg|Hg].
  { run_step. eexists. by repeat (rewrite <- app_assoc; simpl). }
  destruct (Z.eqb_spec (peer_len k) (bound_len k)) as [Hlen|Hlen]; simpl negb;
    cbv iota.
  2:{ norm_world. eexists. by repeat (rewrite <- app_assoc; simpl). }
  destruct Hrej as [?|[?|[?|[Hsctp Ho]]]]; [lia|lia|done|].
  rewrite Hsctp. unfold when, emit. run_step.
  rewrite (proj2 (Z.ltb_lt _ _) Ho). run_step.
  eexists. by repeat (rewrite <- app_assoc; simpl).
Qed.

(** The listener touches nothing but the client it creates. Whenever
    [rtsp_client_incoming_cb] returns, the registry and the clock are as
    before, every client that existed is unchanged, and no connection
    count other than the default virtual host's has changed; an error
    flag that was raised is still raised. Either nothing at all has
    changed but the trace (the connection was turned away), or exactly
    one structure has been allocated at an address that was free, pushed
    to the pool as its last entry, and counted once by the default
    virtual host. Registering the client is left to the pool thread. *)
Theorem listener_touches_only_the_new_client (cfg : build) (k : accept_env)
    (listen : feng_socket_listener) (w w' : world) :
  rtsp_client_incoming_cb cfg k listen w = Some (tt, w') ->
  clients_list w' = clients_list w /\
  time_calls w' = time_calls w /\
  (forall a c, clients w !! a = Some c -> clients w' !! a = Some c) /\
  (forall v, feng_default_vhost w <> Some v -> vhosts w' !! v = vhosts w !! v) /\
  (client_ev_init_errors w <> 0 -> client_ev_init_errors w' <> 0) /\
  (w' = set_trace (trace w') w \/
   exists rtsp v n,
     0 <= accept_ret k /\
     clients w !! rtsp = None /\
     sd <$> clients w' !! rtsp = Some (accept_ret k) /\
     dom (clients w') = {[ rtsp ]} ∪ dom (clients w) /\
     client_threads w' = client_threads w ++ [rtsp] /\
     feng_default_vhost w = Some v /\
     vhosts w !! v = Some n /\
     vhosts w' = <[v := n + 1]> (vhosts w)).
Proof.
  intros Hrun.
  assert (Hrej : forall evs, w' = set_trace (trace w ++ evs) w ->
    clients_list w' = clients_list w /\
    time_calls w' = time_calls w /\
    (forall a c, clients w !! a = Some c -> clients w' !! a = Some c) /\
    (forall v, feng_default_vhost w <> Some v ->
       vhosts w' !! v = vhosts w !! v) /\
    (client_ev_init_errors w <> 0 -> client_ev_init_errors w' <> 0) /\
    (w' = set_trace (trace w') w \/
     exists rtsp v n,
       0 <= accept_ret k /\
       clients w !! rtsp = None /\
       sd <$> clients w' !! rtsp = Some (accept_ret k) /\
       dom (clients w') = {[ rtsp ]} ∪ dom (clients w) /\
       client_threads w' = client_threads w ++ [rtsp] /\
       feng_default_vhost w = Some v /\
       vhosts w !! v = Some n /\
       vhosts w' = <[v := n + 1]> (vhosts w))).
  { intros evs ->. simpl. do 5 (split; [done|]). by left. }
  destruct (Z.ltb_spec (accept_ret k) 0) as [Ha|Ha].
  { destruct (incoming_rejected cfg k listen w) as [evs He]; [by left|].
    rewrite He in Hrun. injection Hrun as <-. by apply (Hrej evs). }
  destruct (Z.ltb_spec (getsockname_ret k) 0) as [Hg|Hg].
  { destruct (incoming_rejected cfg k listen w) as [evs He];
      [right; by left|].
    rewrite He in Hrun. injection Hrun as <-. by apply (Hrej evs). }
  destruct (decide (peer_len k = bound_len k)) as [Hlen|Hlen].
  2:{ destruct (incoming_rejected cfg k listen w) as [evs He];
        [right; right; by left|].
      rewrite He in Hrun. injection Hrun as <-. by apply (Hrej evs). }
  destruct (decide (ENABLE_SCTP cfg = true /\ getsockopt_ret k < 0))
    as [Ho|Ho].
  { destruct (incoming_rejected cfg k listen w) as [evs He];
      [right; right; by right|].
    rewrite He in Hrun. injection Hrun as <-. by apply (Hrej evs). }
  assert (Ho' : ENABLE_SCTP cfg = true -> 0 <= getsockopt_ret k).
  { intros Hs. destruct (Z.lt_ge_cases (getsockopt_ret k) 0); [|done].
    by destruct Ho. }
  clear Hrej Ho.
  destruct (feng_default_vhost w) as [v|] eqn:Hdv.
  2:{ rewrite incoming_after_checks in Hrun by auto. done. }
  destruct (vhosts w !! v) as [n|] eqn:Hn.
  2:{ rewrite incoming_after_checks in Hrun by eauto. done. }
  rewrite (incoming_admitted cfg k listen w v n) in Hrun by done.
  injection Hrun as <-. simpl.
  assert (Hfresh : clients w !! fresh (dom (clients w)) = None).
  { apply not_elem_of_dom, is_fresh. }
  split; [done|]. split; [done|]. split.
  { intros a c Hac. rewrite lookup_insert_ne; [done|]. intros <-.
    by rewrite Hfresh in Hac. }
  split.
  { intros v' Hv'. rewrite lookup_insert_ne; [done|]. by intros ->. }
  split.
  { intros Hflag. by destruct (ev_loop_new_syserr k). }
  right. exists (fresh (dom (clients w))), v, n.
  split; [done|]. split; [done|].
  split; [by rewrite lookup_insert_eq|].
  split; [by rewrite dom_insert_L|]. done.
Qed.

Lemma listener_touches_only_the_new_client_witness :
  clients_list (world_after (rtsp_client_incoming_cb sample_build
                               (incoming IPPROTO_TCP) sample_listener)
                            listening_world) = clients_list listening_world /\
  time_calls (world_after (rtsp_client_incoming_cb sample_build
                             (incoming IPPROTO_TCP) sample_listener)
                          listening_world) = time_calls listening_world /\
  (forall a c, clients listening_world !! a = Some c ->
     clients (world_after (rtsp_client_incoming_cb sample_build
                             (incoming IPPROTO_TCP) sample_listener)
                          listening_world) !! a = Some c) /\
  (forall v, feng_default_vhost listening_world <> Some v ->
     vhosts (world_after (rtsp_client_incoming_cb sample_build
                            (incoming IPPROTO_TCP) sample_listener)
                         listening_world) !! v
     = vhosts listening_world !! v) /\
  (client_ev_init_errors listening_world <> 0 ->
   client_ev_init_errors
     (world_after (rtsp_client_incoming_cb sample_build
                     (incoming IPPROTO_TCP) sample_listener)
                  listening_world) <> 0) /\
  (world_after (rtsp_client_incoming_cb sample_build
                  (incoming IPPROTO_TCP) sample_listener) listening_world
   = set_trace
       (trace (world_after (rtsp_client_incoming_cb sample_build
                              (incoming IPPROTO_TCP) sample_listener)
                           listening_world))
       listening_world \/
   exists rtsp v n,
     0 <= accept_ret (incoming IPPROTO_TCP) /\
     clients listening_world !! rtsp = None /\
     sd <$> clients (world_after (rtsp_client_incoming_cb sample_build
                                    (incoming IPPROTO_TCP) sample_listener)
                                 listening_world) !! rtsp
       = Some (accept_ret (incoming IPPROTO_TCP)) /\
     dom (clients (world_after (rtsp_client_incoming_cb sample_build
                                  (incoming IPPROTO_TCP) sample_listener)
                               listening_world))
       = {[ rtsp ]} ∪ dom (clients listening_world) /\
     client_threads (world_after (rtsp_client_incoming_cb sample_build
                                    (incoming IPPROTO_TCP) sample_listener)
                                 listening_world)
       = client_threads listening_world ++ [rtsp] /\
     feng_default_vhost listening_world = Some v /\
     vhosts listening_world !! v = Some n /\
     vhosts (world_after (rtsp_client_incoming_cb sample_build
                            (incoming IPPROTO_TCP) sample_listener)
                         listening_world)
       = <[v := n + 1]> (vhosts listening_world)).
Proof.
  apply (listener_touches_only_the_new_client sample_build
           (incoming IPPROTO_TCP) sample_listener listening_world
           (world_after (rtsp_client_incoming_cb sample_build
                           (incoming IPPROTO_TCP) sample_listener)
                        listening_world)).
  vm_compute. reflexivity.
Defined.

(** ** From admission to the first write, and to the end *)

Lemma watched_write_data (cfg : build) (c : ptr) (c0 : RTSP_Client) :
  write_data (watched cfg c c0) = write_data c0.
Proof.
  with_strategy transparent [watched] (unfold watched).
  by destruct (socktype c0 =? RTSP_TCP cfg).
Qed.

Lemma rtsp_write_string_run (a : ptr) (s : list Byte.byte) (w : world)
    (c : RTSP_Client) :
  clients w !! a = Some c ->
  rtsp_write_string (Some a) s w =
    match write_data c with
    | Some f => Some ((f, Some a, s), w)
    | None => None
    end.
Proof.
  intros Hc. unfold rtsp_write_string.
  rewrite (bind_run _ _ _ _ _ (deref_run w (Some a) c Hc)).
  by destruct (write_data c).
Qed.

(** Writing to an admitted client. Once the listener has admitted a
    connection and [client_loop] has set up its watchers,
    [rtsp_write_string] hands the very bytes of the string, with the
    client, to the strategy of the transport: the queueing one for TCP,
    the direct one for SCTP; it changes nothing itself. For a client that
    went through the default case of the protocol switch the strategy
    pointer is null, and the first write calls through it. *)
Theorem write_goes_to_the_strategy_of_the_transport (cfg : build)
    (k : accept_env) (listen : feng_socket_listener) (env : loop_env)
    (w : world) (v : ptr) (n : Z) (s : list Byte.byte) :
  0 <= accept_ret k ->
  0 <= getsockname_ret k ->
  peer_len k = bound_len k ->
  (ENABLE_SCTP cfg = true -> 0 <= getsockopt_ret k) ->
  feng_default_vhost w = Some v ->
  vhosts w !! v = Some n ->
  exists w1 rtsp l io wA,
    rtsp_client_incoming_cb cfg k listen w = Some (tt, w1) /\
    client_threads w1 = client_threads w ++ [rtsp] /\
    client_loop_watchers cfg env rtsp w1 = Some ((l, io), wA) /\
    (sock_proto_of cfg k = IPPROTO_TCP ->
     rtsp_write_string (Some rtsp) s wA
       = Some ((rtsp_write_data_queue, Some rtsp, s), wA)) /\
    (ENABLE_SCTP cfg = true -> so_protocol k = IPPROTO_SCTP ->
     rtsp_write_string (Some rtsp) s wA
       = Some ((rtsp_sctp_send_rtsp, Some rtsp, s), wA)) /\
    (ENABLE_SCTP cfg = true ->
     so_protocol k <> IPPROTO_TCP -> so_protocol k <> IPPROTO_SCTP ->
     rtsp_write_string (Some rtsp) s wA = None).
Proof.
  intros Ha Hg Hlen Ho Hdv Hn.
  pose proof (incoming_admitted cfg k listen w v n Ha Hg Hlen Ho Hdv Hn) as H1.
  match type of H1 with _ = Some (tt, ?x) => set (w1 := x) in * end.
  assert (Hc : clients w1 !! fresh (dom (clients w))
               = Some (admitted_client cfg k (Some v))).
  { subst w1. simpl. apply lookup_insert_eq. }
  pose proof (client_loop_watchers_run cfg env _ w1 _ Hc) as H2.
  match type of H2 with _ = Some (_, ?x) => set (wA := x) in * end.
  assert (HcA : clients wA !! fresh (dom (clients w))
                = Some (watched cfg (fresh (dom (clients w)))
                          (admitted_client cfg k (Some v)))).
  { subst wA. simpl. apply lookup_insert_eq. }
  eexists w1, (fresh (dom (clients w))), _, _, wA.
  split; [exact H1|]. split; [done|]. split; [exact H2|].
  rewrite (rtsp_write_string_run _ s wA _ HcA), watched_write_data.
  simpl write_data. unfold switch_result, sock_proto_of.
  split; [|split].
  - unfold sock_proto_of. intros ->. by simpl.
  - intros -> ->. by simpl.
  - intros -> Htcp Hsctp.
    rewrite (proj2 (Z.eqb_neq _ _) Htcp), (proj2 (Z.eqb_neq _ _) Hsctp).
    by simpl.
Qed.

Lemma write_goes_to_the_strategy_of_the_transport_witness :
  exists w1 rtsp l io wA,
    rtsp_client_incoming_cb sample_build (incoming 17) sample_listener
      listening_world = Some (tt, w1) /\
    client_threads w1 = client_threads listening_world ++ [rtsp] /\
    client_loop_watchers sample_build quiet_env rtsp w1 = Some ((l, io), wA) /\
    (sock_proto_of sample_build (incoming 17) = IPPROTO_TCP ->
     rtsp_write_string (Some rtsp) [Byte.x4f; Byte.x4b] wA
       = Some ((rtsp_write_data_queue, Some rtsp, [Byte.x4f; Byte.x4b]), wA)) /\
    (ENABLE_SCTP sample_build = true ->
     so_protocol (incoming 17) = IPPROTO_SCTP ->
     rtsp_write_string (Some rtsp) [Byte.x4f; Byte.x4b] wA
       = Some ((rtsp_sctp_send_rtsp, Some rtsp, [Byte.x4f; Byte.x4b]), wA)) /\
    (ENABLE_SCTP sample_build = true ->
     so_protocol (incoming 17) <> IPPROTO_TCP ->
     so_protocol (incoming 17) <> IPPROTO_SCTP ->
     rtsp_write_string (Some rtsp) [Byte.x4f; Byte.x4b] wA = None).
Proof.
  apply (write_goes_to_the_strategy_of_the_transport sample_build (incoming 17)
           sample_listener quiet_env listening_world 9%positive 2
           [Byte.x4f; Byte.x4b]).
  - simpl. lia.
  - simpl. lia.
  - reflexivity.
  - intros _. simpl. lia.
  - reflexivity.
  - vm_compute. reflexivity.
Defined.



(** ** The monitor: a kick does not end the tick *)

Lemma tick_events_app (h : gmap ptr RTSP_Client) (clock : nat -> Z)
    (l1 : list RTP_session) : forall (k : nat) (l2 : list RTP_session),
  tick_events h clock k (l1 ++ l2) =
    tick_events h clock k l1 ++ tick_events h clock (k + length l1) l2.
Proof.
  induction l1 as [|s l1 IH]; intros k l2; simpl.
  - by rewrite Nat.add_0_r.
  - rewrite IH, <- app_assoc. do 3 f_equal. lia.
Qed.

(** [ev_unloop] only asks the loop to return: the tick goes on. When a
    session of the client is past the hard timeout and a later session in
    the list is LIVE and past the soft timeout, the same tick stops the
    loop of the first session's owner and then still sends the BYE for
    the later session, before it re-arms the timer. *)
Theorem kick_does_not_cut_the_tick_short (l : option ptr) (timer : ev_timer)
    (w : world) (rtsp : RTSP_Client) (i j : nat) (si sj : RTP_session)
    (ci : RTSP_Client) :
  lookup_client w (timer_data timer) = Some rtsp ->
  (forall s, s ∈ monitored_sessions rtsp ->
     is_Some (lookup_client w (client s))) ->
  monitored_sessions rtsp !! i = Some si ->
  monitored_sessions rtsp !! j = Some sj ->
  (i < j)%nat ->
  lookup_client w (client si) = Some ci ->
  time_t_min <= idle_at w (time_calls w + i) si <= time_t_max ->
  STREAM_TIMEOUT <= idle_at w (time_calls w + i) si ->
  source (parent (track sj)) = LIVE_SOURCE ->
  time_t_min <= idle_at w (time_calls w + j) sj <= time_t_max ->
  LIVE_STREAM_BYE_TIMEOUT <= idle_at w (time_calls w + j) sj ->
  exists pre mid post,
    events_of (client_ev_timeout l timer) w =
      Some (pre ++ E_ev_unloop (loop ci) :: mid ++
            E_rtcp_send_sr sj BYE :: post ++ [E_ev_timer_again l timer]).
Proof.
  intros Hr Hlive Hi Hj Hij Hci Hri Hidle_i Hsrc Hrj Hidle_j.
  set (L := monitored_sessions rtsp) in *.
  set (D := drop (S i) L).
  assert (Hj' : D !! (j - S i)%nat = Some sj).
  { subst D. rewrite lookup_drop. by replace (S i + (j - S i))%nat with j by lia. }
  pose proof (take_drop_middle _ _ _ Hi) as HL.
  pose proof (take_drop_middle _ _ _ Hj') as HD.
  assert (Hlen_i : length (take i L) = i).
  { apply length_take_le. apply lookup_lt_Some in Hi. lia. }
  assert (Hlen_j : length (take (j - S i) D) = (j - S i)%nat).
  { apply length_take_le. apply lookup_lt_Some in Hj'. lia. }
  unfold idle_at in *.
  assert (Hev : tick_events (clients w) (wall_clock w) (time_calls w) L =
    (tick_events (clients w) (wall_clock w) (time_calls w) (take i L) ++
     (if bool_decide (source (parent (track si)) = LIVE_SOURCE) &&
         (LIVE_STREAM_BYE_TIMEOUT <=?
            wall_clock w (time_calls w + i) - last_packet_send_time si)
      then soft_events si else []) ++
     [E_fnc_log FNC_LOG_INFO "[client] Stream Timeout, client kicked off!" []]) ++
    E_ev_unloop (loop ci) ::
    (tick_events (clients w) (wall_clock w) (S (time_calls w + i))
       (take (j - S i) D) ++
     [E_fnc_log FNC_LOG_INFO "[client] Soft stream timeout" []]) ++
    E_rtcp_send_sr sj BYE ::
    ((if STREAM_TIMEOUT <=?
           wall_clock w (time_calls w + j) - last_packet_send_time sj
      then match owner_in (clients w) sj with
           | Some c => hard_events c
           | None => []
           end
      else []) ++
     tick_events (clients w) (wall_clock w) (S (time_calls w + j))
       (drop (S (j - S i)) D))).
  { rewrite <- HL at 1. rewrite tick_events_app, Hlen_i. simpl tick_events.
    fold D. rewrite <- HD at 1. rewrite tick_events_app, Hlen_j.
    simpl tick_events.
    replace (S (time_calls w + i + (j - S i)))%nat with (time_calls w + j)%nat
      by lia.
    unfold session_events.
    rewrite !time_t_sub_exact by done.
    rewrite (proj2 (Z.leb_le STREAM_TIMEOUT _) Hidle_i).
    change (owner_in (clients w) si) with (lookup_client w (client si)).
    rewrite Hci.
    rewrite (bool_decide_eq_true_2 _ Hsrc).
    rewrite (proj2 (Z.leb_le LIVE_STREAM_BYE_TIMEOUT _) Hidle_j).
    unfold hard_events at 1. unfold soft_events at 2. simpl andb. cbv iota.
    by repeat (rewrite <- app_assoc; simpl). }
  match type of Hev with
  | _ = ?pre ++ _ :: ?mid ++ _ :: ?post => exists pre, mid, post
  end.
  eapply events_of_run.
  - rewrite client_ev_timeout_run, Hr. fold L.
    rewrite kicked_owners_live_all; [reflexivity|].
    intros s Hs. exact (Hlive s Hs).
  - simpl trace. rewrite Hev. f_equal.
    by repeat (rewrite <- app_assoc; simpl).
Qed.

Lemma kick_does_not_cut_the_tick_short_witness :
  exists pre mid post,
    events_of (client_ev_timeout (Some 7%positive) monitored_timer) kicked_world =
      Some (pre ++ E_ev_unloop (Some 7%positive) :: mid ++
            E_rtcp_send_sr (sample_session LIVE_SOURCE 993 1%positive) BYE ::
            post ++ [E_ev_timer_again (Some 7%positive) monitored_timer]).
Proof.
  apply (kick_does_not_cut_the_tick_short (Some 7%positive) monitored_timer
           kicked_world
           (sample_client 5 7%positive
              [sample_session STORED_SOURCE 987 1%positive;
               sample_session LIVE_SOURCE 993 1%positive] None)
           0%nat 1%nat
           (sample_session STORED_SOURCE 987 1%positive)
           (sample_session LIVE_SOURCE 993 1%positive)
           (sample_client 5 7%positive
              [sample_session STORED_SOURCE 987 1%positive;
               sample_session LIVE_SOURCE 993 1%positive] None)).
  - reflexivity.
  - intros s Hs. simpl in Hs.
    apply elem_of_cons in Hs as [-> | Hs].
    + eexists. reflexivity.
    + apply elem_of_cons in Hs as [-> | Hs].
      * eexists. reflexivity.
      * by apply elem_of_nil in Hs.
  - reflexivity.
  - reflexivity.
  - lia.
  - reflexivity.
  - vm_compute. split; discriminate.
  - vm_compute. discriminate.
  - reflexivity.
  - vm_compute. split; discriminate.
  - vm_compute. discriminate.
Defined.

(** ** The error flag over the life of a pool thread *)

Lemma client_loop_allocated (cfg : build) (env : loop_env) (c : ptr)
    (w w' : world) :
  client_loop cfg env c w = Some (tt, w') -> is_Some (clients w !! c).
Proof.
  intros Hrun. destruct (clients w !! c) as [c0|] eqn:Hc; [by eexists|].
  unfold client_loop, client_loop_watchers in Hrun.
  apply bind_inv in Hrun as ([lp io] & w1 & Hw & _).
  apply bind_inv in Hw as (c0 & w2 & Hd & _).
  apply deref_inv in Hd as [Hd _]. simpl in Hd. by rewrite Hc in Hd.
Qed.

(** The flag after one client: clear exactly when it was clear before and
    libev reported nothing for this client. *)
Lemma client_loop_flag (cfg : build) (env : loop_env) (c : ptr) (w w' : world) :
  client_loop cfg env c w = Some (tt, w') ->
  (client_ev_init_errors w' = 0 <->
   client_ev_init_errors w = 0 /\ io_start_syserr env = [] /\
   run_syserr env = []).
Proof.
  intros Hrun.
  destruct (client_loop_allocated cfg env c w w' Hrun) as [c0 Hc].
  rewrite (client_loop_stages cfg env c w c0 Hc) in Hrun. cbv zeta in Hrun.
  destruct (Z.eqb_spec (flag_after (io_start_syserr env)
                          (client_ev_init_errors w)) 0) as [Hz|Hnz].
  - apply bind_inv in Hrun as ([] & wB & HB & HC).
    rewrite client_loop_registered_cases in HB. simpl in HB.
    destruct (run_clients env _ !! c) as [c2|]; [|done].
    injection HB as <-.
    apply client_loop_cleanup_frame in HC as (_ & Hf & _). simpl in Hf.
    rewrite Hf, Hz.
    destruct (io_start_syserr env) as [|m ms]; [|done]. simpl in Hz.
    destruct (run_syserr env) as [|m' ms']; simpl; [by rewrite Hz|].
    split; [done|]. by intros (_ & _ & ?).
  - apply client_loop_cleanup_frame in Hrun as (_ & Hf & _). simpl in Hf.
    rewrite Hf. split; [done|]. intros (Hw & Hi & _).
    by rewrite Hi, Hw in Hnz.
Qed.

(** Nothing clears the error flag. Whatever clients a pool thread serves,
    paired or not, and whatever happens while their loops run, the flag
    of the thread is clear at the end exactly when it was clear at the
    start and libev reported no error for any of the clients, neither
    when a read watcher was started nor while a loop ran. *)
Theorem error_flag_is_never_cleared (cfg : build)
    (jobs : list (loop_env * ptr)) (w w' : world) :
  pool_thread cfg jobs w = Some (tt, w') ->
  (client_ev_init_errors w' = 0 <->
   client_ev_init_errors w = 0 /\
   forall j, j ∈ jobs -> io_start_syserr j.1 = [] /\ run_syserr j.1 = []).
Proof.
  revert w. induction jobs as [|[env c] rest IH]; intros w Hrun.
  - injection Hrun as <-. split; [|by intros [? _]].
    intros Hz. split; [done|]. intros j Hj. by apply elem_of_nil in Hj.
  - simpl in Hrun. apply bind_inv in Hrun as ([] & w1 & H1 & Hrest).
    rewrite (IH w1 Hrest), (client_loop_flag cfg env c w w1 H1).
    split.
    + intros ((Hw & Hi & Hr) & Hall). split; [done|].
      intros j Hj. apply elem_of_cons in Hj as [-> | Hj]; [done|by apply Hall].
    + intros (Hw & Hall). destruct (Hall (env, c)) as [Hi Hr]; [by left|].
      split; [done|]. intros j Hj. apply Hall. by right.
Qed.

Lemma error_flag_is_never_cleared_witness :
  client_ev_init_errors
    (world_after (pool_thread sample_build
                    [(quiet_env, 1%positive); (erring_env, 2%positive)])
                 waiting_world) = 0 <->
  client_ev_init_errors waiting_world = 0 /\
  forall j, j ∈ [(quiet_env, 1%positive); (erring_env, 2%positive)] ->
    io_start_syserr j.1 = [] /\ run_syserr j.1 = [].
Proof.
  apply (error_flag_is_never_cleared sample_build
           [(quiet_env, 1%positive); (erring_env, 2%positive)] waiting_world
           (world_after (pool_thread sample_build
                           [(quiet_env, 1%positive); (erring_env, 2%positive)])
                        waiting_world)).
  vm_compute. reflexivity.
Defined.

(** ** The registry lock *)

Lemma lock_discipline_app (a b : list event) : forall held : bool,
  lock_discipline held (a ++ b) =
    match lock_discipline held a with
    | Some held' => lock_discipline held' b
    | None => None
    end.
Proof.
  induction a as [|e a IH]; intros held; [done|].
  simpl. destruct e, held; try done; apply IH.
Qed.

Lemma lock_discipline_neutral (evs : list event) (held : bool) :
  Forall (fun e => lock_neutral e = true) evs ->
  lock_discipline held evs = Some held.
Proof.
  induction 1 as [|e evs He _ IH]; [done|].
  simpl. by destruct e.
Qed.

Lemma perror_lock_neutral (msgs : list string) :
  Forall (fun e => lock_neutral e = true) (map E_fnc_perror msgs).
Proof. induction msgs; by constructor. Qed.

(** The events of the end of [client_loop]. *)
Lemma client_loop_cleanup_events (c : ptr) (l : option ptr) (w w' : world) :
  client_loop_cleanup c l w = Some (tt, w') ->
  exists post,
    trace w' = trace w ++ post /\
    Forall (fun e => lock_neutral e = true) post.
Proof.
  intros Hrun. rewrite client_loop_cleanup_cases in Hrun.
  destruct (clients w !! c) as [c3|]; [|done].
  destruct (vhost c3) as [v|]; [|done].
  destruct (vhosts w !! v) as [n|]; [|done].
  cbv zeta in Hrun.
  assert (Hfree : forall p w1 w2, rtsp_client_free p w1 = Some (tt, w2) ->
            exists post, trace w2 = trace w1 ++ post /\
              Forall (fun e => lock_neutral e = true) post).
  { intros p w1 w2 Hf.
    apply rtsp_client_free_inv in Hf as (a & ca & -> & Ha & ->).
    eexists. split; [reflexivity|]. by repeat constructor. }
  destruct (pair c3) as [p|].
  - case_bool_decide.
    + apply bind_inv in Hrun as ([] & w1 & Hf1 & Hf2).
      apply Hfree in Hf1 as (post1 & Ht1 & Hq1).
      apply Hfree in Hf2 as (post2 & Ht2 & Hq2).
      simpl in Ht1.
      exists (E_ev_loop_destroy l :: post1 ++ post2). split.
      * rewrite Ht2, Ht1. by rewrite <- !app_assoc.
      * constructor; [done|]. by apply Forall_app.
    + injection Hrun as <-. exists [E_ev_loop_destroy l].
      split; [done|]. by repeat constructor.
  - apply Hfree in Hrun as (post1 & Ht1 & Hq1). simpl in Ht1.
    exists (E_ev_loop_destroy l :: post1). split.
    + rewrite Ht1. by rewrite <- !app_assoc.
    + by constructor.
Qed.

Lemma foreach_disconnect_inv (l : list ptr) : forall w w' : world,
  foreach client_disconnect l w = Some (tt, w') ->
  exists evs,
    w' = set_trace (trace w ++ evs) w /\
    Forall (fun e => lock_neutral e = true) evs.
Proof.
  induction l as [|x t IH]; intros w w' Hrun.
  - injection Hrun as <-. exists []. split; [|constructor].
    destruct w. norm_world. by rewrite app_nil_r.
  - simpl in Hrun. apply bind_inv in Hrun as ([] & w1 & H1 & H2).
    destruct (clients w !! x) as [cx|] eqn:Hx.
    + rewrite (client_disconnect_run x w cx Hx) in H1. injection H1 as <-.
      apply IH in H2 as (evs & -> & Hevs).
      exists (E_ev_unloop (loop cx) :: evs). split; [|by constructor].
      destruct w. norm_world. by rewrite <- app_assoc.
    + unfold client_disconnect, mbind, M_bind in H1.
      by rewrite (deref_null (Some x) w Hx) in H1.
Qed.

(** The registry lock is held only around the two registry updates.
    Along every run of [client_loop] that returns, whether the loop is
    run or skipped and whether the client is paired or not, the lock is
    taken only when free and released only when held, the registry is
    changed only under the lock, [ev_loop] is entered with the lock free,
    and the lock is free when [client_loop] returns; provided that what
    the other threads do while the loop runs respects the same
    discipline. So a client in its loop never keeps the shutdown
    broadcast, which walks the registry under this lock, from getting
    it. *)
Theorem client_loop_respects_registry_lock (cfg : build) (env : loop_env)
    (c : ptr) (w w' : world) :
  client_loop cfg env c w = Some (tt, w') ->
  lock_discipline false (run_events env) = Some false ->
  exists evs,
    trace w' = trace w ++ evs /\
    lock_discipline false evs = Some false.
Proof.
  intros Hrun Henv.
  destruct (client_loop_allocated cfg env c w w' Hrun) as [c0 Hc].
  rewrite (client_loop_stages cfg env c w c0 Hc) in Hrun. cbv zeta in Hrun.
  destruct (flag_after (io_start_syserr env) (client_ev_init_errors w) =? 0).
  - apply bind_inv in Hrun as ([] & wB & HB & HC).
    rewrite client_loop_registered_cases in HB. simpl in HB.
    destruct (run_clients env _ !! c) as [c2|]; [|done].
    injection HB as <-.
    apply client_loop_cleanup_events in HC as (post & Ht & Hpost).
    simpl in Ht. rewrite <- !app_assoc in Ht.
    eexists. split; [exact Ht|].
    simpl lock_discipline.
    rewrite lock_discipline_app,
      (lock_discipline_neutral _ _ (perror_lock_neutral _)).
    simpl lock_discipline. rewrite <- !app_assoc.
    rewrite lock_discipline_app, Henv.
    rewrite lock_discipline_app,
      (lock_discipline_neutral _ _ (perror_lock_neutral _)).
    simpl lock_discipline.
    by apply lock_discipline_neutral.
  - apply client_loop_cleanup_events in Hrun as (post & Ht & Hpost).
    simpl in Ht. rewrite <- !app_assoc in Ht.
    eexists. split; [exact Ht|].
    simpl lock_discipline.
    rewrite lock_discipline_app,
      (lock_discipline_neutral _ _ (perror_lock_neutral _)).
    by apply lock_discipline_neutral.
Qed.

Lemma client_loop_respects_registry_lock_witness :
  exists evs,
    trace (world_after (client_loop sample_build quiet_env 1%positive)
                       waiting_world) = trace waiting_world ++ evs /\
    lock_discipline false evs = Some false.
Proof.
  apply (client_loop_respects_registry_lock sample_build quiet_env 1%positive
           waiting_world
           (world_after (client_loop sample_build quiet_env 1%positive)
                        waiting_world)).
  - vm_compute. reflexivity.
  - reflexivity.
Defined.

(** ** The two protocol switches agree *)

Lemma watched_ev_io_write (cfg : build) (c : ptr) (c0 : RTSP_Client) :
  ev_io_write (watched cfg c c0) =
    if socktype c0 =? RTSP_TCP cfg then
      {| io_data := Some c; io_cb := Some rtsp_tcp_write_cb;
         io_fd := sd c0; io_events := Some EV_WRITE |}
    else ev_io_write c0.
Proof.
  with_strategy transparent [watched] (unfold watched).
  by destruct (socktype c0 =? RTSP_TCP cfg).
Qed.

(** An admitted connection is watched on its own descriptor. The
    listener's switch on the socket protocol and the runner's switch on
    the transport kind fit together, the two kinds being distinct: for a
    TCP connection [client_loop] starts, on the loop [ev_loop_new]
    returned, a read watcher on the accepted descriptor with the TCP read
    callback, and prepares the write watcher on the same descriptor with
    the TCP write callback; for an SCTP connection it starts a read
    watcher on the accepted descriptor with the SCTP read callback and
    leaves the write watcher as allocated. *)
Theorem admitted_connection_is_watched_on_its_descriptor (cfg : build)
    (k : accept_env) (listen : feng_socket_listener) (env : loop_env)
    (w : world) (v : ptr) (n : Z) :
  0 <= accept_ret k ->
  0 <= getsockname_ret k ->
  peer_len k = bound_len k ->
  (ENABLE_SCTP cfg = true -> 0 <= getsockopt_ret k) ->
  feng_default_vhost w = Some v ->
  vhosts w !! v = Some n ->
  RTSP_TCP cfg <> RTSP_SCTP cfg ->
  exists w1 rtsp io wA evs,
    rtsp_client_incoming_cb cfg k listen w = Some (tt, w1) /\
    client_threads w1 = client_threads w ++ [rtsp] /\
    client_loop_watchers cfg env rtsp w1
      = Some ((ev_loop_new_ret k, io), wA) /\
    trace wA = trace w1 ++ E_ev_io_start (ev_loop_new_ret k) io :: evs /\
    io_data io = Some rtsp /\
    (sock_proto_of cfg k = IPPROTO_TCP ->
     io = {| io_data := Some rtsp; io_cb := Some rtsp_tcp_read_cb;
             io_fd := accept_ret k; io_events := Some EV_READ |} /\
     ev_io_write <$> clients wA !! rtsp =
       Some {| io_data := Some rtsp; io_cb := Some rtsp_tcp_write_cb;
               io_fd := accept_ret k; io_events := Some EV_WRITE |}) /\
    (ENABLE_SCTP cfg = true -> so_protocol k = IPPROTO_SCTP ->
     io = {| io_data := Some rtsp; io_cb := Some rtsp_sctp_read_cb;
             io_fd := accept_ret k; io_events := Some EV_READ |} /\
     ev_io_write <$> clients wA !! rtsp = Some (ev_io_write RTSP_Client_zero)).
Proof.
  intros Ha Hg Hlen Ho Hdv Hn Hkinds.
  pose proof (incoming_admitted cfg k listen w v n Ha Hg Hlen Ho Hdv Hn) as H1.
  match type of H1 with _ = Some (tt, ?x) => set (w1 := x) in * end.
  assert (Hc : clients w1 !! fresh (dom (clients w))
               = Some (admitted_client cfg k (Some v))).
  { subst w1. simpl. apply lookup_insert_eq. }
  pose proof (client_loop_watchers_run cfg env _ w1 _ Hc) as H2.
  match type of H2 with _ = Some (_, ?x) => set (wA := x) in * end.
  eexists w1, (fresh (dom (clients w))), _, wA, _.
  split; [exact H1|]. split; [done|]. split; [exact H2|].
  split; [subst wA; simpl; reflexivity|].
  assert (HcA : ev_io_write <$> clients wA !! fresh (dom (clients w))
                = Some (ev_io_write (watched cfg (fresh (dom (clients w)))
                                       (admitted_client cfg k (Some v))))).
  { subst wA. simpl. by rewrite lookup_insert_eq. }
  rewrite HcA, watched_ev_io_write. clear HcA.
  unfold io_read_init. simpl socktype. simpl sd.
  unfold switch_result, sock_proto_of.
  split; [|split].
  - by repeat case_match.
  - intros ->. simpl. by rewrite Z.eqb_refl.
  - intros -> ->. simpl. rewrite (proj2 (Z.eqb_neq _ _) (not_eq_sym Hkinds)).
    simpl. by rewrite Z.eqb_refl.
Qed.

Lemma admitted_connection_is_watched_on_its_descriptor_witness :
  exists w1 rtsp io wA evs,
    rtsp_client_incoming_cb sample_build (incoming IPPROTO_SCTP) sample_listener
      listening_world = Some (tt, w1) /\
    client_threads w1 = client_threads listening_world ++ [rtsp] /\
    client_loop_watchers sample_build quiet_env rtsp w1
      = Some ((ev_loop_new_ret (incoming IPPROTO_SCTP), io), wA) /\
    trace wA = trace w1 ++
      E_ev_io_start (ev_loop_new_ret (incoming IPPROTO_SCTP)) io :: evs /\
    io_data io = Some rtsp /\
    (sock_proto_of sample_build (incoming IPPROTO_SCTP) = IPPROTO_TCP ->
     io = {| io_data := Some rtsp; io_cb := Some rtsp_tcp_read_cb;
             io_fd := accept_ret (incoming IPPROTO_SCTP);
             io_events := Some EV_READ |} /\
     ev_io_write <$> clients wA !! rtsp =
       Some {| io_data := Some rtsp; io_cb := Some rtsp_tcp_write_cb;
               io_fd := accept_ret (incoming IPPROTO_SCTP);
               io_events := Some EV_WRITE |}) /\
    (ENABLE_SCTP sample_build = true ->
     so_protocol (incoming IPPROTO_SCTP) = IPPROTO_SCTP ->
     io = {| io_data := Some rtsp; io_cb := Some rtsp_sctp_read_cb;
             io_fd := accept_ret (incoming IPPROTO_SCTP);
             io_events := Some EV_READ |} /\
     ev_io_write <$> clients wA !! rtsp = Some (ev_io_write RTSP_Client_zero)).
Proof.
  apply (admitted_connection_is_watched_on_its_descriptor sample_build
           (incoming IPPROTO_SCTP) sample_listener quiet_env listening_world
           9%positive 2).
  - simpl. lia.
  - simpl. lia.
  - reflexivity.
  - intros _. simpl. lia.
  - reflexivity.
  - vm_compute. reflexivity.
  - discriminate.
Defined.

(** ** Shutdown while clients are in their loops *)

Lemma bind_cong {A B} (m1 m2 : M A) (f : A -> M B) (w1 w2 : world) :
  m1 w1 = m2 w2 -> (m1 ≫= f) w1 = (m2 ≫= f) w2.
Proof. unfold mbind, M_bind. by intros ->. Qed.

Lemma registered_clients_allocated (h : gmap ptr RTSP_Client) (l : list ptr) :
  (forall a, a ∈ l -> is_Some (h !! a)) ->
  exists cls, Forall2 (fun c cl => h !! c = Some cl) l cls.
Proof.
  induction l as [|x t IH]; intros Hall.
  - exists []. constructor.
  - destruct (Hall x) as [cx Hx]; [by left|].
    destruct IH as [cls Hcls]; [intros a Ha; apply Hall; by right|].
    exists (cx :: cls). by constructor.
Qed.

(** The shutdown broadcast reaches a client that is in its loop. At the
    moment [client_loop] calls [ev_loop] for a client, the thread's flag
    being clear, the client is in the registry; a [clients_cleanup] that
    another thread runs at that moment, every registered client being
    allocated, is defined and calls [ev_unloop] on the loop this client
    is about to run, which is what makes its [ev_loop] return. *)
Theorem shutdown_reaches_a_client_in_its_loop (cfg : build) (env : loop_env)
    (c : ptr) (w : world) (c0 : RTSP_Client) :
  clients w !! c = Some c0 ->
  client_ev_init_errors w = 0 ->
  io_start_syserr env = [] ->
  (forall a, a ∈ clients_list w -> is_Some (clients w !! a)) ->
  exists io wR evs,
    client_loop_until_loop cfg env c w = Some ((loop c0, io), wR) /\
    client_loop cfg env c w = client_loop_from_loop env c (loop c0) io wR /\
    c ∈ clients_list wR /\
    events_of (clients_cleanup cfg) wR = Some evs /\
    E_ev_unloop (loop c0) ∈ evs.
Proof.
  intros Hc Hflag Hinit Hreg.
  pose proof (client_loop_watchers_run cfg env c w c0 Hc) as HW.
  rewrite Hinit, Hflag in HW. simpl in HW.
  assert (HR : client_loop_until_loop cfg env c w =
    Some ((loop c0, io_read_init cfg c c0),
          World (<[c := watched cfg c c0]> (clients w)) (vhosts w)
                (feng_default_vhost w) (clients_list w ++ [c])
                (client_threads w) 0 (wall_clock w) (time_calls w)
                (trace w ++
                 [E_ev_io_start (loop c0) (io_read_init cfg c c0);
                  E_g_mutex_lock; E_g_ptr_array_add c; E_g_mutex_unlock]))).
  { unfold client_loop_until_loop. rewrite (bind_run _ _ _ _ _ HW).
    unfold clients_list_add, emit, modify, mret, M_ret.
    repeat run_step. by repeat (rewrite <- app_assoc; simpl). }
  match type of HR with _ = Some (_, ?x) => set (wR := x) in * end.
  destruct (registered_clients_allocated
              (<[c := watched cfg c c0]> (clients w)) (clients_list w ++ [c]))
    as [cls Hcls].
  { intros a Ha. destruct (decide (a = c)) as [->|Hne].
    - rewrite lookup_insert_eq. by eexists.
    - rewrite lookup_insert_ne by done. apply Hreg.
      apply elem_of_app in Ha as [Ha|Ha]; [done|].
      by apply list_elem_of_singleton in Ha. }
  assert (Hshut : clients_cleanup cfg wR =
    Some (tt,
          set_trace
            (trace wR ++
             [E_g_mutex_lock] ++
             map (fun cl => E_ev_unloop (loop cl)) cls ++
             [E_g_mutex_unlock] ++
             (if CLEANUP_DESTRUCTOR cfg
              then [E_g_ptr_array_free; E_g_thread_pool_free; E_g_mutex_free]
              else [])) wR)).
  { unfold clients_cleanup, clients_each, gets, emit.
    unfold mbind at 1, M_bind at 1. unfold mbind at 1, M_bind at 1.
    norm_world. unfold mbind at 1, M_bind at 1.
    unfold mbind at 1, M_bind at 1.
    rewrite (foreach_disconnect_run _ _ cls) by exact Hcls. norm_world.
    unfold when. destruct (CLEANUP_DESTRUCTOR cfg).
    - unfold emit. do 2 run_step.
      by repeat (rewrite <- app_assoc; simpl).
    - unfold mret, M_ret. norm_world.
      by repeat (rewrite <- app_assoc; simpl). }
  exists (io_read_init cfg c c0), wR. eexists.
  split; [exact HR|]. split; [|split; [|split]].
  - assert (Hadd : clients_list_add c
              (World (<[c := watched cfg c c0]> (clients w)) (vhosts w)
                 (feng_default_vhost w) (clients_list w) (client_threads w) 0
                 (wall_clock w) (time_calls w)
                 (trace w ++ [E_ev_io_start (loop c0) (io_read_init cfg c c0)]))
              = Some (tt, wR)).
    { unfold clients_list_add, emit, modify. repeat run_step.
      subst wR. by repeat (rewrite <- app_assoc; simpl). }
    unfold client_loop, client_loop_from_loop.
    rewrite (bind_run _ _ _ _ _ HW). unfold gets. run_step.
    unfold when. simpl Z.eqb. cbv iota.
    apply bind_cong. unfold client_loop_registered.
    by rewrite (bind_run _ _ _ _ _ Hadd).
  - subst wR. simpl. rewrite elem_of_app, list_elem_of_singleton. by right.
  - exact (events_of_run _ _ _ _ _ Hshut eq_refl).
  - apply Forall2_app_inv_l in Hcls as (cls1 & cls2 & _ & Hc2 & ->).
    apply Forall2_cons_inv_l in Hc2 as (cl & cls3 & Hcl & _ & ->).
    rewrite lookup_insert_eq in Hcl. injection Hcl as <-.
    destruct (watched_fields cfg c c0) as (_ & _ & _ & _ & Hwl & _).
    rewrite map_app. simpl. rewrite Hwl.
    apply elem_of_cons. right. rewrite !elem_of_app, elem_of_cons. auto.
Qed.

Lemma shutdown_reaches_a_client_in_its_loop_witness :
  exists io wR evs,
    client_loop_until_loop sample_build quiet_env 1%positive waiting_world
      = Some ((Some 7%positive, io), wR) /\
    client_loop sample_build quiet_env 1%positive waiting_world
      = client_loop_from_loop quiet_env 1%positive (Some 7%positive) io wR /\
    1%positive ∈ clients_list wR /\
    events_of (clients_cleanup sample_build) wR = Some evs /\
    E_ev_unloop (Some 7%positive) ∈ evs.
Proof.
  assert (H1 : clients waiting_world !! 1%positive
               = Some (sample_client 5 7%positive [] None))
    by (vm_compute; reflexivity).
  apply (shutdown_reaches_a_client_in_its_loop sample_build quiet_env
           1%positive waiting_world (sample_client 5 7%positive [] None)).
  - exact H1.
  - reflexivity.
  - reflexivity.
  - intros a Ha. simpl in Ha. by apply elem_of_nil in Ha.
Defined.

(** ** A socket of an unknown protocol *)

(** C7. The listener admits a socket whose protocol is neither TCP nor
    SCTP, and the client it hands to the pool cannot be written to. The
    default case of the protocol switch only logs at ERROR level: the
    descriptor is not closed and the callback goes on as for a supported
    protocol, so that a client on the accepted descriptor is counted by
    the default virtual host and pushed to the pool. The case assigns
    nothing: the output queue and the write strategy are null, and the
    transport kind is the zero [g_slice_new0] left, which is the TCP kind
    exactly when [RTSP_TCP] is the enumerator of value 0. [client_loop]
    then sets this client up by that kind (the TCP read and write
    callbacks on the accepted descriptor when the kind reads as TCP), and
    the first [rtsp_write_string] on it calls through the null
    [write_data]. Where the design document has the client built as a TCP
    client with a TCP output queue and the queued write strategy, the code
    builds one with neither. *)
Theorem unknown_protocol_client_has_no_write_strategy (cfg : build)
    (k : accept_env) (listen : feng_socket_listener) (env : loop_env)
    (w : world) (v : ptr) (n : Z) (s : list Byte.byte) :
  ENABLE_SCTP cfg = true ->
  0 <= accept_ret k ->
  0 <= getsockname_ret k ->
  peer_len k = bound_len k ->
  0 <= getsockopt_ret k ->
  so_protocol k <> IPPROTO_TCP ->
  so_protocol k <> IPPROTO_SCTP ->
  feng_default_vhost w = Some v ->
  vhosts w !! v = Some n ->
  exists w1 rtsp c io wA,
    rtsp_client_incoming_cb cfg k listen w = Some (tt, w1) /\
    trace w1 = trace w ++
      [E_accept (fd listen); E_getsockname (accept_ret k);
       E_getsockopt (accept_ret k);
       E_fnc_log FNC_LOG_INFO "Incoming connection accepted on socket: %d"
         [accept_ret k];
       E_ev_loop_new] ++
      map E_fnc_perror (ev_loop_new_syserr k) ++
      [E_fnc_log FNC_LOG_ERR "Invalid socket protocol: %d" [so_protocol k];
       E_g_thread_pool_push rtsp] /\
    client_threads w1 = client_threads w ++ [rtsp] /\
    clients w !! rtsp = None /\
    clients w1 !! rtsp = Some c /\
    vhosts w1 !! v = Some (n + 1) /\
    sd c = accept_ret k /\
    input c = Some [] /\
    socktype c = 0 /\
    out_queue c = None /\
    write_data c = None /\
    rtsp_write_string (Some rtsp) s w1 = None /\
    client_loop_watchers cfg env rtsp w1 = Some ((ev_loop_new_ret k, io), wA) /\
    (RTSP_TCP cfg = 0 ->
     socktype c = RTSP_TCP cfg /\
     io = {| io_data := Some rtsp; io_cb := Some rtsp_tcp_read_cb;
             io_fd := accept_ret k; io_events := Some EV_READ |} /\
     ev_io_write <$> clients wA !! rtsp =
       Some {| io_data := Some rtsp; io_cb := Some rtsp_tcp_write_cb;
               io_fd := accept_ret k; io_events := Some EV_WRITE |}) /\
    (RTSP_TCP cfg <> 0 ->
     socktype c <> RTSP_TCP cfg /\
     ev_io_write <$> clients wA !! rtsp = Some (ev_io_write RTSP_Client_zero) /\
     (RTSP_SCTP cfg = 0 ->
      io = {| io_data := Some rtsp; io_cb := Some rtsp_sctp_read_cb;
              io_fd := accept_ret k; io_events := Some EV_READ |}) /\
     (RTSP_SCTP cfg <> 0 ->
      io = {| io_data := Some rtsp; io_cb := None; io_fd := 0;
              io_events := None |})) /\
    out_queue <$> clients wA !! rtsp = Some None /\
    write_data <$> clients wA !! rtsp = Some None /\
    rtsp_write_string (Some rtsp) s wA = None.
Proof.
  intros Hsctp Ha Hg Hlen Ho Htcp Hsctp' Hdv Hn.
  assert (Hsw : switch_result cfg (sock_proto_of cfg k) = (0, None, None)).
  { unfold switch_result, sock_proto_of. rewrite Hsctp.
    rewrite (proj2 (Z.eqb_neq _ _) Htcp), (proj2 (Z.eqb_neq _ _) Hsctp').
    reflexivity. }
  assert (Hlog : switch_log cfg (sock_proto_of cfg k) =
                 [E_fnc_log FNC_LOG_ERR "Invalid socket protocol: %d"
                    [so_protocol k]]).
  { unfold switch_log, sock_proto_of. rewrite Hsctp.
    rewrite (proj2 (Z.eqb_neq _ _) Htcp), (proj2 (Z.eqb_neq _ _) Hsctp').
    reflexivity. }
  pose proof (incoming_admitted cfg k listen w v n Ha Hg Hlen
                (fun _ => Ho) Hdv Hn) as H1.
  match type of H1 with _ = Some (tt, ?x) => set (w1 := x) in * end.
  set (rtsp := fresh (dom (clients w))) in *.
  set (c := admitted_client cfg k (Some v)) in *.
  assert (Hc : clients w1 !! rtsp = Some c).
  { subst w1. simpl. apply lookup_insert_eq. }
  assert (Hkind : socktype c = 0).
  { subst c. unfold admitted_client. simpl. by rewrite Hsw. }
  assert (Hqueue : out_queue c = None).
  { subst c. unfold admitted_client. simpl. by rewrite Hsw. }
  assert (Hstrategy : write_data c = None).
  { subst c. unfold admitted_client. simpl. by rewrite Hsw. }
  pose proof (client_loop_watchers_run cfg env rtsp w1 c Hc) as H2.
  match type of H2 with _ = Some (_, ?x) => set (wA := x) in * end.
  assert (HcA : clients wA !! rtsp = Some (watched cfg rtsp c)).
  { subst wA. simpl. apply lookup_insert_eq. }
  destruct (watched_fields cfg rtsp c) as (_ & _ & _ & _ & _ & _ & Hwq).
  exists w1, rtsp, c, (io_read_init cfg rtsp c), wA.
  split; [exact H1|].
  split.
  { subst w1. simpl. unfold admission_events. rewrite Hlog, Hsctp.
    by repeat (rewrite <- app_assoc; simpl). }
  split; [done|].
  split; [apply not_elem_of_dom, is_fresh|].
  split; [exact Hc|].
  split; [subst w1; simpl; apply lookup_insert_eq|].
  split; [done|]. split; [done|]. split; [exact Hkind|].
  split; [exact Hqueue|]. split; [exact Hstrategy|].
  split; [by rewrite (rtsp_write_string_run rtsp s w1 c Hc), Hstrategy|].
  split; [exact H2|].
  rewrite HcA. simpl fmap.
  rewrite watched_ev_io_write, watched_write_data, Hwq, Hqueue, Hstrategy.
  unfold io_read_init. rewrite Hkind, Hsctp.
  split; [|split; [|split; [done|split; [done|]]]].
  - intros Hzero. rewrite Hzero. simpl. done.
  - intros Hnz. rewrite (proj2 (Z.eqb_neq 0 (RTSP_TCP cfg))) by done.
    split; [done|]. split; [done|]. split.
    + intros Hzero. rewrite Hzero. simpl. done.
    + intros Hnz'. by rewrite (proj2 (Z.eqb_neq 0 (RTSP_SCTP cfg))).
  - by rewrite (rtsp_write_string_run rtsp s wA _ HcA), watched_write_data,
      Hstrategy.
Qed.

Lemma unknown_protocol_client_has_no_write_strategy_witness :
  exists w1 rtsp c io wA,
    rtsp_client_incoming_cb sample_build (incoming 17) sample_listener
      listening_world = Some (tt, w1) /\
    trace w1 = trace listening_world ++
      [E_accept (fd sample_listener); E_getsockname (accept_ret (incoming 17));
       E_getsockopt (accept_ret (incoming 17));
       E_fnc_log FNC_LOG_INFO "Incoming connection accepted on socket: %d"
         [accept_ret (incoming 17)];
       E_ev_loop_new] ++
      map E_fnc_perror (ev_loop_new_syserr (incoming 17)) ++
      [E_fnc_log FNC_LOG_ERR "Invalid socket protocol: %d"
         [so_protocol (incoming 17)];
       E_g_thread_pool_push rtsp] /\
    client_threads w1 = client_threads listening_world ++ [rtsp] /\
    clients listening_world !! rtsp = None /\
    clients w1 !! rtsp = Some c /\
    vhosts w1 !! 9%positive = Some (2 + 1) /\
    sd c = accept_ret (incoming 17) /\
    input c = Some [] /\
    socktype c = 0 /\
    out_queue c = None /\
    write_data c = None /\
    rtsp_write_string (Some rtsp) [Byte.x4f; Byte.x4b] w1 = None /\
    client_loop_watchers sample_build quiet_env rtsp w1
      = Some ((ev_loop_new_ret (incoming 17), io), wA) /\
    (RTSP_TCP sample_build = 0 ->
     socktype c = RTSP_TCP sample_build /\
     io = {| io_data := Some rtsp; io_cb := Some rtsp_tcp_read_cb;
             io_fd := accept_ret (incoming 17); io_events := Some EV_READ |} /\
     ev_io_write <$> clients wA !! rtsp =
       Some {| io_data := Some rtsp; io_cb := Some rtsp_tcp_write_cb;
               io_fd := accept_ret (incoming 17);
               io_events := Some EV_WRITE |}) /\
    (RTSP_TCP sample_build <> 0 ->
     socktype c <> RTSP_TCP sample_build /\
     ev_io_write <$> clients wA !! rtsp = Some (ev_io_write RTSP_Client_zero) /\
     (RTSP_SCTP sample_build = 0 ->
      io = {| io_data := Some rtsp; io_cb := Some rtsp_sctp_read_cb;
              io_fd := accept_ret (incoming 17); io_events := Some EV_READ |}) /\
     (RTSP_SCTP sample_build <> 0 ->
      io = {| io_data := Some rtsp; io_cb := None; io_fd := 0;
              io_events := None |})) /\
    out_queue <$> clients wA !! rtsp = Some None /\
    write_data <$> clients wA !! rtsp = Some None /\
    rtsp_write_string (Some rtsp) [Byte.x4f; Byte.x4b] wA = None.
Proof.
  apply (unknown_protocol_client_has_no_write_strategy sample_build
           (incoming 17) sample_listener quiet_env listening_world
           9%positive 2 [Byte.x4f; Byte.x4b]).
  - reflexivity.
  - simpl. lia.
  - simpl. lia.
  - reflexivity.
  - simpl. lia.
  - discriminate.
  - discriminate.
  - reflexivity.
  - vm_compute. reflexivity.
Defined.
